(** * Task Manager: scheduling and execution engine

    A shallow embedding of the backend of the task manager
    (repository layer, task service, controller, scheduler service and the
    request validator) together with the properties of its specification.

    Conventions of the embedding.
    - Instants are milliseconds since the epoch, in [Z]; a JavaScript [Date]
      is [ValidDate ms] or [InvalidDate].  Local time is taken at a fixed
      offset from UTC, so minute and hour arithmetic does not depend on the
      offset and is written on the UTC value.
    - Strings are sequences of 8-bit code units ([string]).
    - JSON numbers are the integers; fractions and exponents are outside the
      model.
    - The database is an in-memory table of rows; every query succeeds.
    - The repository, the service and the controller are embedded
      sequentially, in a state and exception monad over the world: one
      call runs to completion.  The scheduler, whose methods share a
      counter and a queue across their [await]s, is embedded as a
      transition system whose steps are the synchronous segments between
      two [await]s. *)

From Stdlib Require Import ZArith List String Ascii Bool Lia.
From Stdlib Require Import Sorted.
From Stdlib Require Import DecimalString.
From Stdlib Require DecimalZ DecimalPos DecimalFacts.
Import ListNotations.

Open Scope string_scope.
Open Scope Z_scope.

(* ================================================================== *)
(** ** JavaScript strings and values *)

Module Js.

Definition code (c : ascii) : Z := Z.of_nat (nat_of_ascii c).

(** White space removed by [String.prototype.trim] and skipped by
    [parseInt], within the 8-bit range: TAB, LF, VT, FF, CR, SP, NBSP. *)
Definition is_space (c : ascii) : bool :=
  let n := code c in
  ((9 <=? n) && (n <=? 13)) || (n =? 32) || (n =? 160).

Fixpoint trimStart (s : string) : string :=
  match s with
  | String c r => if is_space c then trimStart r else s
  | EmptyString => EmptyString
  end.

Fixpoint trimEnd (s : string) : string :=
  match s with
  | EmptyString => EmptyString
  | String c r =>
      match trimEnd r with
      | EmptyString => if is_space c then EmptyString else String c EmptyString
      | r' => String c r'
      end
  end.

Definition trim (s : string) : string := trimEnd (trimStart s).

Definition lower_char (c : ascii) : ascii :=
  let n := code c in
  if ((65 <=? n) && (n <=? 90))
     || ((192 <=? n) && (n <=? 222) && negb (n =? 215))
  then ascii_of_nat (Z.to_nat (n + 32)) else c.

Fixpoint toLowerCase (s : string) : string :=
  match s with
  | EmptyString => EmptyString
  | String c r => String (lower_char c) (toLowerCase r)
  end.

Definition startsWith (s p : string) : bool := String.prefix p s.

(** [s.split(sep)] for a one-character separator. *)
Fixpoint split (sep : ascii) (s : string) : list string :=
  match s with
  | EmptyString => [EmptyString]
  | String c r =>
      if Ascii.eqb c sep then EmptyString :: split sep r
      else match split sep r with
           | h :: t => String c h :: t
           | [] => [String c EmptyString]
           end
  end.

(** [s.replace(pat, rep)] with a string pattern: the first occurrence
    only. *)
Fixpoint replace (pat rep s : string) : string :=
  if String.prefix pat s
  then rep ++ String.substring (String.length pat)
                (String.length s - String.length pat)%nat s
  else match s with
       | EmptyString => EmptyString
       | String c r => String c (replace pat rep r)
       end.

Definition digit_val (c : ascii) : option Z :=
  let n := code c in
  if (48 <=? n) && (n <=? 57) then Some (n - 48) else None.

Definition hex_val (c : ascii) : option Z :=
  let n := code c in
  if (48 <=? n) && (n <=? 57) then Some (n - 48)
  else if (97 <=? n) && (n <=? 102) then Some (n - 87)
  else if (65 <=? n) && (n <=? 70) then Some (n - 55)
  else None.

(** Longest prefix of digits in the given radix, most significant first;
    [None] when there is no digit at all. *)
Fixpoint digits (val : ascii -> option Z) (radix : Z) (s : string)
         (acc : option Z) : option Z :=
  match s with
  | EmptyString => acc
  | String c r =>
      match val c with
      | Some d =>
          digits val radix r
            (Some (match acc with Some a => a * radix + d | None => d end))
      | None => acc
      end
  end.

(** [parseInt(s)] without a radix argument; [None] is [NaN]. *)
Definition parseInt (s : string) : option Z :=
  let body (t : string) :=
    match t with
    | String "0" (String "x" h) | String "0" (String "X" h) =>
        digits hex_val 16 h None
    | _ => digits digit_val 10 t None
    end in
  match trimStart s with
  | String "-" t => option_map Z.opp (body t)
  | String "+" t => body t
  | t => body t
  end.

(** The Number value of an integer: the nearest double, a tie going to
    the even significand.  The operators [+], [-] and [*] round their
    result this way.  An integer from [2^1024] on stands for an infinity;
    it is beyond every time value. *)
Definition double (x : Z) : Z :=
  let a := Z.abs x in
  let e := Z.log2 a in
  if e <? 53 then x
  else
    let q := 2 ^ (e - 52) in
    let d := a / q in
    let r := a mod q in
    let up := (q <? 2 * r) || ((2 * r =? q) && Z.odd d) in
    Z.sgn x * ((if up then d + 1 else d) * q).

End Js.

(* ================================================================== *)
(** ** JSON values, [JSON.stringify] and [JSON.parse] *)

Module Json.

(** A JSON value.  An object lists its own properties in enumeration
    order; [wf] below says that its keys are distinct. *)
#[local] Unset Elimination Schemes.
Inductive json : Type :=
| JNull
| JBool (b : bool)
| JNum (n : Z)
| JStr (s : string)
| JArr (l : list json)
| JObj (l : list (string * json)).
#[local] Set Elimination Schemes.

(** A JavaScript value read from a request body: [None] is [undefined]. *)
Definition jsval : Type := option json.

(** [ToBoolean]. *)
Definition truthy (v : jsval) : bool :=
  match v with
  | None | Some JNull => false
  | Some (JBool b) => b
  | Some (JNum n) => negb (n =? 0)
  | Some (JStr s) => negb (String.eqb s "")
  | Some (JArr _) | Some (JObj _) => true
  end.

Definition typeof (v : jsval) : string :=
  match v with
  | None => "undefined"
  | Some JNull | Some (JArr _) | Some (JObj _) => "object"
  | Some (JBool _) => "boolean"
  | Some (JNum _) => "number"
  | Some (JStr _) => "string"
  end.

Fixpoint nodup_keys (ks : list string) : bool :=
  match ks with
  | [] => true
  | k :: t => negb (existsb (String.eqb k) t) && nodup_keys t
  end.

(** Values a JavaScript object graph can hold: no object has the same key
    twice. *)
Fixpoint wf (v : json) : bool :=
  match v with
  | JArr l => forallb wf l
  | JObj l => nodup_keys (map fst l) && forallb (fun kv => wf (snd kv)) l
  | _ => true
  end.

Definition dquote : ascii := "034"%char.
Definition backslash : ascii := "092"%char.

Definition hex_digit (n : Z) : ascii :=
  ascii_of_nat (Z.to_nat (if n <? 10 then 48 + n else 87 + n)).

(** [QuoteJSONString], one code unit. *)
Definition quote_char (c : ascii) : string :=
  let n := Js.code c in
  if n =? 34 then String backslash (String dquote "")
  else if n =? 92 then String backslash (String backslash "")
  else if n =? 8 then String backslash "b"
  else if n =? 9 then String backslash "t"
  else if n =? 10 then String backslash "n"
  else if n =? 12 then String backslash "f"
  else if n =? 13 then String backslash "r"
  else if n <? 32
       then String backslash
              (String "u" (String "0" (String "0"
                 (String (hex_digit (n / 16))
                    (String (hex_digit (n mod 16)) "")))))
  else String c "".

Fixpoint quote_body (s : string) : string :=
  match s with
  | EmptyString => String dquote ""
  | String c r => quote_char c ++ quote_body r
  end.

Definition quote (s : string) : string := String dquote (quote_body s).

(** [Number.prototype.toString] on an integer: the decimal numeral in
    full (JavaScript switches to an exponent from 1e21 on). *)
Definition number_to_string (n : Z) : string :=
  NilZero.string_of_int (Z.to_int n).

(** [JSON.stringify(v)] with no replacer and no indentation. *)
Fixpoint stringify (v : json) : string :=
  match v with
  | JNull => "null"
  | JBool true => "true"
  | JBool false => "false"
  | JNum n => number_to_string n
  | JStr s => quote s
  | JArr [] => "[]"
  | JArr (x :: t) =>
      String "[" (stringify x ++
        (fix more (l : list json) : string :=
           match l with
           | [] => "]"
           | y :: l' => String "," (stringify y ++ more l')
           end) t)
  | JObj [] => "{}"
  | JObj ((k, x) :: t) =>
      String "{" (quote k ++ String ":" (stringify x ++
        (fix more (l : list (string * json)) : string :=
           match l with
           | [] => "}"
           | (k', y) :: l' =>
               String "," (quote k' ++ String ":" (stringify y ++ more l'))
           end) t))
  end.

(** The text after the first element of an array, and after the first
    member of an object. *)
Definition more_elements : list json -> string :=
  fix more (l : list json) : string :=
    match l with
    | [] => "]"
    | y :: l' => String "," (stringify y ++ more l')
    end.

Definition more_members : list (string * json) -> string :=
  fix more (l : list (string * json)) : string :=
    match l with
    | [] => "}"
    | (k', y) :: l' =>
        String "," (quote k' ++ String ":" (stringify y ++ more l'))
    end.

(** *** Parsing *)

Definition is_ws (c : ascii) : bool :=
  let n := Js.code c in (n =? 32) || (n =? 9) || (n =? 10) || (n =? 13).

Fixpoint skip_ws (s : string) : string :=
  match s with
  | String c r => if is_ws c then skip_ws r else s
  | EmptyString => EmptyString
  end.

(** [strip p s] removes the prefix [p] of [s]. *)
Fixpoint strip (p s : string) : option string :=
  match p with
  | EmptyString => Some s
  | String a p' =>
      match s with
      | String b s' => if Ascii.eqb a b then strip p' s' else None
      | EmptyString => None
      end
  end.

Definition unit_of_hex (a b c d : ascii) : option ascii :=
  match Js.hex_val a, Js.hex_val b, Js.hex_val c, Js.hex_val d with
  | Some x, Some y, Some z, Some w =>
      let n := ((x * 16 + y) * 16 + z) * 16 + w in
      if n <? 256 then Some (ascii_of_nat (Z.to_nat n)) else None
  | _, _, _, _ => None
  end.

(** The characters of a string literal after its opening quote, up to and
    including the closing quote. *)
Fixpoint parse_string (s : string) : option (string * string) :=
  let cons (c : ascii) (k : option (string * string)) :=
    match k with
    | Some (str, r) => Some (String c str, r)
    | None => None
    end in
  match s with
  | EmptyString => None
  | String c r =>
      if Ascii.eqb c dquote then Some (EmptyString, r)
      else if Ascii.eqb c backslash then
        match r with
        | String e r1 =>
            if Ascii.eqb e dquote then cons dquote (parse_string r1)
            else if Ascii.eqb e backslash then cons backslash (parse_string r1)
            else if Ascii.eqb e "/" then cons "/"%char (parse_string r1)
            else if Ascii.eqb e "b" then cons "008"%char (parse_string r1)
            else if Ascii.eqb e "f" then cons "012"%char (parse_string r1)
            else if Ascii.eqb e "n" then cons "010"%char (parse_string r1)
            else if Ascii.eqb e "r" then cons "013"%char (parse_string r1)
            else if Ascii.eqb e "t" then cons "009"%char (parse_string r1)
            else if Ascii.eqb e "u" then
              match r1 with
              | String h1 (String h2 (String h3 (String h4 r2))) =>
                  match unit_of_hex h1 h2 h3 h4 with
                  | Some u => cons u (parse_string r2)
                  | None => None
                  end
              | _ => None
              end
            else None
        | EmptyString => None
        end
      else if Js.code c <? 32 then None
      else cons c (parse_string r)
  end.

Definition is_digit (c : ascii) : bool :=
  (48 <=? Js.code c) && (Js.code c <=? 57).

Fixpoint span_digits (s : string) : string * string :=
  match s with
  | String c r =>
      if is_digit c
      then let (d, r') := span_digits r in (String c d, r')
      else (EmptyString, s)
  | EmptyString => (EmptyString, EmptyString)
  end.

(** What may not follow the integer part of a number in this model: a
    fraction or an exponent. *)
Definition starts_fraction (s : string) : bool :=
  match s with
  | String c _ =>
      Ascii.eqb c "." || Ascii.eqb c "e" || Ascii.eqb c "E"
  | EmptyString => false
  end.

Definition parse_number (s : string) : option (Z * string) :=
  let (neg, body) :=
    match s with
    | String c r => if Ascii.eqb c "-" then (true, r) else (false, s)
    | EmptyString => (false, s)
    end in
  let (ds, rest) := span_digits body in
  match ds with
  | EmptyString => None
  | String d ds' =>
      if Ascii.eqb d "0" && negb (String.eqb ds' "") then None
      else if starts_fraction rest then None
      else match NilZero.uint_of_string ds with
           | Some u =>
               Some (if neg then Z.opp (Z.of_uint u) else Z.of_uint u, rest)
           | None => None
           end
  end.

(** Defining a property on an object: a repeated key keeps its place and
    takes the later value. *)
Fixpoint set_member (k : string) (v : json) (o : list (string * json))
  : list (string * json) :=
  match o with
  | [] => [(k, v)]
  | (k', v') :: t =>
      if String.eqb k k' then (k, v) :: t else (k', v') :: set_member k v t
  end.

Definition object_of (ms : list (string * json)) : list (string * json) :=
  fold_left (fun o kv => set_member (fst kv) (snd kv) o) ms [].

Fixpoint parse_value (fuel : nat) (s : string) : option (json * string) :=
  match fuel with
  | O => None
  | S f =>
      match skip_ws s with
      | EmptyString => None
      | String c r =>
          if Ascii.eqb c "n" then
            option_map (pair JNull) (strip "ull" r)
          else if Ascii.eqb c "t" then
            option_map (pair (JBool true)) (strip "rue" r)
          else if Ascii.eqb c "f" then
            option_map (pair (JBool false)) (strip "alse" r)
          else if Ascii.eqb c dquote then
            match parse_string r with
            | Some (str, r') => Some (JStr str, r')
            | None => None
            end
          else if Ascii.eqb c "[" then
            match strip "]" (skip_ws r) with
            | Some r' => Some (JArr [], r')
            | None =>
                match parse_elements f r with
                | Some (l, r') => Some (JArr l, r')
                | None => None
                end
            end
          else if Ascii.eqb c "{" then
            match strip "}" (skip_ws r) with
            | Some r' => Some (JObj [], r')
            | None =>
                match parse_members f r with
                | Some (ms, r') => Some (JObj (object_of ms), r')
                | None => None
                end
            end
          else
            match parse_number (String c r) with
            | Some (n, r') => Some (JNum n, r')
            | None => None
            end
      end
  end
with parse_elements (fuel : nat) (s : string)
  : option (list json * string) :=
  match fuel with
  | O => None
  | S f =>
      match parse_value f s with
      | Some (v, r) =>
          match skip_ws r with
          | String c r' =>
              if Ascii.eqb c "," then
                match parse_elements f r' with
                | Some (l, r'') => Some (v :: l, r'')
                | None => None
                end
              else if Ascii.eqb c "]" then Some ([v], r')
              else None
          | EmptyString => None
          end
      | None => None
      end
  end
with parse_members (fuel : nat) (s : string)
  : option (list (string * json) * string) :=
  match fuel with
  | O => None
  | S f =>
      match strip (String dquote "") (skip_ws s) with
      | Some r =>
          match parse_string r with
          | Some (k, r1) =>
              match strip ":" (skip_ws r1) with
              | Some r2 =>
                  match parse_value f r2 with
                  | Some (v, r3) =>
                      match skip_ws r3 with
                      | String c r4 =>
                          if Ascii.eqb c "," then
                            match parse_members f r4 with
                            | Some (ms, r5) => Some ((k, v) :: ms, r5)
                            | None => None
                            end
                          else if Ascii.eqb c "}" then Some ([(k, v)], r4)
                          else None
                      | EmptyString => None
                      end
                  | None => None
                  end
              | None => None
              end
          | None => None
          end
      | None => None
      end
  end.

(** Nothing that could continue a number. *)
Definition ends_number (s : string) : bool :=
  match s with
  | String c _ => negb (is_digit c) && negb (starts_fraction s)
  | EmptyString => true
  end.

(** The first character of the text of a value: not white space and not
    a closing bracket. *)
Definition opens_value (s : string) : bool :=
  match s with
  | String c _ =>
      negb (is_ws c) && negb (Ascii.eqb c "]") && negb (Ascii.eqb c "}")
  | EmptyString => false
  end.

Definition opens_number (s : string) : bool :=
  match s with
  | String c _ => is_digit c || Ascii.eqb c "-"
  | EmptyString => false
  end.

(** [JSON.parse(s)]; [None] is a [SyntaxError]. *)
Definition parse (s : string) : option json :=
  match parse_value (S (String.length s)) s with
  | Some (v, r) =>
      match skip_ws r with
      | EmptyString => Some v
      | String _ _ => None
      end
  | None => None
  end.

(** The parser reads the text of [v] back, whatever follows it, with
    fuel for every character of the text. *)
Definition roundtrips (v : json) : Prop :=
  forall fuel rest,
    (String.length (stringify v) <= fuel)%nat ->
    ends_number rest = true ->
    parse_value fuel (stringify v ++ rest) = Some (v, rest).

End Json.

(* ================================================================== *)
(** ** Error classes (utils/errors/customErrors) *)

Module Errors.

(** A thrown value.  [statusCode] and [errorCode] are present exactly on
    the instances of [BaseApplicationError]; the [timestamp] property is
    left out. *)
Record JsError : Type := mkError {
  name : string;
  message : string;
  statusCode : option Z;
  errorCode : option string
}.

Definition BaseApplicationError (cls msg : string) (status : Z)
           (code : string) : JsError :=
  mkError cls msg (Some status) (Some code).

Definition instanceofBaseApplicationError (e : JsError) : bool :=
  match statusCode e with Some _ => true | None => false end.

Definition TaskNotFoundError (taskId : string) : JsError :=
  BaseApplicationError "TaskNotFoundError"
    ("Task with ID '" ++ taskId ++ "' does not exist") 404 "TASK_NOT_FOUND".

Definition InvalidTaskStateError (currentState attemptedAction : string)
  : JsError :=
  BaseApplicationError "InvalidTaskStateError"
    ("Cannot " ++ attemptedAction ++ " task in '" ++ currentState
       ++ "' state")
    400 "INVALID_STATE_TRANSITION".

Definition ValidationError (field msg : string) : JsError :=
  BaseApplicationError "ValidationError"
    ("Validation failed for '" ++ field ++ "': " ++ msg)
    400 "VALIDATION_ERROR".

Definition DatabaseOperationError (operation details : string) : JsError :=
  BaseApplicationError "DatabaseOperationError"
    ("Database operation '" ++ operation ++ "' failed: " ++ details)
    500 "DB_OPERATION_FAILED".

Definition WebhookDeliveryError (url reason : string) : JsError :=
  BaseApplicationError "WebhookDeliveryError"
    ("Webhook delivery to '" ++ url ++ "' failed: " ++ reason)
    502 "WEBHOOK_DELIVERY_FAILED".

Definition TaskExecutionError (taskId reason : string) : JsError :=
  BaseApplicationError "TaskExecutionError"
    ("Task execution failed for '" ++ taskId ++ "': " ++ reason)
    500 "EXECUTION_FAILED".

Definition ConcurrencyLimitError (currentCount limit : Z) : JsError :=
  BaseApplicationError "ConcurrencyLimitError"
    ("Maximum concurrent tasks limit reached ("
       ++ Json.number_to_string currentCount ++ "/"
       ++ Json.number_to_string limit ++ ")")
    429 "CONCURRENCY_LIMIT_EXCEEDED".

(** Errors raised by the language itself. *)
Definition TypeError (msg : string) : JsError :=
  mkError "TypeError" msg None None.

Definition SyntaxError (msg : string) : JsError :=
  mkError "SyntaxError" msg None None.

End Errors.

(* ================================================================== *)
(** ** Data model: rows, tasks, the process state *)

Module Model.
Import Json.

Inductive JsDate : Type :=
| ValidDate (ms : Z)
| InvalidDate.

(** *** Dates (ECMAScript, Date objects)

    A time value is a number of milliseconds since the epoch, in UTC.
    The fields of a date are those of local time. *)

(** The time zone of the host: the offset of local time from UTC, in
    milliseconds, that holds at first, and the changes of the clocks in
    the order of time, each with its UTC instant and the offset that
    holds from then on. *)
Record Zone : Type := mkZone {
  offset : Z;
  changes : list (Z * Z)
}.

(** The offset at the UTC instant [t]. *)
Fixpoint offset_at (off : Z) (l : list (Z * Z)) (t : Z) : Z :=
  match l with
  | [] => off
  | (change, off') :: rest =>
      if t <? change then off else offset_at off' rest t
  end.

(** The offset at the local time [t].  A local time that a change of
    the clocks repeats or skips is read with the offset from before the
    change. *)
Fixpoint offset_of_local (off : Z) (l : list (Z * Z)) (t : Z) : Z :=
  match l with
  | [] => off
  | (change, off') :: rest =>
      if t <? change + Z.max off off' then off
      else offset_of_local off' rest t
  end.

(** [LocalTZA(t, isUTC)] *)
Definition LocalTZA (z : Zone) (t : Z) (isUTC : bool) : Z :=
  if isUTC then offset_at (offset z) (changes z) t
  else offset_of_local (offset z) (changes z) t.

Definition msPerDay : Z := 86400000.
Definition msPerHour : Z := 3600000.
Definition msPerMinute : Z := 60000.
Definition msPerSecond : Z := 1000.

Definition Day (t : Z) : Z := t / msPerDay.
Definition HourFromTime (t : Z) : Z := (t / msPerHour) mod 24.
Definition MinFromTime (t : Z) : Z := (t / msPerMinute) mod 60.
Definition SecFromTime (t : Z) : Z := (t / msPerSecond) mod 60.
Definition msFromTime (t : Z) : Z := t mod msPerSecond.

Definition LocalTime (z : Zone) (t : Z) : Z :=
  Js.double (t + LocalTZA z t true).

Definition UTC (z : Zone) (t : Z) : Z :=
  Js.double (t - LocalTZA z t false).

Definition MakeTime (hour min sec ms : Z) : Z :=
  Js.double
    (Js.double
       (Js.double (Js.double (hour * msPerHour)
                   + Js.double (min * msPerMinute))
        + Js.double (sec * msPerSecond))
     + ms).

Definition MakeDate (day time : Z) : Z :=
  Js.double (Js.double (day * msPerDay) + time).

(** [TimeClip]: a time value is at most 8.64e15 ms away from the
    epoch. *)
Definition TimeClip (time : Z) : JsDate :=
  if 8640000000000000 <? Z.abs time then InvalidDate else ValidDate time.

Definition getMinutes (z : Zone) (tv : Z) : Z := MinFromTime (LocalTime z tv).
Definition getHours (z : Zone) (tv : Z) : Z := HourFromTime (LocalTime z tv).

(** [d.setMinutes(min)]: the minute of the local time is replaced, the
    other fields are kept, and the local time is read back as an instant;
    [None] for [min] is [NaN]. *)
Definition setMinutes (z : Zone) (d : JsDate) (min : option Z) : JsDate :=
  match d, min with
  | ValidDate tv, Some m =>
      let t := LocalTime z tv in
      TimeClip
        (UTC z (MakeDate (Day t)
                  (MakeTime (HourFromTime t) m (SecFromTime t)
                            (msFromTime t))))
  | _, _ => InvalidDate
  end.

(** [d.setHours(hour)] *)
Definition setHours (z : Zone) (d : JsDate) (hour : option Z) : JsDate :=
  match d, hour with
  | ValidDate tv, Some h =>
      let t := LocalTime z tv in
      TimeClip
        (UTC z (MakeDate (Day t)
                  (MakeTime h (MinFromTime t) (SecFromTime t)
                            (msFromTime t))))
  | _, _ => InvalidDate
  end.

(** The value of the [payload_data] column as the driver returns it. *)
Inductive DbCell : Type :=
| CellText (s : string)
| CellJson (v : json).

(** A record of the [task_queue] table.  [P] is the type of the payload
    and [R] of the recurrence flag: a database row has a cell and a 0/1
    number, a task returned by the repository has the parsed payload and
    a boolean.  [task_label] and [schedule_pattern] hold the values of the
    request as they were bound; [JNull] is SQL NULL. *)
Record TaskRec (P R : Type) : Type := mkTask {
  task_id : string;
  task_label : json;
  payload_data : P;
  urgency_level : string;
  schedule_pattern : json;
  is_recurring : R;
  next_execution_at : option JsDate;
  execution_state : string;
  execution_attempts : Z;
  execution_duration_ms : option Z;
  failure_reason : option string;
  last_executed_at : option JsDate;
  completed_at : option JsDate;
  spawned_at : Z;
  modified_at : Z
}.

Arguments mkTask {P R}.
Arguments task_id {P R}.
Arguments task_label {P R}.
Arguments payload_data {P R}.
Arguments urgency_level {P R}.
Arguments schedule_pattern {P R}.
Arguments is_recurring {P R}.
Arguments next_execution_at {P R}.
Arguments execution_state {P R}.
Arguments execution_attempts {P R}.
Arguments execution_duration_ms {P R}.
Arguments failure_reason {P R}.
Arguments last_executed_at {P R}.
Arguments completed_at {P R}.
Arguments spawned_at {P R}.
Arguments modified_at {P R}.

Definition Row : Type := TaskRec DbCell Z.
Definition Task : Type := TaskRec json bool.

(** A record of the [execution_history] table. *)
Record HistoryRow : Type := mkHistory {
  h_task_id : string;
  execution_status : string;
  started_at : Z;
  finished_at : Z;
  duration_ms : Z;
  error_message : option string
}.

(** The scheduler singleton (constructor of [SchedulerService]);
    [schedulerJob] is represented by [isRunning]. *)
Record Scheduler : Type := mkScheduler {
  activeTasksCount : Z;
  maxConcurrentTasks : Z;
  taskQueue : list Task;
  isRunning : bool
}.

(** The state of the process and of its database, and the host it runs
    on: its clock and its time zone. *)
Record World : Type := mkWorld {
  task_queue : list Row;
  execution_history : list HistoryRow;
  clock : Z;
  scheduler : Scheduler;
  zone : Zone
}.

(** What [deliverWebhook] resolves to. *)
Record WebhookResult : Type := mkWebhookResult {
  wh_success : bool;
  wh_statusCode : option Z;
  wh_body : option json
}.

(** The surroundings of the process.
    - the environment variables the backend reads;
    - [custom_logic]: the task-specific work that [_simulateTaskExecution]
      leaves a place for, by the message of the error it raises, if any
      (the source as it stands is [fun _ => None]);
    - [endpoint]: the answer of the notification endpoint. *)
Record Env : Type := mkEnv {
  TASK_SIMULATION_DELAY_MS : option string;
  MAX_CONCURRENT_TASKS : option string;
  NODE_ENV : option string;
  custom_logic : Task -> option string;
  endpoint : option Task -> WebhookResult
}.

(** *** The monad of sequential code: state and exceptions *)

Inductive Outcome (A : Type) : Type :=
| Return (a : A)
| Throw (e : Errors.JsError).
Arguments Return {A}.
Arguments Throw {A}.

Definition M (A : Type) : Type := World -> Outcome A * World.

Definition ret {A} (a : A) : M A := fun w => (Return a, w).
Definition throw {A} (e : Errors.JsError) : M A := fun w => (Throw e, w).
Definition bind {A B} (m : M A) (k : A -> M B) : M B :=
  fun w => match m w with
           | (Return a, w') => k a w'
           | (Throw e, w') => (Throw e, w')
           end.
Definition lift {A} (o : Outcome A) : M A := fun w => (o, w).

(** [try { m } catch (error) { h error }] *)
Definition tryCatch {A} (m : M A) (h : Errors.JsError -> M A) : M A :=
  fun w => match m w with
           | (Return a, w') => (Return a, w')
           | (Throw e, w') => h e w'
           end.

Definition get : M World := fun w => (Return w, w).

(** [Date.now()], [new Date()] and SQL [NOW()] read the same clock. *)
Definition Date_now : M Z := fun w => (Return (clock w), w).

(** The time zone that the methods of a [Date] read. *)
Definition host_zone : M Zone := fun w => (Return (zone w), w).

(** Suspension for [ms] milliseconds. *)
Definition sleep (ms : Z) : M unit :=
  fun w => (Return tt,
            mkWorld (task_queue w) (execution_history w) (clock w + ms)
                    (scheduler w) (zone w)).

End Model.

Declare Scope js_scope.
Delimit Scope js_scope with js.
Notation "x <- m ;; k" := (Model.bind m (fun x => k))
  (at level 61, m at next level, right associativity) : js_scope.
Notation "m ;;; k" := (Model.bind m (fun _ => k))
  (at level 61, right associativity) : js_scope.

(* ================================================================== *)
(** ** Repository layer (class [TaskRepository]) *)

Module TaskRepository.
Import Json Model Errors.
#[local] Open Scope js_scope.

(** The object [TaskService.createTask] hands to the repository. *)
Record TaskData : Type := mkTaskData {
  td_task_id : string;
  td_task_label : jsval;
  td_payload_data : jsval;
  td_urgency_level : string;
  td_schedule_pattern : json;
  td_is_recurring : bool;
  td_next_execution_at : option JsDate
}.

(** The third argument of [updateTaskState]; [None] is an absent
    property. *)
Record AdditionalData : Type := mkAdditional {
  ad_execution_attempts : option Z;
  ad_execution_duration_ms : option Z;
  ad_failure_reason : option string;
  ad_last_executed_at : option JsDate;
  ad_next_execution_at : option JsDate
}.

Definition no_data : AdditionalData := mkAdditional None None None None None.

(** The filters of [findAllTasks]. *)
Record Filters : Type := mkFilters {
  f_execution_state : option string;
  f_urgency_level : option string;
  f_is_recurring : option bool;
  f_limit : option string
}.

Definition no_filters : Filters := mkFilters None None None None.

(** *** The database *)

(** The driver refuses a parameter that is [undefined]. *)
Definition bind_param {A} (v : option A) : Outcome A :=
  match v with
  | Some x => Return x
  | None =>
      Throw (TypeError
        "Bind parameters must not contain undefined. To pass SQL NULL specify JS null")
  end.

(** Modelled from the spec: the defaults of the columns that the INSERT
    of [createTask] does not list (the schema of [task_queue] is not among
    the sources): a created task is [queued], has made no attempt, has no
    duration, error or run instants, and is stamped with the current
    time. *)
Definition insert_task_queue (task_id : string) (task_label : json)
           (payload_data : string) (urgency_level : string)
           (schedule_pattern : json) (is_recurring : bool)
           (next_execution_at : option JsDate) : M unit :=
  fun w =>
    let row : Row :=
      mkTask task_id task_label (CellText payload_data) urgency_level
             schedule_pattern (if is_recurring then 1 else 0)
             next_execution_at "queued" 0 None None None None
             (clock w) (clock w) in
    (Return tt,
     mkWorld (task_queue w ++ [row]) (execution_history w) (clock w)
             (scheduler w) (zone w)).

(** [WHERE task_id = ?] *)
Definition has_id (taskId : string) (r : Row) : bool :=
  String.eqb (task_id r) taskId.

(** [SELECT * FROM task_queue WHERE task_id = ?] *)
Definition select_by_id (taskId : string) : M (list Row) :=
  fun w => (Return (filter (has_id taskId) (task_queue w)), w).

(** One assignment of the SET list of an UPDATE. *)
Inductive Assignment : Type :=
| set_execution_state (s : string)
| set_execution_attempts (n : Z)
| set_execution_duration_ms (d : Z)
| set_failure_reason (s : string)
| set_completed_at_now
| set_last_executed_at (d : JsDate).

Definition assign {P R} (now : Z) (r : TaskRec P R) (a : Assignment)
  : TaskRec P R :=
  match a with
  | set_execution_state s =>
      mkTask (task_id r) (task_label r) (payload_data r) (urgency_level r)
             (schedule_pattern r) (is_recurring r) (next_execution_at r)
             s (execution_attempts r) (execution_duration_ms r)
             (failure_reason r) (last_executed_at r) (completed_at r)
             (spawned_at r) (modified_at r)
  | set_execution_attempts n =>
      mkTask (task_id r) (task_label r) (payload_data r) (urgency_level r)
             (schedule_pattern r) (is_recurring r) (next_execution_at r)
             (execution_state r) n (execution_duration_ms r)
             (failure_reason r) (last_executed_at r) (completed_at r)
             (spawned_at r) (modified_at r)
  | set_execution_duration_ms d =>
      mkTask (task_id r) (task_label r) (payload_data r) (urgency_level r)
             (schedule_pattern r) (is_recurring r) (next_execution_at r)
             (execution_state r) (execution_attempts r) (Some d)
             (failure_reason r) (last_executed_at r) (completed_at r)
             (spawned_at r) (modified_at r)
  | set_failure_reason s =>
      mkTask (task_id r) (task_label r) (payload_data r) (urgency_level r)
             (schedule_pattern r) (is_recurring r) (next_execution_at r)
             (execution_state r) (execution_attempts r)
             (execution_duration_ms r) (Some s) (last_executed_at r)
             (completed_at r) (spawned_at r) (modified_at r)
  | set_completed_at_now =>
      mkTask (task_id r) (task_label r) (payload_data r) (urgency_level r)
             (schedule_pattern r) (is_recurring r) (next_execution_at r)
             (execution_state r) (execution_attempts r)
             (execution_duration_ms r) (failure_reason r)
             (last_executed_at r) (Some (ValidDate now)) (spawned_at r)
             (modified_at r)
  | set_last_executed_at d =>
      mkTask (task_id r) (task_label r) (payload_data r) (urgency_level r)
             (schedule_pattern r) (is_recurring r) (next_execution_at r)
             (execution_state r) (execution_attempts r)
             (execution_duration_ms r) (failure_reason r) (Some d)
             (completed_at r) (spawned_at r) (modified_at r)
  end.

(** [UPDATE task_queue SET updates WHERE task_id = ?]; columns the
    schema may maintain by itself are left alone. *)
Definition update_task_queue (updates : list Assignment) (taskId : string)
  : M unit :=
  fun w =>
    (Return tt,
     mkWorld (map (fun r => if has_id taskId r
                            then fold_left (assign (clock w)) updates r
                            else r)
                  (task_queue w))
             (execution_history w) (clock w) (scheduler w) (zone w)).

Definition insert_execution_history (h : HistoryRow) : M unit :=
  fun w =>
    (Return tt,
     mkWorld (task_queue w) (execution_history w ++ [h]) (clock w)
             (scheduler w) (zone w)).

(** [DELETE FROM task_queue WHERE task_id = ?], with [affectedRows]. *)
Definition delete_task_queue (taskId : string) : M Z :=
  fun w =>
    (Return (Z.of_nat (List.length (filter (has_id taskId) (task_queue w)))),
     mkWorld (filter (fun r => negb (has_id taskId r)) (task_queue w))
             (execution_history w) (clock w) (scheduler w) (zone w)).

(** *** The methods *)

Definition Boolean_of_number (n : Z) : bool := negb (n =? 0).

(** Format task data (parse JSON fields). *)
Definition _formatTaskData (row : Row) : Outcome Task :=
  let parsed :=
    match payload_data row with
    | CellText s =>
        match Json.parse s with
        | Some v => Return v
        | None => Throw (SyntaxError "Unexpected token in JSON")
        end
    | CellJson v => Return v
    end in
  match parsed with
  | Return p =>
      Return
        (mkTask (task_id row) (task_label row) p (urgency_level row)
                (schedule_pattern row) (Boolean_of_number (is_recurring row))
                (next_execution_at row) (execution_state row)
                (execution_attempts row) (execution_duration_ms row)
                (failure_reason row) (last_executed_at row)
                (completed_at row) (spawned_at row) (modified_at row))
  | Throw e => Throw e
  end.

(** [rows.map(row => this._formatTaskData(row))] *)
Fixpoint format_all (rows : list Row) : Outcome (list Task) :=
  match rows with
  | [] => Return []
  | r :: t =>
      match _formatTaskData r with
      | Return x =>
          match format_all t with
          | Return l => Return (x :: l)
          | Throw e => Throw e
          end
      | Throw e => Throw e
      end
  end.

Definition rethrow {A} (operation : string) (m : M A) : M A :=
  tryCatch m (fun error =>
    throw (DatabaseOperationError operation (message error))).

Definition findTaskById (taskId : string) : M (option Task) :=
  rethrow "findTaskById"
    (results <- select_by_id taskId ;;
     match results with
     | [] => ret None
     | row :: _ => t <- lift (_formatTaskData row) ;; ret (Some t)
     end).

Definition createTask (taskData : TaskData) : M (option Task) :=
  rethrow "createTask"
    (label <- lift (bind_param (td_task_label taskData)) ;;
     payload <- lift (bind_param
                        (option_map Json.stringify
                                    (td_payload_data taskData))) ;;
     insert_task_queue
       (td_task_id taskData) label payload
       (td_urgency_level taskData)
       (if truthy (Some (td_schedule_pattern taskData))
        then td_schedule_pattern taskData else JNull)
       (td_is_recurring taskData || false)
       (td_next_execution_at taskData) ;;;
     findTaskById (td_task_id taskData)).

(** [ORDER BY spawned_at DESC] *)
Fixpoint insert_desc (r : Row) (l : list Row) : list Row :=
  match l with
  | [] => [r]
  | x :: t =>
      if spawned_at x <? spawned_at r then r :: l else x :: insert_desc r t
  end.

Definition order_by_spawned_at_desc (l : list Row) : list Row :=
  fold_right insert_desc [] l.

(** A filter is applied when its value is truthy. *)
Definition given (f : option string) : option string :=
  match f with
  | Some s => if String.eqb s "" then None else Some s
  | None => None
  end.

Definition findAllTasks (filters : Filters) : M (list Task) :=
  rethrow "findAllTasks"
    (w <- get ;;
     let by_state :=
       match given (f_execution_state filters) with
       | Some s => filter (fun r : Row => String.eqb (execution_state r) s)
       | None => fun l => l
       end in
     let by_urgency :=
       match given (f_urgency_level filters) with
       | Some s => filter (fun r : Row => String.eqb (urgency_level r) s)
       | None => fun l => l
       end in
     let by_recurring :=
       match f_is_recurring filters with
       | Some b => filter (fun r : Row =>
                             is_recurring r =? (if b then 1 else 0))
       | None => fun l => l
       end in
     let rows :=
       order_by_spawned_at_desc
         (by_recurring (by_urgency (by_state (task_queue w)))) in
     results <-
       match given (f_limit filters) with
       | Some l =>
           match Js.parseInt l with
           | Some n =>
               if n <? 0
               then throw (mkError "Error" "Incorrect arguments to LIMIT"
                                   None None)
               else ret (firstn (Z.to_nat n) rows)
           | None =>
               throw (mkError "Error" "Incorrect arguments to LIMIT"
                              None None)
           end
       | None => ret rows
       end ;;
     lift (format_all results)).

(** Update task state: the SET list built from the new state and the
    additional data. *)
Definition updates_of (newState : string) (additionalData : AdditionalData)
  : list Assignment :=
  ([set_execution_state newState]
   ++ match ad_execution_attempts additionalData with
      | Some n => [set_execution_attempts n]
      | None => []
      end
   ++ match ad_execution_duration_ms additionalData with
      | Some d => [set_execution_duration_ms d]
      | None => []
      end
   ++ match given (ad_failure_reason additionalData) with
      | Some s => [set_failure_reason s]
      | None => []
      end
   ++ (if String.eqb newState "completed" then [set_completed_at_now]
       else [])
   ++ match ad_last_executed_at additionalData with
      | Some d => [set_last_executed_at d]
      | None => []
      end)%list.

Definition updateTaskState (taskId newState : string)
           (additionalData : AdditionalData) : M (option Task) :=
  rethrow "updateTaskState"
    (update_task_queue (updates_of newState additionalData) taskId ;;;
     findTaskById taskId).

(** Get tasks ready for scheduled execution. *)
Definition findScheduledTasksReady : M (list Task) :=
  rethrow "findScheduledTasksReady"
    (w <- get ;;
     lift (format_all
             (filter
                (fun r : Row =>
                   (is_recurring r =? 1)
                   && match next_execution_at r with
                      | Some (ValidDate t) => t <=? clock w
                      | _ => false
                      end
                   && (String.eqb (execution_state r) "queued"
                       || String.eqb (execution_state r) "completed"))
                (task_queue w)))).

(** Log execution history; a failure of the INSERT is only logged. *)
Definition logExecution (taskId status : string) (startTime endTime : Z)
           (errorMessage : option string) : M unit :=
  let duration := endTime - startTime in
  tryCatch
    (insert_execution_history
       (mkHistory taskId status startTime endTime duration errorMessage))
    (fun _ => ret tt).

Definition deleteTask (taskId : string) : M bool :=
  rethrow "deleteTask"
    (affectedRows <- delete_task_queue taskId ;;
     ret (0 <? affectedRows)).

End TaskRepository.

(* ================================================================== *)
(** ** Notification sink *)

Module WebhookService.
Import Model.

(** Modelled from the spec: [deliverWebhook] of the webhook service.  Its
    source is not among the sources (the file of that name holds the task
    service).  The spec gives the contract
    [deliver(task) -> {success, statusCode?, body?}] and says that
    failures are never thrown: a delivery that fails resolves to a result
    whose [success] is false. *)
Definition deliverWebhook (env : Env) (task : option Task)
  : M WebhookResult :=
  ret (endpoint env task).

End WebhookService.

(* ================================================================== *)
(** ** Service layer (class [TaskService]) *)

Module TaskService.
Import Json Model.
#[local] Open Scope js_scope.

(** The body of a creation request. *)
Record TaskPayload : Type := mkPayload {
  taskName : jsval;
  payload : jsval;
  priority : jsval;
  schedulePattern : jsval
}.

(** The task as the API presents it. *)
Record TaskResponse : Type := mkResponse {
  id : string;
  r_taskName : json;
  r_payload : json;
  r_priority : string;
  status : string;
  isRecurring : bool;
  r_schedulePattern : json;
  nextExecutionAt : option JsDate;
  executionAttempts : Z;
  executionDuration : option Z;
  createdAt : Z;
  updatedAt : Z;
  completedAt : option JsDate;
  failureReason : option string
}.

Record ServiceResult : Type := mkResult {
  success : bool;
  r_message : option string;
  data : option TaskResponse
}.

(** Format task for API response. *)
Definition _formatTaskResponse (task : option Task) : M TaskResponse :=
  match task with
  | Some task =>
      ret (mkResponse (task_id task) (task_label task) (payload_data task)
                      (urgency_level task) (execution_state task)
                      (is_recurring task) (schedule_pattern task)
                      (next_execution_at task) (execution_attempts task)
                      (execution_duration_ms task) (spawned_at task)
                      (modified_at task) (completed_at task)
                      (failure_reason task))
  | None =>
      throw (Errors.TypeError
               "Cannot read properties of null (reading 'task_id')")
  end.

(** Validate cron pattern (basic validation): five parts. *)
Definition _isValidCronPattern (pattern : jsval) : M bool :=
  match pattern with
  | Some (JStr s) =>
      ret (Nat.eqb (List.length (Js.split " " (Js.trim s))) 5)
  | _ => throw (Errors.TypeError "pattern.trim is not a function")
  end.

Definition validPriorities : list string := ["low"; "medium"; "high"].

Definition includes (l : list string) (v : option string) : bool :=
  match v with
  | Some s => existsb (String.eqb s) l
  | None => false
  end.

(** Validate task payload. *)
Definition _validateTaskPayload (p : TaskPayload) : M unit :=
  blank <- (if negb (truthy (taskName p)) then ret true
            else match taskName p with
                 | Some (JStr s) =>
                     ret (Nat.eqb (String.length (Js.trim s)) 0)
                 | _ => throw (Errors.TypeError
                                 "payload.taskName.trim is not a function")
                 end) ;;
  (if blank : bool
   then throw (Errors.ValidationError "taskName" "Task name is required")
   else ret tt) ;;;
  (if negb (truthy (payload p))
   then throw (Errors.ValidationError "payload" "Payload data is required")
   else ret tt) ;;;
  lowered <- match priority p with
             | None | Some JNull => ret None
             | Some (JStr s) => ret (Some (Js.toLowerCase s))
             | _ => throw (Errors.TypeError
                             "payload.priority?.toLowerCase is not a function")
             end ;;
  (if negb (includes validPriorities lowered)
   then throw (Errors.ValidationError "priority"
                 "Must be one of: low, medium, high")
   else ret tt) ;;;
  (if truthy (schedulePattern p)
   then valid <- _isValidCronPattern (schedulePattern p) ;;
        if valid : bool then ret tt
        else throw (Errors.ValidationError "schedulePattern"
                      "Invalid cron pattern")
   else ret tt).

(** Calculate next execution time for recurring tasks. *)
Definition _calculateNextExecution (cronPattern : json) : M JsDate :=
  now <- Date_now ;;
  z <- host_zone ;;
  match cronPattern with
  | JStr s =>
      if Js.startsWith s "*/" then
        let minutes :=
          Js.parseInt (Js.replace "*/" "" (nth 0 (Js.split " " s) "")) in
        ret (setMinutes z (ValidDate now)
               (option_map (fun n => Js.double (getMinutes z now + n))
                           minutes))
      else
        ret (setHours z (ValidDate now)
                      (Some (Js.double (getHours z now + 1))))
  | _ => throw (Errors.TypeError "cronPattern.startsWith is not a function")
  end.

(** Create a new task; [uuid] is the result of [uuidv4()]. *)
Definition createTask (uuid : string) (taskPayload : TaskPayload)
  : M ServiceResult :=
  _validateTaskPayload taskPayload ;;;
  urgency <- match priority taskPayload with
             | Some (JStr s) => ret (Js.toLowerCase s)
             | _ => throw (Errors.TypeError
                             "taskPayload.priority.toLowerCase is not a function")
             end ;;
  next <- match schedulePattern taskPayload with
          | Some pattern =>
              if truthy (Some pattern)
              then d <- _calculateNextExecution pattern ;; ret (Some d)
              else ret None
          | None => ret None
          end ;;
  let taskData :=
    TaskRepository.mkTaskData
      uuid
      (taskName taskPayload)
      (payload taskPayload)
      urgency
      (match schedulePattern taskPayload with
       | Some pattern => if truthy (Some pattern) then pattern else JNull
       | None => JNull
       end)
      (truthy (schedulePattern taskPayload))
      next in
  createdTask <- TaskRepository.createTask taskData ;;
  d <- _formatTaskResponse createdTask ;;
  ret (mkResult true (Some "Task created successfully") (Some d)).

(** Get single task by ID. *)
Definition getTaskById (taskId : string) : M ServiceResult :=
  task <- TaskRepository.findTaskById taskId ;;
  match task with
  | None => throw (Errors.TaskNotFoundError taskId)
  | Some _ =>
      d <- _formatTaskResponse task ;;
      ret (mkResult true None (Some d))
  end.

(** Simulate task execution (placeholder for actual work). *)
Definition _simulateTaskExecution (env : Env) (task : Task) : M bool :=
  let delay :=
    match option_map Js.parseInt (TASK_SIMULATION_DELAY_MS env) with
    | Some (Some n) => if n =? 0 then 3000 else n
    | _ => 3000
    end in
  (* a timer with a negative delay fires at once *)
  sleep (Z.max 0 delay) ;;;
  match custom_logic env task with
  | Some msg => throw (Errors.mkError "Error" msg None None)
  | None => ret true
  end.

(** Schedule next execution for recurring task. *)
Definition _scheduleNextExecution (taskId : string) (cronPattern : json)
  : M unit :=
  nextExecution <- _calculateNextExecution cronPattern ;;
  TaskRepository.updateTaskState taskId "queued"
    (TaskRepository.mkAdditional None None None None (Some nextExecution)) ;;;
  ret tt.

(** Execute a task (main business logic). *)
Definition executeTask (env : Env) (taskId : string) : M ServiceResult :=
  found <- TaskRepository.findTaskById taskId ;;
  match found with
  | None => throw (Errors.TaskNotFoundError taskId)
  | Some task =>
      if String.eqb (execution_state task) "processing"
      then throw (Errors.InvalidTaskStateError (execution_state task)
                                               "execute")
      else
        startTime <- Date_now ;;
        tryCatch
          ((* Step 1: mark as processing *)
           stamp <- Date_now ;;
           TaskRepository.updateTaskState taskId "processing"
             (TaskRepository.mkAdditional
                (Some (execution_attempts task + 1)) None None
                (Some (ValidDate stamp)) None) ;;;
           (* Step 2: the work unit *)
           _simulateTaskExecution env task ;;;
           (* Step 3: mark as completed *)
           endTime <- Date_now ;;
           completedTask <-
             TaskRepository.updateTaskState taskId "completed"
               (TaskRepository.mkAdditional
                  None (Some (endTime - startTime)) None None None) ;;
           (* Step 4: log execution history *)
           TaskRepository.logExecution taskId "success" startTime endTime
                                       None ;;;
           (* Step 5: trigger webhook *)
           WebhookService.deliverWebhook env completedTask ;;;
           (* Step 6: if recurring, update next execution time *)
           (if is_recurring task && truthy (Some (schedule_pattern task))
            then _scheduleNextExecution taskId (schedule_pattern task)
            else ret tt) ;;;
           d <- _formatTaskResponse completedTask ;;
           ret (mkResult true (Some "Task executed successfully") (Some d)))
          (fun error =>
             endTime <- Date_now ;;
             (* Log failed execution *)
             TaskRepository.logExecution taskId "failure" startTime endTime
               (Some (Errors.message error)) ;;;
             (* Update task state to failed *)
             TaskRepository.updateTaskState taskId "failed"
               (TaskRepository.mkAdditional
                  None (Some (endTime - startTime))
                  (Some (Errors.message error)) None None) ;;;
             throw (Errors.TaskExecutionError taskId (Errors.message error)))
  end.

(** Delete a task. *)
Definition deleteTask (taskId : string) : M ServiceResult :=
  task <- TaskRepository.findTaskById taskId ;;
  match task with
  | None => throw (Errors.TaskNotFoundError taskId)
  | Some _ =>
      TaskRepository.deleteTask taskId ;;;
      ret (mkResult true (Some "Task deleted successfully") None)
  end.

(** The filters of a listing, as the query string gives them. *)
Record ListFilters : Type := mkListFilters {
  lf_status : option string;
  lf_priority : option string;
  lf_limit : option string
}.

Record TaskList : Type := mkTaskList {
  l_success : bool;
  count : nat;
  l_data : list TaskResponse
}.

(** [tasks.map(task => this._formatTaskResponse(task))] *)
Fixpoint format_each (tasks : list Task) : M (list TaskResponse) :=
  match tasks with
  | [] => ret []
  | task :: rest =>
      d <- _formatTaskResponse (Some task) ;;
      ds <- format_each rest ;;
      ret (d :: ds)
  end.

(** Get all tasks with filters. *)
Definition getAllTasks (filters : ListFilters) : M TaskList :=
  tasks <- TaskRepository.findAllTasks
             (TaskRepository.mkFilters (lf_status filters)
                (lf_priority filters) None (lf_limit filters)) ;;
  ds <- format_each tasks ;;
  ret (mkTaskList true (List.length tasks) ds).

(** Get tasks ready for scheduled execution. *)
Definition getScheduledTasksForExecution : M (list Task) :=
  TaskRepository.findScheduledTasksReady.

End TaskService.

(* ================================================================== *)
(** ** HTTP layer: error handler, controller, routes, request validator *)

Module Server.
Import Model.

Inductive Body : Type :=
| ResultBody (result : TaskService.ServiceResult)
| ErrorBody (code message : string).

Record Response : Type := mkRes {
  res_status : Z;
  res_body : Body
}.

(** Global error handler. *)
Definition errorHandler (env : Env) (error : Errors.JsError) : Response :=
  match Errors.statusCode error, Errors.errorCode error with
  | Some status, Some code =>
      mkRes status (ErrorBody code (Errors.message error))
  | _, _ =>
      mkRes 500
        (ErrorBody "INTERNAL_SERVER_ERROR"
           (match NODE_ENV env with
            | Some "production" => "An unexpected error occurred"
            | _ => Errors.message error
            end))
  end.

End Server.

Module TaskController.
Import Model Server.
#[local] Open Scope js_scope.

(** [next(error)] hands the error to the global error handler. *)
Definition next (env : Env) (error : Errors.JsError) : M Response :=
  ret (errorHandler env error).

(** Create new task: POST /api/v1/tasks *)
Definition createTask (env : Env) (uuid : string)
           (body : TaskService.TaskPayload) : M Response :=
  tryCatch
    (result <- TaskService.createTask uuid body ;;
     ret (mkRes 201 (ResultBody result)))
    (next env).

(** Get single task by ID: GET /api/v1/tasks/:id *)
Definition getTaskById (env : Env) (id : string) : M Response :=
  tryCatch
    (result <- TaskService.getTaskById id ;;
     ret (mkRes 200 (ResultBody result)))
    (next env).

(** Execute a task: POST /api/v1/run-job/:id *)
Definition executeTask (env : Env) (id : string) : M Response :=
  tryCatch
    (result <- TaskService.executeTask env id ;;
     ret (mkRes 200 (ResultBody result)))
    (next env).

(** Delete a task: DELETE /api/v1/tasks/:id *)
Definition deleteTask (env : Env) (id : string) : M Response :=
  tryCatch
    (result <- TaskService.deleteTask id ;;
     ret (mkRes 200 (ResultBody result)))
    (next env).

(** The counts of [getTaskStats]. *)
Record Stats : Type := mkStats {
  total : nat;
  queued : nat;
  processing : nat;
  completed : nat;
  failed : nat;
  recurring : nat
}.

(** The answer of a listing route. *)
Inductive ListAnswer : Type :=
| Listed (status : Z) (result : TaskService.TaskList)
| Counted (status : Z) (stats : Stats)
| Failed (res : Response).

(** Get all tasks with optional filters: GET /api/v1/tasks *)
Definition getAllTasks (env : Env) (query : TaskService.ListFilters)
  : M ListAnswer :=
  tryCatch
    (result <- TaskService.getAllTasks
                 (TaskService.mkListFilters (TaskService.lf_status query)
                    (TaskService.lf_priority query)
                    (TaskService.lf_limit query)) ;;
     ret (Listed 200 result))
    (fun error => ret (Failed (errorHandler env error))).

Definition count_status (s : string) (l : list TaskService.TaskResponse)
  : nat :=
  List.length (filter (fun t => String.eqb (TaskService.status t) s) l).

(** Get task statistics: GET /api/v1/tasks/stats/overview *)
Definition getTaskStats (env : Env) : M ListAnswer :=
  tryCatch
    (allTasks <- TaskService.getAllTasks
                   (TaskService.mkListFilters None None None) ;;
     let stats :=
       mkStats (TaskService.count allTasks)
               (count_status "queued" (TaskService.l_data allTasks))
               (count_status "processing" (TaskService.l_data allTasks))
               (count_status "completed" (TaskService.l_data allTasks))
               (count_status "failed" (TaskService.l_data allTasks))
               (List.length (filter TaskService.isRecurring
                                    (TaskService.l_data allTasks))) in
     ret (Counted 200 stats))
    (fun error => ret (Failed (errorHandler env error))).

End TaskController.

Module TaskRoutes.
Import Model.

(** [router.post('/tasks', ...)]: the handler is the controller's, with
    no middleware before it. *)
Definition post_tasks (env : Env) (uuid : string)
           (body : TaskService.TaskPayload) : M Server.Response :=
  TaskController.createTask env uuid body.

(** [router.post('/run-job/:id', ...)] *)
Definition post_run_job (env : Env) (id : string) : M Server.Response :=
  TaskController.executeTask env id.

End TaskRoutes.

Module RequestValidator.
Import Json Model TaskService.
#[local] Open Scope js_scope.

(** [String(v)], as [RegExp.prototype.test] coerces its argument. *)
Fixpoint ToString (v : json) : string :=
  match v with
  | JNull => "null"
  | JBool true => "true"
  | JBool false => "false"
  | JNum n => number_to_string n
  | JStr s => s
  | JArr l =>
      (fix join (l : list json) : string :=
         match l with
         | [] => EmptyString
         | x :: t =>
             (match x with JNull => EmptyString | _ => ToString x end)
             ++ match t with [] => EmptyString | _ => String "," (join t) end
         end) l
  | JObj _ => "[object Object]"
  end.

(** One alternative [N] of the cron expression: a decimal numeral of one
    or two digits, without a leading zero, between [lo] and [hi]. *)
Definition numeral (lo hi : Z) (s : string) : bool :=
  match s with
  | String a EmptyString =>
      match Js.digit_val a with
      | Some n => (lo <=? n) && (n <=? hi)
      | None => false
      end
  | String a (String b EmptyString) =>
      match Js.digit_val a, Js.digit_val b with
      | Some x, Some y =>
          (1 <=? x) && (lo <=? 10 * x + y) && (10 * x + y <=? hi)
      | _, _ => false
      end
  | _ => false
  end.

(** One field of the expression: [*], [N] or [*/N]. *)
Definition field (lo hi : Z) (s : string) : bool :=
  String.eqb s "*" || numeral lo hi s
  || match s with
     | String "*" (String "/" n) => numeral lo hi n
     | _ => false
     end.

(** The regular expression [isValidCron]: five fields separated by one
    space each (minute, hour, day, month, weekday). *)
Definition isValidCron (s : string) : bool :=
  match Js.split " " s with
  | [mi; ho; da; mo; wd] =>
      field 0 59 mi && field 0 23 ho && field 1 31 da && field 1 12 mo
      && field 0 6 wd
  | _ => false
  end.

(** Validate create task request; [ret tt] is the call of [next()]. *)
Definition validateCreateTaskRequest (body : TaskPayload) : M unit :=
  (if negb (truthy (taskName body))
      || negb (String.eqb (typeof (taskName body)) "string")
      || match taskName body with
         | Some (JStr s) => Nat.eqb (String.length (Js.trim s)) 0
         | _ => false
         end
   then throw (Errors.ValidationError "taskName"
                 "Must be a non-empty string")
   else ret tt) ;;;
  (match taskName body with
   | Some (JStr s) =>
       if Nat.ltb 255 (String.length s)
       then throw (Errors.ValidationError "taskName"
                     "Must be 255 characters or less")
       else ret tt
   | _ => ret tt
   end) ;;;
  (if negb (truthy (payload body))
   then throw (Errors.ValidationError "payload" "Payload is required")
   else ret tt) ;;;
  (if negb (String.eqb (typeof (payload body)) "object")
   then throw (Errors.ValidationError "payload"
                 "Payload must be a JSON object")
   else ret tt) ;;;
  valid <- (if negb (truthy (priority body)) then ret false
            else match priority body with
                 | Some (JStr s) =>
                     ret (includes validPriorities
                                   (Some (Js.toLowerCase s)))
                 | _ => throw (Errors.TypeError
                                 "priority.toLowerCase is not a function")
                 end) ;;
  (if valid : bool then ret tt
   else throw (Errors.ValidationError "priority"
                 "Must be one of: low, medium, high")) ;;;
  (match schedulePattern body with
   | Some pattern =>
       if truthy (Some pattern) && negb (isValidCron (ToString pattern))
       then throw (Errors.ValidationError "schedulePattern"
              "Invalid cron pattern (format: minute hour day month weekday)")
       else ret tt
   | None => ret tt
   end).

(** Validate query parameters for filtering.  A parameter of the query
    string that is given once is a string. *)
Definition validateFilterParams (query : ListFilters) : M unit :=
  (match TaskRepository.given (lf_status query) with
   | Some status =>
       if negb (includes ["queued"; "processing"; "completed"; "failed"]
                         (Some (Js.toLowerCase status)))
       then throw (Errors.ValidationError "status" "Invalid status filter")
       else ret tt
   | None => ret tt
   end) ;;;
  (match TaskRepository.given (lf_priority query) with
   | Some priority =>
       if negb (includes ["low"; "medium"; "high"]
                         (Some (Js.toLowerCase priority)))
       then throw (Errors.ValidationError "priority"
                     "Invalid priority filter")
       else ret tt
   | None => ret tt
   end) ;;;
  (match TaskRepository.given (lf_limit query) with
   | Some limit =>
       match Js.parseInt limit with
       | Some limitNum =>
           if (limitNum <? 1) || (1000 <? limitNum)
           then throw (Errors.ValidationError "limit"
                         "Limit must be between 1 and 1000")
           else ret tt
       | None =>
           throw (Errors.ValidationError "limit"
                    "Limit must be between 1 and 1000")
       end
   | None => ret tt
   end).

(** [n] hexadecimal digits at the head of [s]; what follows them. *)
Fixpoint hexes (n : nat) (s : string) : option string :=
  match n with
  | O => Some s
  | S k =>
      match s with
      | String c r =>
          match Js.hex_val c with
          | Some _ => hexes k r
          | None => None
          end
      | EmptyString => None
      end
  end.

(** The regular expression [uuidRegex], case-insensitive: groups of 8, 4,
    4, 4 and 12 hexadecimal digits separated by hyphens. *)
Definition uuidRegex (id : string) : bool :=
  match hexes 8 id with
  | Some (String "-" r1) =>
      match hexes 4 r1 with
      | Some (String "-" r2) =>
          match hexes 4 r2 with
          | Some (String "-" r3) =>
              match hexes 4 r3 with
              | Some (String "-" r4) =>
                  match hexes 12 r4 with
                  | Some EmptyString => true
                  | _ => false
                  end
              | _ => false
              end
          | _ => false
          end
      | _ => false
      end
  | _ => false
  end.

(** Validate UUID format. *)
Definition validateUUIDParam (id : string) : M unit :=
  if negb (uuidRegex id)
  then throw (Errors.ValidationError "id"
                "Invalid task ID format (must be UUID)")
  else ret tt.

End RequestValidator.

(* ================================================================== *)
(** ** Rate limiting middleware (class [RateLimiter]) *)

Module RateLimiter.

(** The [Map] from client address to the instants of its requests, in
    insertion order. *)
Definition RequestCounts : Type := list (string * list Z).

Fixpoint Map_get (k : string) (m : RequestCounts) : option (list Z) :=
  match m with
  | [] => None
  | (k', v) :: t => if String.eqb k k' then Some v else Map_get k t
  end.

Definition Map_has (k : string) (m : RequestCounts) : bool :=
  match Map_get k m with Some _ => true | None => false end.

Fixpoint Map_set (k : string) (v : list Z) (m : RequestCounts)
  : RequestCounts :=
  match m with
  | [] => [(k, v)]
  | (k', v') :: t =>
      if String.eqb k k' then (k, v) :: t else (k', v') :: Map_set k v t
  end.

Definition Map_delete (k : string) (m : RequestCounts) : RequestCounts :=
  filter (fun kv => negb (String.eqb k (fst kv))) m.

Definition windowMs : Z := 60000.
Definition maxRequests : nat := 100.

(** [requests.filter(time => now - time < this.windowMs)] *)
Definition recent (now : Z) (requests : list Z) : list Z :=
  filter (fun time => now - time <? windowMs) requests.

(** The constructor: an empty map. *)
Definition constructor : RequestCounts := [].

(** [middleware(req, res, next)] for a request of [clientIP] at instant
    [now]: [true] is the call of [next()], [false] the answer 429. *)
Definition middleware (clientIP : string) (now : Z) (m : RequestCounts)
  : bool * RequestCounts :=
  let m1 := if negb (Map_has clientIP m) then Map_set clientIP [] m else m in
  let requests :=
    match Map_get clientIP m1 with Some l => l | None => [] end in
  let recentRequests := recent now requests in
  if Nat.leb maxRequests (List.length recentRequests)
  then (false, m1)
  else (true, Map_set clientIP (recentRequests ++ [now]) m1).

(** [_cleanup()] at instant [now]: one turn of the loop for each entry
    the map had. *)
Definition _cleanup (now : Z) (m : RequestCounts) : RequestCounts :=
  fold_left
    (fun acc entry =>
       let recentRequests := recent now (snd entry) in
       match recentRequests with
       | [] => Map_delete (fst entry) acc
       | _ => Map_set (fst entry) recentRequests acc
       end)
    m m.

(** What reaches the limiter: requests and the cleanup timer. *)
Inductive Event : Type :=
| Request (clientIP : string) (now : Z)
| Cleanup (now : Z).

Definition instant (ev : Event) : Z :=
  match ev with
  | Request _ now => now
  | Cleanup now => now
  end.

Definition step (m : RequestCounts) (ev : Event) : RequestCounts :=
  match ev with
  | Request clientIP now => snd (middleware clientIP now m)
  | Cleanup now => _cleanup now m
  end.

Definition run (evs : list Event) : RequestCounts :=
  fold_left step evs constructor.

(** The instants of the requests of [clientIP] that were let through, in
    order, when the limiter starts from [m]. *)
Fixpoint passed (clientIP : string) (evs : list Event) (m : RequestCounts)
  : list Z :=
  match evs with
  | [] => []
  | ev :: rest =>
      match ev with
      | Request ip now =>
          if String.eqb clientIP ip && fst (middleware ip now m)
          then now :: passed clientIP rest (step m ev)
          else passed clientIP rest (step m ev)
      | Cleanup _ => passed clientIP rest (step m ev)
      end
  end.

(** The instants of the events do not go back, and start at [from] or
    later. *)
Fixpoint ascending (from : Z) (evs : list Event) : bool :=
  match evs with
  | [] => true
  | ev :: rest => (from <=? instant ev) && ascending (instant ev) rest
  end.

(** The requests stored for an address; none when the map has no entry. *)
Definition stored (k : string) (m : RequestCounts) : list Z :=
  match Map_get k m with Some l => l | None => [] end.

(** Every address is stored with at most [maxRequests] instants. *)
Definition bounded (m : RequestCounts) : Prop :=
  forall k, (List.length (stored k m) <= maxRequests)%nat.


End RateLimiter.

(* ================================================================== *)
(** ** Scheduler service (class [SchedulerService])

    The methods of the scheduler are asynchronous and share
    [activeTasksCount] and [taskQueue].  Between two [await]s a method runs
    alone; the embedding therefore gives the synchronous segments of the
    methods as the steps of a transition system.  A step is enabled when
    the code can be at its first line; the order of the steps is
    otherwise free, which covers every interleaving of ticks, executions
    that settle and manual calls. *)

Module SchedulerService.
Import Model.

Definition constructor (env : Env) : Scheduler :=
  mkScheduler 0
    (match option_map Js.parseInt (MAX_CONCURRENT_TASKS env) with
     | Some (Some n) => if n =? 0 then 5 else n
     | _ => 5
     end)
    [] false.

(** [this.activeTasksCount++] *)
Definition enter (s : Scheduler) : Scheduler :=
  mkScheduler (activeTasksCount s + 1) (maxConcurrentTasks s) (taskQueue s)
              (isRunning s).

(** [this.activeTasksCount--] *)
Definition leave (s : Scheduler) : Scheduler :=
  mkScheduler (activeTasksCount s - 1) (maxConcurrentTasks s) (taskQueue s)
              (isRunning s).

(** [this.taskQueue.push(task)] *)
Definition push (task : Task) (s : Scheduler) : Scheduler :=
  mkScheduler (activeTasksCount s) (maxConcurrentTasks s)
              (taskQueue s ++ [task]) (isRunning s).

(** [this.taskQueue.shift()] on a queue that is not empty. *)
Definition shift (s : Scheduler) : option (Task * Scheduler) :=
  match taskQueue s with
  | t :: q =>
      Some (t, mkScheduler (activeTasksCount s) (maxConcurrentTasks s) q
                           (isRunning s))
  | [] => None
  end.

(** [this.activeTasksCount >= this.maxConcurrentTasks] *)
Definition at_capacity (s : Scheduler) : bool :=
  maxConcurrentTasks s <=? activeTasksCount s.

(** Get scheduler status. *)
Record Status : Type := mkStatus {
  st_isRunning : bool;
  st_activeTasksCount : Z;
  st_maxConcurrentTasks : Z;
  st_queuedTasksCount : Z;
  st_totalQueuedTasks : Z
}.

Definition getStatus (s : Scheduler) : Status :=
  mkStatus (isRunning s) (activeTasksCount s) (maxConcurrentTasks s)
           (Z.of_nat (List.length (taskQueue s)))
           (activeTasksCount s + Z.of_nat (List.length (taskQueue s))).

(** What a step lets an observer see. *)
Inductive Obs : Type :=
| Started (t : Task)        (* admitted on arrival *)
| Queued (t : Task)         (* appended to the overflow queue *)
| Dequeued (t : Task)       (* taken from the overflow queue and admitted *)
| Rejected (e : Errors.JsError).  (* the call threw *)

(** The scheduler with its suspended calls: the executions awaiting
    [taskService.executeTask] and the manual calls awaiting
    [taskRepository.findTaskById]. *)
Record State : Type := mkState {
  this : Scheduler;
  executing : list Task;
  lookups : list string;
  trace : list Obs
}.

Definition initial (env : Env) : State :=
  mkState (constructor env) [] [] [].

Inductive Event : Type :=
| Offer (task : Task)
    (* one turn of the loop of [_checkAndExecutePendingTasks] *)
| Drain
    (* one turn of the loop of [_processTaskQueue] *)
| Settle (i : nat)
    (* the execution number [i] ends, by success or failure *)
| ManualCall (taskId : string)
    (* [manualExecuteTask] up to its [await] *)
| ManualLookup (i : nat) (found : option Task).
    (* the lookup number [i] resolves; [manualExecuteTask] goes on *)

Fixpoint remove_nth {A} (i : nat) (l : list A) : list A :=
  match i, l with
  | O, _ :: t => t
  | S j, x :: t => x :: remove_nth j t
  | _, [] => []
  end.

(** [_executeTaskAsync(task)] from its first line to
    [await taskService.executeTask(task.task_id)]: the count goes up and
    the call waits for the execution. *)
Definition _executeTaskAsync (task : Task) (o : Obs) (st : State) : State :=
  mkState (enter (this st)) (executing st ++ [task]) (lookups st)
          (trace st ++ [o]).

(** [_executeTaskAsync] once the execution has ended, by success or by
    failure: the [finally] block.  The count goes down and the head of the
    queue, if any, is executed. *)
Definition _executeTaskAsync_finally (st : State) : State :=
  let st' := mkState (leave (this st)) (executing st) (lookups st)
                     (trace st) in
  match shift (this st') with
  | Some (nextTask, s) =>
      _executeTaskAsync nextTask (Dequeued nextTask)
        (mkState s (executing st') (lookups st') (trace st'))
  | None => st'
  end.

(** One turn of the [for] loop of [_checkAndExecutePendingTasks], for a
    task that is due. *)
Definition _checkAndExecutePendingTasks (task : Task) (st : State) : State :=
  if at_capacity (this st)
  then mkState (push task (this st)) (executing st) (lookups st)
               (trace st ++ [Queued task])
  else _executeTaskAsync task (Started task) st.

(** One turn of the [while] loop of [_processTaskQueue]; [None] when the
    condition of the loop fails. *)
Definition _processTaskQueue (st : State) : option State :=
  match shift (this st) with
  | Some (task, s) =>
      if activeTasksCount (this st) <? maxConcurrentTasks (this st)
      then Some (_executeTaskAsync task (Dequeued task)
                   (mkState s (executing st) (lookups st) (trace st)))
      else None
  | None => None
  end.

(** [manualExecuteTask(taskId)] up to
    [await taskRepository.findTaskById(taskId)]. *)
Definition manualExecuteTask (taskId : string) (st : State) : State :=
  if at_capacity (this st)
  then mkState (this st) (executing st) (lookups st)
               (trace st ++
                  [Rejected (Errors.ConcurrencyLimitError
                               (activeTasksCount (this st))
                               (maxConcurrentTasks (this st)))])
  else mkState (this st) (executing st) (lookups st ++ [taskId]) (trace st).

(** [manualExecuteTask] once its lookup has resolved to [found]: the call
    of [_executeTaskAsync].  On [null] the reading of [task.task_label]
    throws in the [try] and again in the [catch], and the [finally] block
    runs at once. *)
Definition manualExecuteTask_resumed (found : option Task) (st : State)
  : State :=
  match found with
  | Some task => _executeTaskAsync task (Started task) st
  | None =>
      _executeTaskAsync_finally
        (mkState (enter (this st)) (executing st) (lookups st)
                 (trace st ++
                    [Rejected (Errors.TypeError
                       "Cannot read properties of null (reading 'task_label')")]))
  end.

Definition step (ev : Event) (st : State) : option State :=
  match ev with
  | Offer task => Some (_checkAndExecutePendingTasks task st)
  | Drain => _processTaskQueue st
  | Settle i =>
      match nth_error (executing st) i with
      | Some _ =>
          Some (_executeTaskAsync_finally
                  (mkState (this st) (remove_nth i (executing st))
                           (lookups st) (trace st)))
      | None => None
      end
  | ManualCall taskId => Some (manualExecuteTask taskId st)
  | ManualLookup i found =>
      match nth_error (lookups st) i with
      | Some _ =>
          Some (manualExecuteTask_resumed found
                  (mkState (this st) (executing st)
                           (remove_nth i (lookups st)) (trace st)))
      | None => None
      end
  end.

Fixpoint run (evs : list Event) (st : State) : option State :=
  match evs with
  | [] => Some st
  | ev :: rest =>
      match step ev st with
      | Some st' => run rest st'
      | None => None
      end
  end.

Definition is_manual (ev : Event) : bool :=
  match ev with
  | ManualCall _ | ManualLookup _ _ => true
  | _ => false
  end.

Fixpoint queued_of (tr : list Obs) : list Task :=
  match tr with
  | Queued t :: r => t :: queued_of r
  | _ :: r => queued_of r
  | [] => []
  end.

Fixpoint dequeued_of (tr : list Obs) : list Task :=
  match tr with
  | Dequeued t :: r => t :: dequeued_of r
  | _ :: r => dequeued_of r
  | [] => []
  end.

(** What a run adds to the trace accounts for the change of the queue:
    the tasks taken out, then those waiting, are those that were
    waiting, then those put in. *)
Definition accounts (st st' : State) (tr : list Obs) : Prop :=
  trace st' = (trace st ++ tr)%list
  /\ (dequeued_of tr ++ taskQueue (this st')
      = taskQueue (this st) ++ queued_of tr)%list.

(** The count is the number of executions in flight and is within the
    limit. *)
Definition within_limit (st : State) : Prop :=
  activeTasksCount (this st) = Z.of_nat (List.length (executing st))
  /\ activeTasksCount (this st) <= maxConcurrentTasks (this st).

End SchedulerService.

(* ================================================================== *)
(** ** Vocabulary of the statements *)

Module Store.
Import Model.

(** The table presents task [t] under [taskId]: the first row with that
    id formats to [t].  This is what [findTaskById] returns. *)
Definition presents (taskId : string) (t : Task) (rows : list Row) : Prop :=
  exists row rest,
    filter (TaskRepository.has_id taskId) rows = row :: rest
    /\ TaskRepository._formatTaskData row = Return t.

(** A record after the SET list of [updateTaskState] at instant [now]. *)
Definition applied {P R} (now : Z) (newState : string)
           (ad : TaskRepository.AdditionalData) (t : TaskRec P R)
  : TaskRec P R :=
  fold_left (TaskRepository.assign now)
            (TaskRepository.updates_of newState ad) t.

(** The world after the UPDATE of [updateTaskState]. *)
Definition updated (newState : string) (ad : TaskRepository.AdditionalData)
           (taskId : string) (w : World) : World :=
  snd (TaskRepository.update_task_queue
         (TaskRepository.updates_of newState ad) taskId w).

(** The world after one more line of execution history. *)
Definition logged (h : HistoryRow) (w : World) : World :=
  snd (TaskRepository.insert_execution_history h w).

(** The world once the work unit has run. *)
Definition worked (env : Env) (task : Task) (w : World) : World :=
  snd (TaskService._simulateTaskExecution env task w).

(** The instant [_calculateNextExecution] computes from a pattern that
    is a string, read at instant [now] in the zone [z]. *)
Definition next_instant (z : Zone) (s : string) (now : Z) : JsDate :=
  if Js.startsWith s "*/" then
    setMinutes z (ValidDate now)
      (option_map (fun n => Js.double (getMinutes z now + n))
         (Js.parseInt (Js.replace "*/" "" (nth 0 (Js.split " " s) ""))))
  else setHours z (ValidDate now) (Some (Js.double (getHours z now + 1))).

(** The offsets of the zone are less than a day. *)
Definition within_a_day (z : Zone) : Prop :=
  forall t isUTC, Z.abs (LocalTZA z t isUTC) <= msPerDay.

(** The local time [ms] milliseconds after the instant [now] has the
    offset that [now] has: no change of the clocks falls in between. *)
Definition steady (z : Zone) (now ms : Z) : Prop :=
  LocalTZA z (now + LocalTZA z now true + ms) false = LocalTZA z now true.

(** The instant at which the local time is [ms] milliseconds later than
    it is at the instant [now]. *)
Definition local_later (z : Zone) (now ms : Z) : JsDate :=
  TimeClip (now + LocalTZA z now true + ms
            - LocalTZA z (now + LocalTZA z now true + ms) false).

(** Step 6 of [executeTask] requeues the task. *)
Definition requeues (t : Task) : bool :=
  is_recurring t && Json.truthy (Some (schedule_pattern t)).

(** A schedule pattern as the table holds it: text or NULL. *)
Definition text_or_null (v : Json.json) : bool :=
  match v with
  | Json.JStr _ | Json.JNull => true
  | _ => false
  end.

(** A schedule pattern the service accepts: a falsy value, or a string
    of five parts. *)
Definition acceptable_pattern (v : Json.jsval) : bool :=
  match v with
  | Some (Json.JStr s) =>
      String.eqb s ""
      || Nat.eqb (List.length (Js.split " " (Js.trim s))) 5
  | _ => negb (Json.truthy v)
  end.

(** The row [createTask] inserts for an accepted request. *)
Definition created_row (z : Zone) (uuid name : string) (pl : Json.json)
           (pr : string) (pattern : Json.jsval) (now : Z) : Row :=
  mkTask uuid (Json.JStr name) (CellText (Json.stringify pl))
         (Js.toLowerCase pr)
         (match pattern with
          | Some v => if Json.truthy pattern then v else Json.JNull
          | None => Json.JNull
          end)
         (if Json.truthy pattern then 1 else 0)
         (match pattern with
          | Some (Json.JStr s) =>
              if Json.truthy pattern then Some (next_instant z s now)
              else None
          | _ => None
          end)
         "queued" 0 None None None None now now.

(** Every row can be read back: its payload is JSON text or a value. *)
Definition readable (rows : list Row) : Prop :=
  forall r, In r rows -> exists t, TaskRepository._formatTaskData r = Return t.

End Store.

(* ================================================================== *)
(** ** Sample data *)

Module Sample.
Import Json Model.

(** The environment of a default deployment: no variable set, the work
    unit of the sources, an endpoint that accepts the notification. *)
Definition env : Env :=
  mkEnv None None None (fun _ => None)
        (fun _ => mkWebhookResult true (Some 200) None).

(** The same with a limit of concurrent tasks. *)
Definition env_limit (n : string) : Env :=
  mkEnv None (Some n) None (fun _ => None)
        (fun _ => mkWebhookResult true (Some 200) None).

(** The same with an endpoint that cannot be reached. *)
Definition env_sink_down : Env :=
  mkEnv None None None (fun _ => None)
        (fun _ => mkWebhookResult false None None).

(** The same with a work unit that raises [msg]. *)
Definition env_failing (msg : string) : Env :=
  mkEnv None None None (fun _ => Some msg)
        (fun _ => mkWebhookResult true (Some 200) None).

Definition row (taskId state : string) (pattern : json)
           (next : option JsDate) (reason : option string) : Row :=
  mkTask taskId (JStr "report") (CellText "{}") "low" pattern
         (match pattern with JNull => 0 | _ => 1 end)
         next state 0 None reason None None 0 0.

Definition idle : Scheduler := mkScheduler 0 5 [] false.

(** A host on universal time. *)
Definition utc : Zone := mkZone 0 [].

(** A host in New York in the autumn of 2026: four hours behind UTC
    until the clocks go back at 2026-11-01T06:00:00Z, five hours behind
    from then on. *)
Definition new_york : Zone :=
  mkZone (-14400000) [(1793512800000, -18000000)].

Definition world_in (z : Zone) (rows : list Row) (now : Z) (s : Scheduler)
  : World :=
  mkWorld rows [] now s z.

Definition world (rows : list Row) (now : Z) (s : Scheduler) : World :=
  world_in utc rows now s.

Definition task (taskId : string) (p : string) : Task :=
  mkTask taskId (JStr "report") (JObj []) p JNull false None "queued" 0
         None None None None 0 0.

Fixpoint replicate (n : nat) (c : ascii) : string :=
  match n with
  | O => EmptyString
  | S k => String c (replicate k c)
  end.

(** A creation request with the given name, an empty object as payload
    and low priority. *)
Definition request (name : string) (pattern : jsval)
  : TaskService.TaskPayload :=
  TaskService.mkPayload (Some (JStr name)) (Some (JObj []))
                        (Some (JStr "low")) pattern.

(** The task a row is read as. *)
Definition read (r : Row) : Task :=
  match TaskRepository._formatTaskData r with
  | Return t => t
  | Throw _ => task (task_id r) (urgency_level r)
  end.

End Sample.

(* ================================================================== *)
(** ** Vocabulary of the further properties *)

Module Views.
Import Json Model Store.

(** Row [r] is read as task [t]. *)
Definition reads (r : Row) (t : Task) : Prop :=
  TaskRepository._formatTaskData r = Return t.

Definition newer (a b : Row) : Prop := spawned_at b <= spawned_at a.

(** The rows a listing selects: those of the table that pass the three
    filters. *)
Definition passes (f : TaskRepository.Filters) (r : Row) : Prop :=
  (forall s, TaskRepository.given (TaskRepository.f_execution_state f) = Some s ->
             execution_state r = s)
  /\ (forall s, TaskRepository.given (TaskRepository.f_urgency_level f) = Some s ->
                urgency_level r = s)
  /\ (forall b, TaskRepository.f_is_recurring f = Some b ->
                is_recurring r = if b : bool then 1 else 0).

(** The task as [_formatTaskResponse] presents it. *)
Definition answer (t : Task) : TaskService.TaskResponse :=
  TaskService.mkResponse (task_id t) (task_label t) (payload_data t)
    (urgency_level t) (execution_state t) (is_recurring t)
    (schedule_pattern t) (next_execution_at t) (execution_attempts t)
    (execution_duration_ms t) (spawned_at t) (modified_at t)
    (completed_at t) (failure_reason t).

(** The task after steps 1 and 3 of a successful run that started at
    [start] and finished at [finish]. *)
Definition completed_run (start finish : Z) (task : Task) : Task :=
  applied finish "completed"
    (TaskRepository.mkAdditional None (Some (finish - start)) None None None)
    (applied start "processing"
       (TaskRepository.mkAdditional (Some (execution_attempts task + 1))
          None None (Some (ValidDate start)) None)
       task).

(** The assignment writes [execution_state]. *)
Definition writes_state (a : TaskRepository.Assignment) : bool :=
  match a with TaskRepository.set_execution_state _ => true | _ => false end.

(** No character of [s] is white space. *)
Fixpoint spaceless (s : string) : bool :=
  match s with
  | EmptyString => true
  | String c r => negb (Js.is_space c) && spaceless r
  end.

(** What [split] leaves after the first part, joined again. *)
Fixpoint join_rest (sep : ascii) (parts : list string) : string :=
  match parts with
  | [] => EmptyString
  | x :: t => String sep (x ++ join_rest sep t)
  end.

(** The count is the number of executions in flight. *)
Definition counted (st : SchedulerService.State) : Prop :=
  activeTasksCount (SchedulerService.this st)
  = Z.of_nat (List.length (SchedulerService.executing st)).

(** With a negative limit nothing ever starts. *)
Definition starved (st : SchedulerService.State) : Prop :=
  SchedulerService.executing st = [] /\ SchedulerService.lookups st = []
  /\ activeTasksCount (SchedulerService.this st) = 0
  /\ SchedulerService.dequeued_of (SchedulerService.trace st) = []
  /\ taskQueue (SchedulerService.this st)
     = SchedulerService.queued_of (SchedulerService.trace st).

(** The rows of [taskId] are the same in [w'] as in [w]. *)
Definition keeps (taskId : string) (w w' : World) : Prop :=
  filter (TaskRepository.has_id taskId) (task_queue w')
  = filter (TaskRepository.has_id taskId) (task_queue w).

(** The operation [m] leaves the rows of [taskId] as they are. *)
Definition preserving (taskId : string) {A} (m : M A) : Prop :=
  forall w, keeps taskId w (snd (m w)).

(** What the service does while the task [taskId] itself is left alone:
    time passes, other tasks are run, created and deleted. *)
Inductive others_run (env : Env) (taskId : string) : World -> World -> Prop :=
| others_none w : others_run env taskId w w
| others_wait w w' ms :
    others_run env taskId (snd (sleep ms w)) w' ->
    others_run env taskId w w'
| others_exec w w' other :
    other <> taskId ->
    others_run env taskId (snd (TaskService.executeTask env other w)) w' ->
    others_run env taskId w w'
| others_create w w' other body :
    other <> taskId ->
    others_run env taskId (snd (TaskService.createTask other body w)) w' ->
    others_run env taskId w w'
| others_delete w w' other :
    other <> taskId ->
    others_run env taskId (snd (TaskService.deleteTask other w)) w' ->
    others_run env taskId w w'.

End Views.

(* ================================================================== *)
(** * Properties *)

Import Json Model.
Import Store.

(** ** The repository *)

Section Repository.

Lemma findTaskById_presents taskId t w :
  presents taskId t (task_queue w) ->
  TaskRepository.findTaskById taskId w = (Return (Some t), w).
Proof.
  intros (row & rest & Hf & Hfmt).
  unfold TaskRepository.findTaskById, TaskRepository.rethrow, tryCatch, bind,
    TaskRepository.select_by_id, lift, ret.
  cbv beta. rewrite Hf. cbv beta iota. rewrite Hfmt. reflexivity.
Qed.

(** Reading never writes. *)
Lemma findTaskById_world taskId w :
  snd (TaskRepository.findTaskById taskId w) = w.
Proof.
  unfold TaskRepository.findTaskById, TaskRepository.rethrow, tryCatch, bind,
    TaskRepository.select_by_id, lift, ret, throw.
  cbv beta.
  destruct (filter (TaskRepository.has_id taskId) (task_queue w)) as [|row ?];
    [reflexivity|].
  cbv beta iota. now destruct (TaskRepository._formatTaskData row).
Qed.

Lemma presents_findTaskById taskId t w :
  fst (TaskRepository.findTaskById taskId w) = Return (Some t) ->
  presents taskId t (task_queue w).
Proof.
  unfold TaskRepository.findTaskById, TaskRepository.rethrow, tryCatch, bind,
    TaskRepository.select_by_id, lift, ret, throw, presents.
  cbv beta.
  destruct (filter (TaskRepository.has_id taskId) (task_queue w))
    as [|row rest]; cbv beta iota; [discriminate|].
  destruct (TaskRepository._formatTaskData row) as [t'|e] eqn:E;
    cbn; intros H; inversion H; subst.
  now exists row, rest.
Qed.

Lemma assign_task_id {P R} now (r : TaskRec P R) a :
  task_id (TaskRepository.assign now r a) = task_id r.
Proof. destruct a; reflexivity. Qed.

Lemma fold_assign_task_id {P R} now ups (r : TaskRec P R) :
  task_id (fold_left (TaskRepository.assign now) ups r) = task_id r.
Proof.
  revert r; induction ups as [|a ups IH]; intros r; simpl; [reflexivity|].
  rewrite IH. apply assign_task_id.
Qed.

(** No assignment of the SET list writes [next_execution_at]. *)
Lemma fold_assign_next_execution_at {P R} now ups (r : TaskRec P R) :
  next_execution_at (fold_left (TaskRepository.assign now) ups r)
  = next_execution_at r.
Proof.
  revert r; induction ups as [|a ups IH]; intros r; simpl; [reflexivity|].
  rewrite IH. now destruct a.
Qed.

Lemma format_assign now r a t :
  TaskRepository._formatTaskData r = Return t ->
  TaskRepository._formatTaskData (TaskRepository.assign now r a)
  = Return (TaskRepository.assign now t a).
Proof.
  unfold TaskRepository._formatTaskData.
  destruct a; simpl;
    (destruct (payload_data r) as [txt|v];
     [destruct (Json.parse txt)|]; intros H; inversion H; reflexivity).
Qed.

Lemma format_fold_assign now ups r t :
  TaskRepository._formatTaskData r = Return t ->
  TaskRepository._formatTaskData
    (fold_left (TaskRepository.assign now) ups r)
  = Return (fold_left (TaskRepository.assign now) ups t).
Proof.
  revert r t; induction ups as [|a ups IH]; intros r t H; simpl; [exact H|].
  apply IH. now apply format_assign.
Qed.

Lemma filter_update taskId (F : Row -> Row) rows :
  (forall r, task_id (F r) = task_id r) ->
  filter (TaskRepository.has_id taskId)
         (map (fun r => if TaskRepository.has_id taskId r then F r else r)
              rows)
  = map F (filter (TaskRepository.has_id taskId) rows).
Proof.
  intros HF. induction rows as [|r rows IH]; simpl; [reflexivity|].
  destruct (TaskRepository.has_id taskId r) eqn:E; simpl.
  - assert (E' : TaskRepository.has_id taskId (F r) = true)
      by (unfold TaskRepository.has_id in *; now rewrite HF).
    rewrite E'. now rewrite IH.
  - rewrite E. exact IH.
Qed.

Lemma presents_updated taskId t st ad w :
  presents taskId t (task_queue w) ->
  presents taskId (applied (clock w) st ad t)
           (task_queue (updated st ad taskId w)).
Proof.
  intros (row & rest & Hf & Hfmt).
  set (F := fold_left (TaskRepository.assign (clock w))
                      (TaskRepository.updates_of st ad) : Row -> Row).
  exists (F row), (map F rest). split.
  - change (task_queue (updated st ad taskId w))
      with (map (fun r => if TaskRepository.has_id taskId r then F r else r)
                (task_queue w)).
    rewrite filter_update by (intros; apply fold_assign_task_id).
    now rewrite Hf.
  - now apply format_fold_assign.
Qed.

Lemma updateTaskState_presents taskId t st ad w :
  presents taskId t (task_queue w) ->
  TaskRepository.updateTaskState taskId st ad w
  = (Return (Some (applied (clock w) st ad t)), updated st ad taskId w).
Proof.
  intros H.
  unfold TaskRepository.updateTaskState, TaskRepository.rethrow, tryCatch,
    bind.
  change (TaskRepository.update_task_queue
            (TaskRepository.updates_of st ad) taskId w)
    with (Return tt, updated st ad taskId w).
  cbv beta iota.
  rewrite (findTaskById_presents _ _ _ (presents_updated taskId t st ad w H)).
  reflexivity.
Qed.

(** The partial update drops a [next_execution_at] it is given: the SET
    list is the same with and without it. *)
Lemma updates_of_ignores_next_execution_at st a d f l n :
  TaskRepository.updates_of st (TaskRepository.mkAdditional a d f l n)
  = TaskRepository.updates_of st (TaskRepository.mkAdditional a d f l None).
Proof. reflexivity. Qed.

Lemma updateTaskState_world taskId st ad w :
  snd (TaskRepository.updateTaskState taskId st ad w)
  = updated st ad taskId w.
Proof.
  unfold TaskRepository.updateTaskState, TaskRepository.rethrow, tryCatch,
    bind.
  change (TaskRepository.update_task_queue
            (TaskRepository.updates_of st ad) taskId w)
    with (Return tt, updated st ad taskId w).
  cbv beta iota.
  pose proof (findTaskById_world taskId (updated st ad taskId w)) as Hw.
  destruct (TaskRepository.findTaskById taskId (updated st ad taskId w))
    as [[o|e] w'] eqn:E; exact Hw.
Qed.

(** Whatever is passed to it, [updateTaskState] leaves the
    [next_execution_at] of every row as it was. *)
Lemma updateTaskState_keeps_next_execution_at taskId st ad w :
  map next_execution_at
      (task_queue (snd (TaskRepository.updateTaskState taskId st ad w)))
  = map next_execution_at (task_queue w).
Proof.
  rewrite updateTaskState_world.
  change (task_queue (updated st ad taskId w))
    with (map (fun r => if TaskRepository.has_id taskId r
                        then fold_left (TaskRepository.assign (clock w))
                               (TaskRepository.updates_of st ad) r
                        else r)
              (task_queue w)).
  rewrite map_map. apply map_ext. intros r.
  destruct (TaskRepository.has_id taskId r);
    [apply fold_assign_next_execution_at | reflexivity].
Qed.

Lemma worked_eq env task w :
  TaskService._simulateTaskExecution env task w
  = (match custom_logic env task with
     | Some msg => Throw (Errors.mkError "Error" msg None None)
     | None => Return true
     end, worked env task w).
Proof.
  unfold worked, TaskService._simulateTaskExecution, bind, sleep.
  now destruct (custom_logic env task).
Qed.

Lemma worked_task_queue env task w :
  task_queue (worked env task w) = task_queue w.
Proof.
  unfold worked, TaskService._simulateTaskExecution, bind, sleep.
  now destruct (custom_logic env task).
Qed.

Lemma worked_history env task w :
  execution_history (worked env task w) = execution_history w.
Proof.
  unfold worked, TaskService._simulateTaskExecution, bind, sleep.
  now destruct (custom_logic env task).
Qed.

Lemma worked_clock env task w : clock w <= clock (worked env task w).
Proof.
  unfold worked, TaskService._simulateTaskExecution, bind, sleep.
  destruct (custom_logic env task); simpl; lia.
Qed.

End Repository.

(** ** Dates *)

(** Number arithmetic is exact below [2^53]. *)
Lemma double_small x : Z.abs x < 2 ^ 53 -> Js.double x = x.
Proof.
  intros H. unfold Js.double.
  destruct (Z.eq_dec x 0) as [->|Hx]; [reflexivity|].
  assert (Hlog : Z.log2 (Z.abs x) < 53)
    by (apply Z.log2_lt_pow2; lia).
  apply Z.ltb_lt in Hlog. now rewrite Hlog.
Qed.

Lemma time_fields t :
  t = Day t * msPerDay + HourFromTime t * msPerHour
      + MinFromTime t * msPerMinute + SecFromTime t * msPerSecond
      + msFromTime t.
Proof.
  unfold Day, HourFromTime, MinFromTime, SecFromTime, msFromTime,
    msPerDay, msPerHour, msPerMinute, msPerSecond.
  pose proof (Z.div_mod t 1000 ltac:(lia)) as H1.
  pose proof (Z.div_mod (t / 1000) 60 ltac:(lia)) as H2.
  pose proof (Z.div_mod (t / 60000) 60 ltac:(lia)) as H3.
  pose proof (Z.div_mod (t / 3600000) 24 ltac:(lia)) as H4.
  rewrite (Z.div_div t 1000 60) in H2 by lia.
  rewrite (Z.div_div t 60000 60) in H3 by lia.
  rewrite (Z.div_div t 3600000 24) in H4 by lia.
  change (1000 * 60) with 60000 in H2.
  change (60000 * 60) with 3600000 in H3.
  change (3600000 * 24) with 86400000 in H4.
  lia.
Qed.

Lemma time_fields_bounds t :
  0 <= HourFromTime t < 24 /\ 0 <= MinFromTime t < 60
  /\ 0 <= SecFromTime t < 60 /\ 0 <= msFromTime t < 1000.
Proof.
  unfold HourFromTime, MinFromTime, SecFromTime, msFromTime, msPerSecond.
  repeat split; try apply Z.mod_pos_bound; lia.
Qed.

Lemma local_fields z now delta :
  Z.abs now <= 8640000000000000 ->
  within_a_day z ->
  Z.abs delta <= 60000000000000 ->
  forall h m,
    h * msPerHour + m * msPerMinute
    = HourFromTime (LocalTime z now) * msPerHour
      + MinFromTime (LocalTime z now) * msPerMinute + delta ->
    0 <= h < 1000000000 -> Z.abs m <= 2000000000 ->
    TimeClip
      (UTC z (MakeDate (Day (LocalTime z now))
                (MakeTime h m (SecFromTime (LocalTime z now))
                          (msFromTime (LocalTime z now)))))
    = TimeClip (now + LocalTZA z now true + delta
                - LocalTZA z (now + LocalTZA z now true + delta) false).
Proof.
  intros Hnow Hz Hdelta h m Hhm Hh Hm.
  pose proof (Hz now true) as Hoff.
  unfold LocalTime in *. unfold msPerDay in Hoff.
  rewrite (double_small (now + LocalTZA z now true)) in * by lia.
  set (t := now + LocalTZA z now true) in *.
  pose proof (time_fields t) as Ht.
  pose proof (time_fields_bounds t) as (HH & HM & HS & Hms).
  pose proof (Hz (t + delta) false) as Hoff'. unfold msPerDay in Hoff'.
  unfold MakeTime, MakeDate, UTC.
  set (D := Day t) in *. set (H := HourFromTime t) in *.
  set (M := MinFromTime t) in *. set (S := SecFromTime t) in *.
  set (ms := msFromTime t) in *.
  unfold msPerDay, msPerHour, msPerMinute, msPerSecond in *.
  rewrite (double_small (h * 3600000)) by lia.
  rewrite (double_small (m * 60000)) by lia.
  rewrite (double_small (h * 3600000 + m * 60000)) by lia.
  rewrite (double_small (S * 1000)) by lia.
  rewrite (double_small (h * 3600000 + m * 60000 + S * 1000)) by lia.
  rewrite (double_small (h * 3600000 + m * 60000 + S * 1000 + ms)) by lia.
  rewrite (double_small (D * 86400000)) by lia.
  assert (E : D * 86400000 + (h * 3600000 + m * 60000 + S * 1000 + ms)
              = t + delta) by lia.
  rewrite E. rewrite (double_small (t + delta)) by lia.
  rewrite (double_small (t + delta - LocalTZA z (t + delta) false)) by lia.
  reflexivity.
Qed.

Lemma setMinutes_adds z now n :
  Z.abs now <= 8640000000000000 -> within_a_day z ->
  Z.abs n <= 1000000000 ->
  setMinutes z (ValidDate now) (Some (Js.double (getMinutes z now + n)))
  = local_later z now (n * 60000).
Proof.
  intros Hnow Hz Hn. unfold getMinutes.
  pose proof (time_fields_bounds (LocalTime z now)) as (HH & HM & HS & Hms).
  rewrite double_small by lia.
  unfold setMinutes, local_later. cbv zeta.
  apply local_fields; try assumption; unfold msPerHour, msPerMinute; lia.
Qed.

Lemma setHours_adds z now :
  Z.abs now <= 8640000000000000 -> within_a_day z ->
  setHours z (ValidDate now) (Some (Js.double (getHours z now + 1)))
  = local_later z now 3600000.
Proof.
  intros Hnow Hz. unfold getHours.
  pose proof (time_fields_bounds (LocalTime z now)) as (HH & HM & HS & Hms).
  rewrite double_small by lia.
  unfold setHours, local_later. cbv zeta.
  apply local_fields; try assumption; unfold msPerHour, msPerMinute; lia.
Qed.

Lemma local_later_steady z now ms :
  steady z now ms ->
  Z.abs (now + ms) <= 8640000000000000 ->
  local_later z now ms = ValidDate (now + ms).
Proof.
  unfold steady, local_later, TimeClip. intros -> Hr.
  replace (now + LocalTZA z now true + ms - LocalTZA z now true)
    with (now + ms) by ring.
  destruct (8640000000000000 <? Z.abs (now + ms)) eqn:E; [|reflexivity].
  apply Z.ltb_lt in E. lia.
Qed.

Lemma new_york_within_a_day : within_a_day Sample.new_york.
Proof.
  intros t [|]; unfold LocalTZA; cbn;
    repeat match goal with |- context [if ?b then _ else _] => destruct b end;
    vm_compute; discriminate.
Qed.

(** ** One run of [executeTask] *)

Section Execution.
Variables (env : Env) (taskId : string) (w : World) (task : Task).
Hypothesis Hp : presents taskId task (task_queue w).
Hypothesis Hst : execution_state task <> "processing".

Let ad1 := TaskRepository.mkAdditional
             (Some (execution_attempts task + 1)) None None
             (Some (ValidDate (clock w))) None.
Let w1 := updated "processing" ad1 taskId w.
Let t1 := applied (clock w) "processing" ad1 task.
Let w2 := worked env task w1.
Let d := clock w2 - clock w.
Let ad2 := TaskRepository.mkAdditional None (Some d) None None None.
Let t2 := applied (clock w2) "completed" ad2 t1.
Let w3 := logged (mkHistory taskId "success" (clock w) (clock w2) d None)
                 (updated "completed" ad2 taskId w2).

Lemma calculateNextExecution_text s w0 :
  TaskService._calculateNextExecution (JStr s) w0
  = (Return (next_instant (zone w0) s (clock w0)), w0).
Proof.
  unfold TaskService._calculateNextExecution, next_instant, bind, Date_now,
    ret.
  now destruct (Js.startsWith s "*/").
Qed.

Lemma presents_after_work : presents taskId t1 (task_queue w2).
Proof.
  unfold w2. rewrite worked_task_queue. apply presents_updated, Hp.
Qed.

(** The work unit raises [msg]: the run is logged as a failure, the task
    is marked failed and the error is raised again. *)
Lemma executeTask_failure msg :
  custom_logic env task = Some msg ->
  TaskService.executeTask env taskId w
  = (Throw (Errors.TaskExecutionError taskId msg),
     updated "failed"
       (TaskRepository.mkAdditional None (Some d) (Some msg) None None)
       taskId
       (logged (mkHistory taskId "failure" (clock w) (clock w2) d (Some msg))
               w2)).
Proof.
  intros Hwork.
  unfold TaskService.executeTask.
  cbv beta iota delta [bind].
  rewrite (findTaskById_presents _ _ _ Hp).
  cbv beta iota.
  destruct (String.eqb (execution_state task) "processing") eqn:E;
    [apply String.eqb_eq in E; contradiction|].
  cbv beta iota delta [tryCatch Date_now bind].
  rewrite (updateTaskState_presents _ _ _ _ _ Hp).
  cbv beta iota.
  rewrite worked_eq, Hwork.
  cbv beta iota.
  fold ad1 w1 w2.
  change (TaskRepository.logExecution taskId "failure" (clock w) (clock w2)
            (Some (Errors.message (Errors.mkError "Error" msg None None)))
            w2)
    with (Return tt,
          logged (mkHistory taskId "failure" (clock w) (clock w2) d
                            (Some msg)) w2).
  cbv beta iota.
  rewrite (updateTaskState_presents taskId t1);
    [reflexivity | exact presents_after_work].
Qed.

(** The work unit succeeds: the run is logged as a success and the task
    is marked completed, then queued again when it recurs. *)
Lemma executeTask_success :
  custom_logic env task = None ->
  text_or_null (schedule_pattern task) = true ->
  exists r,
    TaskService.executeTask env taskId w
    = (Return (TaskService.mkResult true (Some "Task executed successfully")
                                    (Some r)),
       if requeues task
       then updated "queued" TaskRepository.no_data taskId w3
       else w3)
    /\ TaskService.status r = "completed".
Proof.
  intros Hwork Hpat.
  unfold TaskService.executeTask.
  cbv beta iota delta [bind].
  rewrite (findTaskById_presents _ _ _ Hp).
  cbv beta iota.
  destruct (String.eqb (execution_state task) "processing") eqn:E;
    [apply String.eqb_eq in E; contradiction|].
  cbv beta iota delta [tryCatch Date_now bind].
  rewrite (updateTaskState_presents _ _ _ _ _ Hp).
  cbv beta iota.
  rewrite worked_eq, Hwork.
  cbv beta iota.
  fold ad1 w1 w2.
  rewrite (updateTaskState_presents taskId t1) by exact presents_after_work.
  cbv beta iota.
  fold d ad2 t2.
  change (TaskRepository.logExecution taskId "success" (clock w) (clock w2)
            None (updated "completed" ad2 taskId w2))
    with (Return tt, w3).
  cbv beta iota.
  change (WebhookService.deliverWebhook env (Some t2) w3)
    with (Return (endpoint env (Some t2)), w3).
  cbv beta iota.
  assert (Hp3 : presents taskId t2 (task_queue w3))
    by (apply (presents_updated taskId t1 "completed" ad2 w2),
          presents_after_work).
  fold (requeues task).
  destruct (requeues task) eqn:Hq.
  - unfold requeues in Hq. apply andb_true_iff in Hq as [_ Htruthy].
    destruct (schedule_pattern task) as [| | |s| |] eqn:Hs;
      try discriminate.
    unfold TaskService._scheduleNextExecution.
    cbv beta iota delta [bind].
    rewrite calculateNextExecution_text. cbv beta iota.
    rewrite (updateTaskState_presents taskId t2) by exact Hp3.
    cbv beta iota. eexists. split; reflexivity.
  - eexists. split; reflexivity.
Qed.

(** What the table presents after a successful run. *)
Lemma presents_after_success :
  presents taskId
    (if requeues task
     then applied (clock w2) "queued" TaskRepository.no_data t2 else t2)
    (task_queue (if requeues task
                 then updated "queued" TaskRepository.no_data taskId w3
                 else w3)).
Proof.
  assert (Hp3 : presents taskId t2 (task_queue w3))
    by (apply (presents_updated taskId t1 "completed" ad2 w2),
          presents_after_work).
  destruct (requeues task); [|exact Hp3].
  apply (presents_updated taskId t2 "queued" TaskRepository.no_data w3), Hp3.
Qed.

End Execution.

(** ** The execution engine *)

(** C5. A run requested for a task that is [processing] fails with the
    invalid-state-transition error (status 400) and leaves the world as it
    was: no write to the table, no attempt counted, no line of history. *)
Theorem C5_processing_task_is_rejected env taskId w task :
  fst (TaskRepository.findTaskById taskId w) = Return (Some task) ->
  execution_state task = "processing" ->
  TaskService.executeTask env taskId w
  = (Throw (Errors.InvalidTaskStateError "processing" "execute"), w)
  /\ Errors.errorCode (Errors.InvalidTaskStateError "processing" "execute")
     = Some "INVALID_STATE_TRANSITION".
Proof.
  intros Hfind Hst. split; [|reflexivity].
  apply presents_findTaskById in Hfind.
  unfold TaskService.executeTask.
  cbv beta iota delta [bind].
  rewrite (findTaskById_presents _ _ _ Hfind).
  cbv beta iota. now rewrite Hst.
Qed.

(** C5 on a table whose only task is being processed. *)
Lemma C5_witness :
  TaskService.executeTask Sample.env "t1"
    (Sample.world [Sample.row "t1" "processing" JNull None None] 1000
                  Sample.idle)
  = (Throw (Errors.InvalidTaskStateError "processing" "execute"),
     Sample.world [Sample.row "t1" "processing" JNull None None] 1000
                  Sample.idle)
  /\ Errors.errorCode (Errors.InvalidTaskStateError "processing" "execute")
     = Some "INVALID_STATE_TRANSITION".
Proof.
  eapply C5_processing_task_is_rejected; vm_compute; reflexivity.
Defined.





(** C4. The work unit succeeded and the notification endpoint reports a
    failure: [executeTask] still returns its success result; the task is
    [completed], or [queued] again when it recurs, never [failed]; its
    [failure_reason] is the one it had; the history gains a success
    line. *)
Theorem C4_notification_failure_is_absorbed env taskId w task :
  fst (TaskRepository.findTaskById taskId w) = Return (Some task) ->
  execution_state task <> "processing" ->
  text_or_null (schedule_pattern task) = true ->
  custom_logic env task = None ->
  (forall t, wh_success (endpoint env t) = false) ->
  exists r w' task',
    TaskService.executeTask env taskId w = (Return r, w')
    /\ TaskService.success r = true
    /\ fst (TaskRepository.findTaskById taskId w') = Return (Some task')
    /\ execution_state task'
       = (if requeues task then "queued" else "completed")
    /\ execution_state task' <> "failed"
    /\ failure_reason task' = failure_reason task
    /\ exists finish,
        execution_history w'
        = (execution_history w
           ++ [mkHistory taskId "success" (clock w) finish (finish - clock w)
                         None])%list.
Proof.
  intros Hfind Hst Hpat Hwork _.
  apply presents_findTaskById in Hfind.
  destruct (executeTask_success env taskId w task Hfind Hst Hwork Hpat)
    as (r & Hrun & _).
  pose proof (presents_after_success env taskId w task Hfind) as Hp'.
  cbv zeta in Hrun, Hp'.
  eexists _, _, _. split; [exact Hrun|].
  split; [reflexivity|].
  split; [erewrite findTaskById_presents; [reflexivity | exact Hp']|].
  destruct (requeues task).
  - repeat split; [discriminate|].
    eexists. cbn. rewrite worked_history. reflexivity.
  - repeat split; [discriminate|].
    eexists. cbn. rewrite worked_history. reflexivity.
Qed.

(** C4 on a task that is not recurring, with an endpoint that is down. *)
Lemma C4_witness :
  exists r w' task',
    TaskService.executeTask Sample.env_sink_down "t1"
      (Sample.world [Sample.row "t1" "queued" JNull None None] 1000
                    Sample.idle)
    = (Return r, w')
    /\ TaskService.success r = true
    /\ fst (TaskRepository.findTaskById "t1" w') = Return (Some task')
    /\ execution_state task' = "completed"
    /\ execution_state task' <> "failed"
    /\ failure_reason task' = None
    /\ exists finish,
        execution_history w'
        = [mkHistory "t1" "success" 1000 finish (finish - 1000) None].
Proof.
  apply (C4_notification_failure_is_absorbed Sample.env_sink_down "t1"
           (Sample.world [Sample.row "t1" "queued" JNull None None] 1000
                         Sample.idle)
           (Sample.read (Sample.row "t1" "queued" JNull None None)));
    [vm_compute; reflexivity | discriminate | reflexivity | reflexivity
    | reflexivity].
Defined.

(** A successful run of a recurring task leaves its [next_execution_at]
    as it was, for every task and every schedule. *)
Lemma successful_run_keeps_next_execution_at env taskId w task :
  fst (TaskRepository.findTaskById taskId w) = Return (Some task) ->
  execution_state task <> "processing" ->
  text_or_null (schedule_pattern task) = true ->
  custom_logic env task = None ->
  exists task',
    fst (TaskRepository.findTaskById taskId
           (snd (TaskService.executeTask env taskId w)))
    = Return (Some task')
    /\ next_execution_at task' = next_execution_at task.
Proof.
  intros Hfind Hst Hpat Hwork.
  apply presents_findTaskById in Hfind.
  destruct (executeTask_success env taskId w task Hfind Hst Hwork Hpat)
    as (r & Hrun & _).
  pose proof (presents_after_success env taskId w task Hfind) as Hp'.
  cbv zeta in Hrun, Hp'.
  rewrite Hrun. cbn [snd].
  eexists. split; [erewrite findTaskById_presents; [reflexivity | exact Hp']|].
  now destruct (requeues task).
Qed.

(** C1. A recurring task with schedule [*/5 * * * *] that was due at
    instant 60000 is run at instant 600000 and succeeds after 3000 ms.
    The service computes 903000 as the next instant and passes it to
    [updateTaskState]; the task is queued again, but the stored
    [next_execution_at] is still 60000, before the end of the run. *)
Theorem C1_requeue_keeps_stale_next_execution_at :
  let w := Sample.world
             [Sample.row "t1" "queued" (JStr "*/5 * * * *")
                         (Some (ValidDate 60000)) None]
             600000 Sample.idle in
  let w' := snd (TaskService.executeTask Sample.env "t1" w) in
  exists r task',
    fst (TaskService.executeTask Sample.env "t1" w) = Return r
    /\ TaskService.success r = true
    /\ clock w' = 603000
    /\ fst (TaskService._calculateNextExecution (JStr "*/5 * * * *") w')
       = Return (ValidDate 903000)
    /\ fst (TaskRepository.findTaskById "t1" w') = Return (Some task')
    /\ execution_state task' = "queued"
    /\ is_recurring task' = true
    /\ next_execution_at task' = Some (ValidDate 60000).
Proof.
  eexists _, _.
  split; [vm_compute; reflexivity|].
  split; [reflexivity|].
  split; [vm_compute; reflexivity|].
  split; [vm_compute; reflexivity|].
  split; [vm_compute; reflexivity|].
  repeat split.
Qed.

(** ** [JSON.parse] inverts [JSON.stringify] *)

Lemma span_digits_uint u rest :
  ends_number rest = true ->
  span_digits (NilEmpty.string_of_uint u ++ rest)
  = (NilEmpty.string_of_uint u, rest).
Proof.
  intros Hrest. induction u; simpl; try (rewrite IHu; reflexivity).
  destruct rest as [|c r]; [reflexivity|].
  simpl in *. apply andb_true_iff in Hrest as [Hd _].
  apply negb_true_iff in Hd. now rewrite Hd.
Qed.

Lemma to_uint_unorm p : Decimal.unorm (Pos.to_uint p) = Pos.to_uint p.
Proof.
  rewrite <- (DecimalPos.Unsigned.to_of (Pos.to_uint p)).
  now rewrite DecimalPos.Unsigned.of_to.
Qed.

Lemma to_uint_no_leading_zero p u : Pos.to_uint p <> Decimal.D0 u.
Proof.
  intros H. pose proof (to_uint_unorm p) as Hn. rewrite H in Hn.
  rewrite DecimalFacts.unorm_D0 in Hn.
  destruct u;
    [ apply (DecimalPos.Unsigned.to_uint_nonzero p), H | .. ];
    match type of Hn with
    | Decimal.unorm ?v = _ =>
        pose proof (DecimalFacts.nb_digits_unorm v ltac:(discriminate)) as L
    end;
    rewrite Hn in L; simpl in L; lia.
Qed.

Lemma of_uint_to_uint p : Z.of_uint (Pos.to_uint p) = Z.pos p.
Proof.
  unfold Z.of_uint. now rewrite DecimalPos.Unsigned.of_to.
Qed.

Lemma ends_number_fraction rest :
  ends_number rest = true -> starts_fraction rest = false.
Proof.
  destruct rest as [|c r]; [reflexivity|].
  unfold ends_number. intros H. apply andb_true_iff in H as [_ H].
  now apply negb_true_iff in H.
Qed.

Lemma parse_digits_to_uint p rest (neg : bool) :
  ends_number rest = true ->
  (let (ds, rest') :=
     span_digits (NilEmpty.string_of_uint (Pos.to_uint p) ++ rest) in
   match ds with
   | EmptyString => None
   | String d ds' =>
       if Ascii.eqb d "0" && negb (String.eqb ds' "") then None
       else if starts_fraction rest' then None
       else match NilZero.uint_of_string ds with
            | Some u =>
                Some (if neg then Z.opp (Z.of_uint u) else Z.of_uint u, rest')
            | None => None
            end
   end) = Some (if neg then Z.neg p else Z.pos p, rest).
Proof.
  intros Hrest.
  rewrite span_digits_uint by exact Hrest.
  rewrite (ends_number_fraction _ Hrest).
  pose proof (of_uint_to_uint p) as Hv.
  pose proof (NilEmpty.usu (Pos.to_uint p)) as Hu.
  destruct (Pos.to_uint p) as [|u|u|u|u|u|u|u|u|u|u] eqn:E;
    [ now apply DecimalPos.Unsigned.to_uint_nonnil in E
    | now apply to_uint_no_leading_zero in E
    | .. ];
    cbn [NilEmpty.string_of_uint] in Hu |- *; cbv beta iota;
    change (Ascii.eqb _ "0") with false; cbn [andb];
    unfold NilZero.uint_of_string; rewrite Hu, Hv;
    now destruct neg.
Qed.

Lemma parse_number_print n rest :
  ends_number rest = true ->
  parse_number (number_to_string n ++ rest) = Some (n, rest).
Proof.
  intros Hrest. unfold number_to_string.
  destruct n as [|p|p]; cbn [Z.to_int NilZero.string_of_int].
  - cbn. destruct rest as [|c r]; [reflexivity|].
    pose proof (ends_number_fraction _ Hrest) as Hf.
    unfold ends_number in Hrest. apply andb_true_iff in Hrest as [Hd _].
    apply negb_true_iff in Hd.
    unfold parse_number. cbn [append].
    change (Ascii.eqb "0" "-") with false. cbv iota.
    cbn [span_digits]. change (is_digit "0") with true. cbv iota.
    rewrite Hd. rewrite Hf. reflexivity.
  - assert (Hs : NilZero.string_of_uint (Pos.to_uint p)
                 = NilEmpty.string_of_uint (Pos.to_uint p)).
    { destruct (Pos.to_uint p) eqn:E; try reflexivity.
      now apply DecimalPos.Unsigned.to_uint_nonnil in E. }
    rewrite Hs. unfold parse_number.
    pose proof (parse_digits_to_uint p rest false Hrest) as Hd.
    destruct (Pos.to_uint p) as [|u|u|u|u|u|u|u|u|u|u] eqn:E;
      [ now apply DecimalPos.Unsigned.to_uint_nonnil in E | .. ];
      cbn [NilEmpty.string_of_uint append];
      change (Ascii.eqb _ "-") with false; cbv iota;
      exact Hd.
  - assert (Hs : NilZero.string_of_uint (Pos.to_uint p)
                 = NilEmpty.string_of_uint (Pos.to_uint p)).
    { destruct (Pos.to_uint p) eqn:E; try reflexivity.
      now apply DecimalPos.Unsigned.to_uint_nonnil in E. }
    rewrite Hs. unfold parse_number.
    cbn [append]. change (Ascii.eqb "-" "-") with true. cbv iota.
    exact (parse_digits_to_uint p rest true Hrest).
Qed.

Lemma parse_string_quote_char c x :
  parse_string (quote_char c ++ x)
  = match parse_string x with
    | Some (str, r) => Some (String c str, r)
    | None => None
    end.
Proof.
  destruct c as [[|] [|] [|] [|] [|] [|] [|] [|]]; reflexivity.
Qed.

Lemma append_assoc (a b c : string) : (a ++ b) ++ c = a ++ (b ++ c).
Proof. induction a; simpl; [reflexivity | now rewrite IHa]. Qed.

Lemma parse_string_quote_body s rest :
  parse_string (quote_body s ++ rest) = Some (s, rest).
Proof.
  induction s as [|c s IH]; [reflexivity|].
  cbn [quote_body]. rewrite append_assoc, parse_string_quote_char.
  now rewrite IH.
Qed.

Lemma json_induction (P : json -> Prop) :
  P JNull -> (forall b, P (JBool b)) -> (forall n, P (JNum n)) ->
  (forall s, P (JStr s)) ->
  (forall l, Forall P l -> P (JArr l)) ->
  (forall l, Forall (fun kv => P (snd kv)) l -> P (JObj l)) ->
  forall v, P v.
Proof.
  intros Hnull Hbool Hnum Hstr Harr Hobj.
  fix IH 1. intros [| b | n | s | l | l].
  - exact Hnull.
  - apply Hbool.
  - apply Hnum.
  - apply Hstr.
  - apply Harr. induction l as [|x l IHl]; constructor; [apply IH | exact IHl].
  - apply Hobj. induction l as [|[k x] l IHl]; constructor;
      [apply IH | exact IHl].
Qed.

Lemma length_append (a b : string) :
  String.length (a ++ b) = (String.length a + String.length b)%nat.
Proof. induction a; simpl; [reflexivity | now rewrite IHa]. Qed.

Lemma stringify_arr x t :
  stringify (JArr (x :: t)) = String "[" (stringify x ++ more_elements t).
Proof. reflexivity. Qed.

Lemma stringify_obj k x t :
  stringify (JObj ((k, x) :: t))
  = String "{" (quote k ++ String ":" (stringify x ++ more_members t)).
Proof. reflexivity. Qed.

Lemma number_to_string_opens n : opens_number (number_to_string n) = true.
Proof.
  unfold number_to_string.
  destruct n as [|p|p]; cbn [Z.to_int NilZero.string_of_int]; try reflexivity.
  unfold NilZero.string_of_uint.
  destruct (Pos.to_uint p); reflexivity.
Qed.

Lemma stringify_opens v : opens_value (stringify v) = true.
Proof.
  destruct v as [| [|] | n | s | [|x l] | [|[k x] l]]; try reflexivity.
  pose proof (number_to_string_opens n) as H. cbn [stringify].
  destruct (number_to_string n) as [|c s]; [discriminate|].
  destruct c as [[|] [|] [|] [|] [|] [|] [|] [|]]; try discriminate H;
    reflexivity.
Qed.

Lemma skip_ws_opens s : opens_value s = true -> skip_ws s = s.
Proof.
  destruct s as [|c r]; [reflexivity|]. cbn.
  intros H. apply andb_true_iff in H as [H _]. apply andb_true_iff in H as [H _].
  apply negb_true_iff in H. now rewrite H.
Qed.

Lemma opens_value_append s rest :
  opens_value s = true -> opens_value (s ++ rest) = true.
Proof. destruct s; [discriminate | exact (fun H => H)]. Qed.

Lemma parse_value_number fuel n rest :
  ends_number rest = true ->
  parse_value (S fuel) (number_to_string n ++ rest) = Some (JNum n, rest).
Proof.
  intros Hrest.
  pose proof (parse_number_print n rest Hrest) as Hp.
  pose proof (number_to_string_opens n) as Ho.
  destruct (number_to_string n) as [|c s]; [discriminate|].
  cbn [append] in *. cbn [opens_number] in Ho.
  destruct c as [[|] [|] [|] [|] [|] [|] [|] [|]]; try discriminate Ho;
    cbn [parse_value]; 
    match goal with |- context [skip_ws (String ?c ?r)] =>
      change (skip_ws (String c r)) with (String c r) end;
    cbv iota;
    repeat match goal with |- context [Ascii.eqb ?a ?b] =>
      let v := eval vm_compute in (Ascii.eqb a b) in
      change (Ascii.eqb a b) with v end;
    cbv iota; rewrite Hp; reflexivity.
Qed.

Lemma more_elements_length t : (1 <= String.length (more_elements t))%nat.
Proof. destruct t; simpl; lia. Qed.

Lemma more_members_length t : (1 <= String.length (more_members t))%nat.
Proof. destruct t as [|[k x] t]; simpl; lia. Qed.

Lemma ends_number_more_elements t rest :
  ends_number (more_elements t ++ rest) = true.
Proof. destruct t; reflexivity. Qed.

Lemma ends_number_more_members t rest :
  ends_number (more_members t ++ rest) = true.
Proof. destruct t as [|[k x] t]; reflexivity. Qed.

Lemma parse_elements_more t :
  Forall roundtrips t ->
  forall x, roundtrips x ->
  forall fuel rest,
    (String.length (stringify x ++ more_elements t) <= fuel)%nat ->
    parse_elements fuel ((stringify x ++ more_elements t) ++ rest)
    = Some (x :: t, rest).
Proof.
  induction 1 as [|y t Hy Ht IH]; intros x Hx fuel rest Hlen.
  - rewrite length_append in Hlen. cbn in Hlen.
    destruct fuel as [|f]; [lia|].
    rewrite append_assoc. cbn [parse_elements].
    rewrite Hx by (lia || reflexivity).
    reflexivity.
  - rewrite length_append in Hlen.
    change (more_elements (y :: t))
      with (String "," (stringify y ++ more_elements t)) in *.
    cbn [String.length] in Hlen.
    destruct fuel as [|f]; [lia|].
    rewrite append_assoc. cbn [parse_elements].
    rewrite Hx by (lia || reflexivity).
    cbn [append skip_ws]. change (is_ws ",") with false. cbv iota.
    change (Ascii.eqb "," ",") with true. cbv iota.
    rewrite IH by (exact Hy || lia).
    reflexivity.
Qed.

Lemma parse_members_more t :
  Forall (fun kv => roundtrips (snd kv)) t ->
  forall k x, roundtrips x ->
  forall fuel rest,
    (String.length (quote k ++ String ":" (stringify x ++ more_members t))
     <= fuel)%nat ->
    parse_members fuel
      ((quote k ++ String ":" (stringify x ++ more_members t)) ++ rest)
    = Some ((k, x) :: t, rest).
Proof.
  induction 1 as [|[k' y] t Hy Ht IH]; intros k x Hx fuel rest Hlen.
  - rewrite length_append in Hlen. cbn [String.length] in Hlen.
    rewrite length_append in Hlen. cbn in Hlen.
    destruct fuel as [|f]; [lia|].
    cbn [parse_members].
    unfold quote. cbn [append skip_ws]. change (is_ws dquote) with false.
    cbv iota. cbn [strip]. change (Ascii.eqb dquote dquote) with true.
    cbv iota.
    rewrite append_assoc, parse_string_quote_body.
    cbn [append skip_ws]. change (is_ws ":") with false. cbv iota.
    cbn [strip]. change (Ascii.eqb ":" ":") with true. cbv iota.
    rewrite append_assoc.
    rewrite Hx by (lia || reflexivity).
    reflexivity.
  - rewrite length_append in Hlen. cbn [String.length] in Hlen.
    rewrite length_append in Hlen.
    change (more_members ((k', y) :: t))
      with (String "," (quote k' ++ String ":" (stringify y ++ more_members t)))
      in *.
    cbn [String.length] in Hlen.
    destruct fuel as [|f]; [lia|].
    cbn [parse_members].
    unfold quote at 1. cbn [append skip_ws]. change (is_ws dquote) with false.
    cbv iota. cbn [strip]. change (Ascii.eqb dquote dquote) with true.
    cbv iota.
    rewrite append_assoc, parse_string_quote_body.
    cbn [append skip_ws]. change (is_ws ":") with false. cbv iota.
    cbn [strip]. change (Ascii.eqb ":" ":") with true. cbv iota.
    rewrite append_assoc.
    rewrite Hx by (lia || reflexivity).
    cbn [append skip_ws]. change (is_ws ",") with false. cbv iota.
    change (Ascii.eqb "," ",") with true. cbv iota.
    simpl in Hy.
    rewrite IH by (exact Hy || lia).
    reflexivity.
Qed.

Lemma set_member_fresh k v o :
  existsb (String.eqb k) (map fst o) = false ->
  set_member k v o = (o ++ [(k, v)])%list.
Proof.
  induction o as [|[k' v'] o IH]; [reflexivity|].
  cbn. intros H. apply orb_false_iff in H as [Hk Ho].
  rewrite Hk. now rewrite IH.
Qed.

Lemma nodup_keys_app_fresh acc k ks :
  nodup_keys (acc ++ k :: ks) = true ->
  existsb (String.eqb k) acc = false /\ nodup_keys ((acc ++ [k]) ++ ks) = true.
Proof.
  intros H. split.
  - induction acc as [|a acc IH]; [reflexivity|].
    cbn in H |- *. apply andb_true_iff in H as [Ha Hn].
    rewrite (IH Hn), orb_false_r.
    apply negb_true_iff in Ha. rewrite existsb_app in Ha.
    apply orb_false_iff in Ha as [_ Ha]. cbn in Ha.
    apply orb_false_iff in Ha as [Ha _].
    now rewrite String.eqb_sym.
  - now rewrite <- List.app_assoc.
Qed.

Lemma fold_set_member ms : forall acc,
  nodup_keys (map fst (acc ++ ms)) = true ->
  fold_left (fun o kv => set_member (fst kv) (snd kv) o) ms acc
  = (acc ++ ms)%list.
Proof.
  induction ms as [|[k v] ms IH]; intros acc H.
  - now rewrite List.app_nil_r.
  - cbn [fold_left fst snd].
    rewrite map_app in H. cbn [map fst] in H.
    apply nodup_keys_app_fresh in H as [Hfresh Hn].
    rewrite set_member_fresh by exact Hfresh.
    rewrite IH.
    + now rewrite <- List.app_assoc.
    + rewrite map_app, map_app. exact Hn.
Qed.

Lemma object_of_nodup ms :
  nodup_keys (map fst ms) = true -> object_of ms = ms.
Proof. intros H. exact (fold_set_member ms [] H). Qed.

Lemma forallb_Forall_wf (P : json -> Prop) l :
  Forall (fun v => wf v = true -> P v) l ->
  forallb wf l = true -> Forall P l.
Proof.
  induction 1 as [|x l Hx Hl IH]; intros H; [constructor|].
  cbn in H. apply andb_true_iff in H as [H1 H2].
  constructor; auto.
Qed.

Lemma forallb_Forall_wf_snd (P : json -> Prop) (l : list (string * json)) :
  Forall (fun kv => wf (snd kv) = true -> P (snd kv)) l ->
  forallb (fun kv => wf (snd kv)) l = true ->
  Forall (fun kv => P (snd kv)) l.
Proof.
  induction 1 as [|x l Hx Hl IH]; intros H; [constructor|].
  cbn in H. apply andb_true_iff in H as [H1 H2].
  constructor; auto.
Qed.

Theorem parse_value_stringify v : wf v = true -> roundtrips v.
Proof.
  induction v as [| b | n | s | l IH | l IH] using json_induction;
    intros Hwf fuel rest Hlen Hrest.
  - destruct fuel as [|f]; [cbn in Hlen; lia | reflexivity].
  - destruct fuel as [|f]; [destruct b; cbn in Hlen; lia|].
    destruct b; reflexivity.
  - destruct fuel as [|f].
    + pose proof (number_to_string_opens n) as Ho. cbn [stringify] in Hlen.
      destruct (number_to_string n); [discriminate | cbn in Hlen; lia].
    + now apply parse_value_number.
  - destruct fuel as [|f]; [cbn in Hlen; lia|].
    cbn [stringify quote append parse_value skip_ws].
    change (is_ws dquote) with false. cbv iota.
    repeat match goal with |- context [Ascii.eqb ?a ?b] =>
      let v := eval vm_compute in (Ascii.eqb a b) in
      change (Ascii.eqb a b) with v end.
    cbv iota. now rewrite parse_string_quote_body.
  - destruct l as [|x t].
    + destruct fuel as [|f]; [cbn in Hlen; lia | reflexivity].
    + cbn [wf] in Hwf. pose proof (forallb_Forall_wf _ _ IH Hwf) as Hall.
      inversion Hall as [|? ? Hx Ht]; subst.
      rewrite stringify_arr in *. cbn [String.length] in Hlen.
      destruct fuel as [|f]; [lia|].
      cbn [append parse_value skip_ws].
      change (is_ws "[") with false. cbv iota.
      repeat match goal with |- context [Ascii.eqb ?a ?b] =>
        let v := eval vm_compute in (Ascii.eqb a b) in
        change (Ascii.eqb a b) with v end.
      cbv iota.
      rewrite skip_ws_opens
        by (rewrite append_assoc; apply opens_value_append, stringify_opens).
      assert (Hs : strip "]" ((stringify x ++ more_elements t) ++ rest) = None).
      { pose proof (stringify_opens x) as Ho.
        rewrite append_assoc.
        destruct (stringify x) as [|c r]; [discriminate|].
        cbn [opens_value] in Ho. cbn [append strip].
        apply andb_true_iff in Ho as [Ho _].
        apply andb_true_iff in Ho as [_ Ho]. apply negb_true_iff in Ho.
        rewrite Ascii.eqb_sym. now rewrite Ho. }
      rewrite Hs.
      rewrite parse_elements_more by (assumption || lia).
      reflexivity.
  - destruct l as [|[k x] t].
    + destruct fuel as [|f]; [cbn in Hlen; lia | reflexivity].
    + cbn [wf] in Hwf. apply andb_true_iff in Hwf as [Hkeys Hwf].
      pose proof (forallb_Forall_wf_snd _ _ IH Hwf) as Hall.
      inversion Hall as [|? ? Hx Ht]; subst. cbn [snd] in Hx.
      rewrite stringify_obj in *. cbn [String.length] in Hlen.
      destruct fuel as [|f]; [lia|].
      cbn [append parse_value skip_ws].
      change (is_ws "{") with false. cbv iota.
      repeat match goal with |- context [Ascii.eqb ?a ?b] =>
        let v := eval vm_compute in (Ascii.eqb a b) in
        change (Ascii.eqb a b) with v end.
      cbv iota.
      assert (Hs : strip "}"
                     (skip_ws ((quote k ++ String ":"
                                  (stringify x ++ more_members t)) ++ rest))
                   = None) by reflexivity.
      rewrite Hs.
      rewrite parse_members_more by (assumption || lia).
      now rewrite object_of_nodup.
Qed.

(** [JSON.parse] inverts [JSON.stringify]. *)
Theorem parse_stringify v : wf v = true -> parse (stringify v) = Some v.
Proof.
  intros Hwf. unfold parse.
  pose proof (parse_value_stringify v Hwf (S (String.length (stringify v)))
                EmptyString ltac:(lia) eq_refl) as H.
  assert (Hnil : forall s, s ++ "" = s)
    by (induction s as [|c s IHs]; cbn; [reflexivity | now rewrite IHs]).
  rewrite Hnil in H. now rewrite H.
Qed.

(** ** Creating a task *)

Section Creation.
Variables (uuid : string) (p : TaskService.TaskPayload) (w : World).
Variables (name pr : string) (pl : json).
Hypothesis Hname : TaskService.taskName p = Some (JStr name).
Hypothesis Hblank : Js.trim name <> "".
Hypothesis Hpayload : TaskService.payload p = Some pl.
Hypothesis Htruthy : truthy (Some pl) = true.
Hypothesis Hprio : TaskService.priority p = Some (JStr pr).
Hypothesis Hvalid :
  TaskService.includes TaskService.validPriorities
                       (Some (Js.toLowerCase pr)) = true.
Hypothesis Hpattern : acceptable_pattern (TaskService.schedulePattern p) = true.

Lemma name_not_empty : truthy (Some (JStr name)) = true.
Proof.
  cbn. destruct name; [now elim Hblank | reflexivity].
Qed.

Lemma validateTaskPayload_accepts :
  TaskService._validateTaskPayload p w = (Return tt, w).
Proof.
  unfold TaskService._validateTaskPayload.
  cbv beta iota delta [bind].
  rewrite Hname, name_not_empty. cbn [negb].
  cbv beta iota delta [ret].
  destruct (Js.trim name) as [|c r] eqn:E; [now elim Hblank|].
  cbn [String.length Nat.eqb]. cbv beta iota.
  rewrite Hpayload, Htruthy. cbn [negb]. cbv beta iota.
  rewrite Hprio. cbv beta iota. rewrite Hvalid. cbn [negb]. cbv beta iota.
  unfold acceptable_pattern in Hpattern.
  destruct (TaskService.schedulePattern p) as [[| b | n | s | l | l]|];
    try reflexivity; try discriminate Hpattern.
  - cbn in Hpattern |- *. apply negb_true_iff in Hpattern.
    now rewrite Hpattern.
  - cbn in Hpattern |- *. apply negb_true_iff in Hpattern.
    now rewrite Hpattern.
  - cbn [truthy]. destruct s as [|c' s']; [reflexivity|].
    cbn [String.eqb negb orb] in Hpattern |- *.
    cbv beta iota delta [TaskService._isValidCronPattern ret].
    change (String.eqb (String c' s') "") with false in Hpattern.
    cbn [orb] in Hpattern.
    now rewrite Hpattern.
Qed.

Hypothesis Hwf : wf pl = true.
Hypothesis Hfresh : filter (TaskRepository.has_id uuid) (task_queue w) = [].

Let row := created_row (zone w) uuid name pl pr (TaskService.schedulePattern p)
                       (clock w).
Let w' := mkWorld (task_queue w ++ [row]) (execution_history w) (clock w)
                  (scheduler w) (zone w).

Lemma created_row_reads :
  TaskRepository._formatTaskData row
  = Return (mkTask uuid (JStr name) pl (urgency_level row)
                   (schedule_pattern row)
                   (truthy (TaskService.schedulePattern p))
                   (next_execution_at row) "queued" 0 None None None None
                   (clock w) (clock w)).
Proof.
  unfold TaskRepository._formatTaskData, row, created_row.
  cbn [payload_data]. rewrite parse_stringify by exact Hwf.
  cbn -[truthy Js.toLowerCase next_instant].
  now destruct (truthy (TaskService.schedulePattern p)).
Qed.

Lemma presents_created :
  presents uuid (Sample.read row) (task_queue w').
Proof.
  exists row, []. split.
  - unfold w'. cbn [task_queue]. rewrite filter_app, Hfresh.
    cbn [filter app].
    assert (Hid : TaskRepository.has_id uuid row = true)
      by (unfold TaskRepository.has_id, row, created_row; cbn [task_id];
          apply String.eqb_refl).
    now rewrite Hid.
  - unfold Sample.read. now rewrite created_row_reads.
Qed.

Lemma next_execution_computed :
  (match TaskService.schedulePattern p with
   | Some pattern =>
       if truthy (Some pattern)
       then bind (TaskService._calculateNextExecution pattern)
                 (fun d => ret (Some d))
       else ret None
   | None => ret None
   end) w
  = (Return (next_execution_at row), w).
Proof.
  unfold row, created_row. cbn [next_execution_at].
  unfold acceptable_pattern in Hpattern.
  destruct (TaskService.schedulePattern p) as [[| b | n | s | l | l]|];
    try reflexivity; try discriminate Hpattern.
  - destruct b; [discriminate Hpattern | reflexivity].
  - destruct (truthy (Some (JNum n))); [discriminate Hpattern | reflexivity].
  - destruct (truthy (Some (JStr s))); [|reflexivity].
    unfold bind. now rewrite calculateNextExecution_text.
Qed.

Lemma repository_createTask_accepts :
  TaskRepository.createTask
    (TaskRepository.mkTaskData uuid (TaskService.taskName p)
       (TaskService.payload p) (Js.toLowerCase pr)
       (match TaskService.schedulePattern p with
        | Some pattern => if truthy (Some pattern) then pattern else JNull
        | None => JNull
        end)
       (truthy (TaskService.schedulePattern p))
       (next_execution_at row)) w
  = (Return (Some (Sample.read row)), w').
Proof.
  unfold TaskRepository.createTask, TaskRepository.rethrow, tryCatch.
  cbv beta iota delta [bind lift TaskRepository.bind_param
                       TaskRepository.td_task_label
                       TaskRepository.td_payload_data
                       TaskRepository.td_task_id
                       TaskRepository.td_urgency_level
                       TaskRepository.td_schedule_pattern
                       TaskRepository.td_is_recurring
                       TaskRepository.td_next_execution_at].
  rewrite Hname, Hpayload. cbn [option_map]. cbv beta iota.
  unfold TaskRepository.insert_task_queue.
  assert (Hrow :
    mkTask uuid (JStr name) (CellText (stringify pl)) (Js.toLowerCase pr)
      (if truthy
            (Some
               match TaskService.schedulePattern p with
               | Some pattern =>
                   if truthy (Some pattern) then pattern else JNull
               | None => JNull
               end)
       then
        match TaskService.schedulePattern p with
        | Some pattern => if truthy (Some pattern) then pattern else JNull
        | None => JNull
        end
       else JNull)
      (if truthy (TaskService.schedulePattern p) || false then 1 else 0)
      (next_execution_at row) "queued" 0 None None None None
      (clock w) (clock w) = row).
  { unfold row, created_row. cbn [next_execution_at].
    rewrite orb_false_r.
    destruct (TaskService.schedulePattern p) as [v|]; [|reflexivity].
    destruct (truthy (Some v)) eqn:E; [now rewrite E | reflexivity]. }
  rewrite Hrow. fold w'.
  now rewrite (findTaskById_presents _ _ _ presents_created).
Qed.

Lemma createTask_accepts :
  exists r,
    TaskService.createTask uuid p w
    = (Return (TaskService.mkResult true (Some "Task created successfully")
                                    (Some r)), w')
    /\ TaskService.id r = uuid
    /\ TaskService.r_taskName r = JStr name
    /\ TaskService.r_payload r = pl
    /\ TaskService.status r = "queued"
    /\ TaskService.nextExecutionAt r = next_execution_at row.
Proof.
  unfold TaskService.createTask.
  cbv beta iota delta [bind].
  rewrite validateTaskPayload_accepts. cbv beta iota.
  rewrite Hprio. cbv beta iota delta [ret].
  pose proof next_execution_computed as Hnext.
  cbv beta iota delta [bind ret] in Hnext.
  rewrite Hnext. cbv beta iota.
  rewrite repository_createTask_accepts. cbv beta iota.
  unfold Sample.read. rewrite created_row_reads.
  cbn [TaskService._formatTaskResponse]. cbv beta iota delta [ret].
  eexists. split; [reflexivity|]. repeat split.
Qed.
End Creation.

(** Where the offset of the zone is the same five minutes of local time
    after the creation, a task created with the schedule [*/5 * * * *]
    gets the instant of its creation plus five minutes (300000 ms) as its
    next execution instant, in the answer of the service and in the
    table. *)
Lemma createTask_five_minutes_later uuid p w name pr pl :
  TaskService.taskName p = Some (JStr name) ->
  Js.trim name <> "" ->
  TaskService.payload p = Some pl ->
  truthy (Some pl) = true ->
  wf pl = true ->
  TaskService.priority p = Some (JStr pr) ->
  TaskService.includes TaskService.validPriorities (Some (Js.toLowerCase pr))
  = true ->
  TaskService.schedulePattern p = Some (JStr "*/5 * * * *") ->
  filter (TaskRepository.has_id uuid) (task_queue w) = [] ->
  Z.abs (clock w) <= 8640000000000000 ->
  Z.abs (clock w + 300000) <= 8640000000000000 ->
  within_a_day (zone w) ->
  steady (zone w) (clock w) 300000 ->
  exists r d w' task,
    TaskService.createTask uuid p w = (Return r, w')
    /\ TaskService.data r = Some d
    /\ TaskService.nextExecutionAt d = Some (ValidDate (clock w + 300000))
    /\ fst (TaskRepository.findTaskById uuid w') = Return (Some task)
    /\ is_recurring task = true
    /\ spawned_at task = clock w
    /\ next_execution_at task = Some (ValidDate (spawned_at task + 300000)).
Proof.
  intros Hname Hblank Hpayload Htruthy Hwf Hprio Hvalid Hpat Hfresh
    Hnow Hnext5 Hzone Hsteady.
  assert (Hacc : acceptable_pattern (TaskService.schedulePattern p) = true)
    by (rewrite Hpat; reflexivity).
  destruct (createTask_accepts uuid p w name pr pl Hname Hblank Hpayload
              Htruthy Hprio Hvalid Hacc Hwf Hfresh)
    as (r & Hrun & _ & _ & _ & _ & Hnext).
  pose proof (presents_created uuid p w name pr pl Hwf Hfresh) as Hp.
  pose proof (created_row_reads uuid p w name pr pl Hwf) as Hread.
  cbv zeta in Hrun, Hp, Hread.
  assert (Hfive :
    next_instant (zone w) "*/5 * * * *" (clock w)
    = ValidDate (clock w + 300000)).
  { unfold next_instant.
    change (Js.startsWith "*/5 * * * *" "*/") with true. cbv iota.
    change (Js.parseInt (Js.replace "*/" ""
                           (nth 0 (Js.split " " "*/5 * * * *") "")))
      with (Some 5).
    cbn [option_map].
    rewrite setMinutes_adds by (try assumption; lia).
    now apply local_later_steady. }
  rewrite Hpat in *.
  eexists _, _, _, _. split; [exact Hrun|].
  split; [reflexivity|].
  split.
  { rewrite Hnext. unfold created_row. cbn [next_execution_at truthy].
    cbn -[next_instant]. exact (f_equal Some Hfive). }
  split; [erewrite findTaskById_presents; [reflexivity | exact Hp]|].
  unfold Sample.read. rewrite Hread.
  cbn [is_recurring spawned_at next_execution_at].
  split; [reflexivity|]. split; [reflexivity|].
  unfold created_row. cbn [next_execution_at]. cbn -[next_instant].
  exact (f_equal Some Hfive).
Qed.

(** C9. On a host in New York, a task is created with the schedule
    [*/5 * * * *] at 01:57 local time in the night the clocks go back
    (2026-11-01T05:57:00Z).  Its next execution instant is 65 minutes
    after its creation, not 5: [setMinutes] moves the local time to
    02:02, which is on winter time. *)
Theorem C9_five_minutes_become_sixty_five :
  let w := Sample.world_in Sample.new_york [] 1793512620000 Sample.idle in
  let body := Sample.request "report" (Some (JStr "*/5 * * * *")) in
  exists r d w' task,
    TaskService.createTask "id-1" body w = (Return r, w')
    /\ TaskService.data r = Some d
    /\ TaskService.nextExecutionAt d
       = Some (ValidDate (clock w + 65 * 60000))
    /\ fst (TaskRepository.findTaskById "id-1" w') = Return (Some task)
    /\ spawned_at task = clock w
    /\ next_execution_at task
       = Some (ValidDate (spawned_at task + 65 * 60000)).
Proof.
  intros w body. eexists _, _, _, _.
  split; [vm_compute; reflexivity|].
  split; [reflexivity|].
  split; [reflexivity|].
  split; [vm_compute; reflexivity|].
  split; reflexivity.
Qed.

Lemma In_insert_desc x r l :
  In x (TaskRepository.insert_desc r l) <-> x = r \/ In x l.
Proof.
  induction l as [|y l IH]; cbn.
  - intuition.
  - destruct (spawned_at y <? spawned_at r); cbn; [intuition|].
    rewrite IH. intuition.
Qed.

Lemma In_order_by_spawned_at_desc x l :
  In x (TaskRepository.order_by_spawned_at_desc l) <-> In x l.
Proof.
  induction l as [|y l IH]; cbn; [reflexivity|].
  rewrite In_insert_desc, IH. intuition.
Qed.

Lemma format_all_readable l :
  readable l ->
  exists ts,
    TaskRepository.format_all l = Return ts
    /\ forall r t, In r l -> TaskRepository._formatTaskData r = Return t ->
                   In t ts.
Proof.
  induction l as [|y l IH]; intros Hr.
  - exists []. split; [reflexivity | intros ? ? []].
  - destruct (Hr y (or_introl eq_refl)) as [ty Hy].
    destruct IH as (ts & Hts & Hin).
    { intros r Hr'. apply Hr. now right. }
    exists (ty :: ts). cbn. rewrite Hy, Hts. split; [reflexivity|].
    intros r t [<- | Hr'] Ht.
    + left. congruence.
    + right. eauto.
Qed.

(** Reading the whole table returns every row that can be read. *)
Lemma findAllTasks_readable w r t :
  readable (task_queue w) ->
  In r (task_queue w) ->
  TaskRepository._formatTaskData r = Return t ->
  exists ts,
    TaskRepository.findAllTasks TaskRepository.no_filters w = (Return ts, w)
    /\ In t ts.
Proof.
  intros Hread Hin Hfmt.
  destruct (format_all_readable
              (TaskRepository.order_by_spawned_at_desc (task_queue w)))
    as (ts & Hts & Hall).
  { intros x Hx. apply Hread. now apply In_order_by_spawned_at_desc. }
  exists ts. split.
  - unfold TaskRepository.findAllTasks, TaskRepository.rethrow, tryCatch,
      bind, get, lift, ret, TaskRepository.no_filters.
    cbn [TaskRepository.f_execution_state TaskRepository.f_urgency_level
         TaskRepository.f_is_recurring TaskRepository.f_limit
         TaskRepository.given].
    cbv beta iota zeta. now rewrite Hts.
  - apply (Hall r t); [now apply In_order_by_spawned_at_desc | exact Hfmt].
Qed.



(** The service accepts a request only when its name is a string with a
    character that is not white space. *)
Lemma validateTaskPayload_label p w u w1 :
  TaskService._validateTaskPayload p w = (Return u, w1) ->
  exists name,
    TaskService.taskName p = Some (JStr name) /\ Js.trim name <> "".
Proof.
  unfold TaskService._validateTaskPayload.
  cbv beta iota delta [bind].
  destruct (TaskService.taskName p) as [[| b | n | s | l | l]|];
    cbn [truthy negb]; cbv beta iota delta [ret throw];
    try discriminate.
  - destruct b; cbn [negb]; cbv beta iota; discriminate.
  - destruct (n =? 0); cbn [negb]; cbv beta iota; discriminate.
  - destruct (String.eqb s ""); cbn [negb]; cbv beta iota;
      [discriminate|].
    destruct (Js.trim s) as [|c r] eqn:E; cbn [String.length Nat.eqb];
      cbv beta iota; [discriminate|].
    intros _. exists s. split; [reflexivity|]. now rewrite E.
Qed.

Lemma createTask_accepted_label uuid p w r w' :
  TaskService.createTask uuid p w = (Return r, w') ->
  exists name,
    TaskService.taskName p = Some (JStr name) /\ Js.trim name <> "".
Proof.
  unfold TaskService.createTask. cbv beta iota delta [bind].
  destruct (TaskService._validateTaskPayload p w) as [[u|e] w1] eqn:V;
    [|discriminate].
  intros _. eapply validateTaskPayload_label. exact V.
Qed.

(** A name that is empty or blank is refused with a validation error and
    nothing is written. *)
Lemma createTask_blank_label uuid p w name :
  TaskService.taskName p = Some (JStr name) ->
  Js.trim name = "" ->
  TaskService.createTask uuid p w
  = (Throw (Errors.ValidationError "taskName" "Task name is required"), w).
Proof.
  intros Hname Hblank.
  unfold TaskService.createTask, TaskService._validateTaskPayload.
  cbv beta iota delta [bind]. rewrite Hname.
  destruct name as [|c s]; [reflexivity|].
  cbn [truthy String.eqb negb]. cbv beta iota delta [ret].
  now rewrite Hblank.
Qed.

(** The request validator of the middleware refuses a name of more than
    255 characters. *)
Lemma validateCreateTaskRequest_long_label p w name :
  TaskService.taskName p = Some (JStr name) ->
  Js.trim name <> "" ->
  (255 < String.length name)%nat ->
  RequestValidator.validateCreateTaskRequest p w
  = (Throw (Errors.ValidationError "taskName"
              "Must be 255 characters or less"), w).
Proof.
  intros Hname Hblank Hlen.
  unfold RequestValidator.validateCreateTaskRequest.
  cbv beta iota delta [bind]. rewrite Hname.
  assert (Hne : String.eqb name "" = false)
    by (destruct name; [now elim Hblank | reflexivity]).
  cbn [truthy typeof]. rewrite Hne.
  change (String.eqb "string" "string") with true. cbn [negb orb].
  destruct (Js.trim name) as [|c' r] eqn:E; [now elim Hblank|].
  cbn [String.length Nat.eqb]. cbv beta iota delta [ret].
  apply Nat.ltb_lt in Hlen. now rewrite Hlen.
Qed.

(** C8. A creation request whose name has 256 characters passes the
    route: the answer is 201 and the table holds the 256 characters as the
    label.  The validator that refuses such a name is not on the route. *)
Theorem C8_long_label_is_accepted :
  let name := Sample.replicate 256 "a" in
  let body := Sample.request name None in
  let w := Sample.world [] 1000 Sample.idle in
  String.length name = 256%nat
  /\ (exists r w' task,
        TaskRoutes.post_tasks Sample.env "id-1" body w
        = (Return (Server.mkRes 201 (Server.ResultBody r)), w')
        /\ fst (TaskRepository.findTaskById "id-1" w') = Return (Some task)
        /\ task_label task = JStr name)
  /\ RequestValidator.validateCreateTaskRequest body w
     = (Throw (Errors.ValidationError "taskName"
                 "Must be 255 characters or less"), w).
Proof.
  intros name body w.
  split; [reflexivity|]. split.
  - destruct (createTask_accepts "id-1" body w name "low" (JObj []))
      as (r & Hrun & _); try solve [reflexivity | discriminate].
    pose proof (presents_created "id-1" body w name "low" (JObj [])
                  eq_refl eq_refl) as Hp.
    cbv zeta in Hrun, Hp.
    eexists _, _, _. split; [|split].
    + unfold TaskRoutes.post_tasks, TaskController.createTask, tryCatch, bind.
      rewrite Hrun. reflexivity.
    + erewrite findTaskById_presents; [reflexivity | exact Hp].
    + reflexivity.
  - apply (validateCreateTaskRequest_long_label body w name);
      [reflexivity | discriminate | cbn; lia].
Qed.

(** ** The scheduler *)

Import SchedulerService.

Lemma queued_of_app a b : queued_of (a ++ b) = (queued_of a ++ queued_of b)%list.
Proof.
  induction a as [|[t|t|t|e] a IH]; cbn; rewrite ?IH; reflexivity.
Qed.

Lemma dequeued_of_app a b :
  dequeued_of (a ++ b) = (dequeued_of a ++ dequeued_of b)%list.
Proof.
  induction a as [|[t|t|t|e] a IH]; cbn; rewrite ?IH; reflexivity.
Qed.

Lemma finally_accounts st :
  exists tr, accounts st (_executeTaskAsync_finally st) tr.
Proof.
  unfold _executeTaskAsync_finally, shift. cbn [this leave taskQueue].
  destruct (taskQueue (this st)) as [|t q] eqn:E.
  - exists []. split; cbn; rewrite ?E, ?List.app_nil_r; reflexivity.
  - exists [Dequeued t]. split; cbn; rewrite ?E, ?List.app_nil_r; reflexivity.
Qed.

Lemma accounts_trans st1 st2 st3 tr1 tr2 :
  accounts st1 st2 tr1 -> accounts st2 st3 tr2 ->
  accounts st1 st3 (tr1 ++ tr2).
Proof.
  intros [H1 Q1] [H2 Q2]. split.
  - rewrite H2, H1. now rewrite List.app_assoc.
  - rewrite dequeued_of_app, queued_of_app.
    rewrite <- List.app_assoc, Q2, List.app_assoc, Q1.
    now rewrite List.app_assoc.
Qed.

Lemma step_accounts ev st st' :
  step ev st = Some st' -> exists tr, accounts st st' tr.
Proof.
  destruct ev as [t | | i | taskId | i found]; cbn [step];
    unfold _checkAndExecutePendingTasks, _processTaskQueue,
      manualExecuteTask, manualExecuteTask_resumed.
  - destruct (at_capacity (this st)); intros [= <-].
    + exists [Queued t]. split; reflexivity.
    + exists [Started t]. split; cbn; rewrite ?List.app_nil_r; reflexivity.
  - unfold shift. destruct (taskQueue (this st)) as [|t q] eqn:E;
      [discriminate|].
    destruct (activeTasksCount (this st) <? maxConcurrentTasks (this st));
      intros [= <-].
    exists [Dequeued t]. split; cbn; rewrite ?E, ?List.app_nil_r; reflexivity.
  - destruct (nth_error (executing st) i); intros [= <-].
    destruct (finally_accounts
                (mkState (this st) (remove_nth i (executing st)) (lookups st)
                         (trace st))) as [tr Htr].
    exists tr. exact Htr.
  - destruct (at_capacity (this st)); intros [= <-].
    + exists [Rejected (Errors.ConcurrencyLimitError
                          (activeTasksCount (this st))
                          (maxConcurrentTasks (this st)))].
      split; cbn; rewrite ?List.app_nil_r; reflexivity.
    + exists []. split; cbn; rewrite ?List.app_nil_r; reflexivity.
  - destruct (nth_error (lookups st) i); [|discriminate].
    destruct found as [t|]; intros [= <-].
    + exists [Started t]. split; cbn; rewrite ?List.app_nil_r; reflexivity.
    + match goal with |- context [_executeTaskAsync_finally ?s] =>
        destruct (finally_accounts s) as [tr Htr];
        assert (H0 : accounts st s
                       [Rejected (Errors.TypeError
                   "Cannot read properties of null (reading 'task_label')")])
          by (split; cbn; rewrite ?List.app_nil_r; reflexivity);
        eexists; exact (accounts_trans _ _ _ _ _ H0 Htr)
      end.
Qed.

Lemma run_accounts evs : forall st st',
  run evs st = Some st' -> exists tr, accounts st st' tr.
Proof.
  induction evs as [|ev evs IH]; intros st st'; cbn [run].
  - intros [= <-]. exists []. split; cbn; rewrite ?List.app_nil_r; reflexivity.
  - destruct (step ev st) as [st1|] eqn:E; [|discriminate].
    intros Hrun. destruct (step_accounts _ _ _ E) as [tr1 H1].
    destruct (IH _ _ Hrun) as [tr2 H2].
    eexists. exact (accounts_trans _ _ _ _ _ H1 H2).
Qed.

(** At capacity, a task that is due is appended to the queue. *)
Lemma offer_at_capacity st t :
  at_capacity (this st) = true ->
  _checkAndExecutePendingTasks t st
  = mkState (push t (this st)) (executing st) (lookups st)
            (trace st ++ [Queued t]).
Proof.
  intros H. unfold _checkAndExecutePendingTasks. now rewrite H.
Qed.

(** C7. Tasks A then B reach a scheduler that is at capacity.  Both are
    appended to the overflow queue, and whatever happens next, the tasks
    taken out of the queue, in the order they are taken, followed by the
    tasks still waiting, are the tasks that were waiting, then A, then B,
    then the later arrivals: A leaves before B, whatever their
    priorities.  In particular, with nothing waiting before them, the end
    of one execution admits A and leaves B waiting. *)
Theorem C7_overflow_queue_is_fifo st A B :
  at_capacity (this st) = true ->
  (forall evs st',
      run (Offer A :: Offer B :: evs) st = Some st' ->
      exists tr,
        trace st' = (trace st ++ Queued A :: Queued B :: tr)%list
        /\ (dequeued_of tr ++ taskQueue (this st')
            = taskQueue (this st) ++ A :: B :: queued_of tr)%list)
  /\ (forall i st',
         taskQueue (this st) = [] ->
         run [Offer A; Offer B; Settle i] st = Some st' ->
         taskQueue (this st') = [B]
         /\ In A (executing st')
         /\ trace st' = (trace st ++ [Queued A; Queued B; Dequeued A])%list).
Proof.
  intros Hcap. split.
  - intros evs st'. cbn [run step].
    rewrite (offer_at_capacity st A Hcap).
    rewrite offer_at_capacity by exact Hcap.
    intros Hrun.
    destruct (run_accounts _ _ _ Hrun) as (tr & Htr & Hq).
    exists tr. split.
    + rewrite Htr. cbn [trace]. now rewrite <- !List.app_assoc.
    + rewrite Hq. cbn [this push taskQueue]. now rewrite <- !List.app_assoc.
  - intros i st' Hempty. cbn [run step].
    rewrite (offer_at_capacity st A Hcap).
    rewrite offer_at_capacity by exact Hcap.
    cbn [executing].
    destruct (nth_error (executing st) i); [|discriminate].
    intros [= <-].
    unfold _executeTaskAsync_finally, shift, push, leave.
    cbn [this taskQueue].
    rewrite Hempty. cbn.
    split; [reflexivity|]. split.
    + apply in_or_app. right. now left.
    + now rewrite <- !List.app_assoc.
Qed.

(** C7 with a limit of one task, A of low and B of high priority. *)
Lemma C7_witness :
  let st := mkState (mkScheduler 1 1 [] true) [Sample.task "t0" "low"] [] [] in
  let A := Sample.task "a" "low" in
  let B := Sample.task "b" "high" in
  exists st',
    run [Offer A; Offer B; Settle 0] st = Some st'
    /\ taskQueue (this st') = [B]
    /\ In A (executing st')
    /\ trace st' = [Queued A; Queued B; Dequeued A].
Proof.
  intros st A B.
  eexists. split; [vm_compute; reflexivity|].
  apply (proj2 (C7_overflow_queue_is_fifo st A B eq_refl) 0%nat);
    reflexivity.
Defined.

Lemma remove_nth_length {A} (l : list A) : forall i x,
  nth_error l i = Some x ->
  S (List.length (remove_nth i l)) = List.length l.
Proof.
  induction l as [|y l IH]; intros [|i] x; cbn; try discriminate.
  - reflexivity.
  - intros H. now rewrite (IH _ _ H).
Qed.

Lemma finally_within_limit st :
  activeTasksCount (this st) = Z.of_nat (S (List.length (executing st))) ->
  activeTasksCount (this st) <= maxConcurrentTasks (this st) ->
  within_limit (_executeTaskAsync_finally st).
Proof.
  intros Hc Hm. unfold within_limit, _executeTaskAsync_finally, shift.
  cbn [this leave taskQueue activeTasksCount maxConcurrentTasks].
  destruct (taskQueue (this st)) as [|t q];
    cbn [_executeTaskAsync this enter executing activeTasksCount
         maxConcurrentTasks].
  - unfold leave. cbn [activeTasksCount maxConcurrentTasks]. lia.
  - unfold leave, enter. cbn [activeTasksCount maxConcurrentTasks].
    rewrite length_app. cbn [List.length]. lia.
Qed.

(** Ticks, the draining of the queue and executions that end keep the
    count within the limit. *)
Lemma step_within_limit ev st st' :
  is_manual ev = false ->
  within_limit st -> step ev st = Some st' -> within_limit st'.
Proof.
  intros Hman [Hc Hm].
  destruct ev as [t | | i | taskId | i found]; try discriminate Hman;
    cbn [step]; unfold _checkAndExecutePendingTasks, _processTaskQueue.
  - unfold at_capacity.
    destruct (maxConcurrentTasks (this st) <=? activeTasksCount (this st))
      eqn:E; intros [= <-].
    + split; assumption.
    + apply Z.leb_gt in E. unfold within_limit, _executeTaskAsync, enter.
      cbn [this executing activeTasksCount maxConcurrentTasks].
      rewrite length_app. cbn [List.length]. lia.
  - unfold shift. destruct (taskQueue (this st)) as [|t q]; [discriminate|].
    destruct (activeTasksCount (this st) <? maxConcurrentTasks (this st))
      eqn:E; intros [= <-].
    apply Z.ltb_lt in E. unfold within_limit, _executeTaskAsync, enter.
    cbn [this executing activeTasksCount maxConcurrentTasks].
    rewrite length_app. cbn [List.length]. lia.
  - destruct (nth_error (executing st) i) as [x|] eqn:E; intros [= <-].
    apply finally_within_limit; cbn [this executing]; [|exact Hm].
    rewrite (remove_nth_length _ _ _ E). exact Hc.
Qed.

Lemma run_within_limit evs : forall st st',
  forallb (fun ev => negb (is_manual ev)) evs = true ->
  within_limit st -> run evs st = Some st' -> within_limit st'.
Proof.
  induction evs as [|ev evs IH]; intros st st' Hevs Hst; cbn [run].
  - now intros [= <-].
  - cbn in Hevs. apply andb_true_iff in Hevs as [Hev Hevs].
    apply negb_true_iff in Hev.
    destruct (step ev st) as [st1|] eqn:E; [|discriminate].
    apply IH; [exact Hevs|]. eapply step_within_limit; eassumption.
Qed.

(** Without manual calls the invariant of the gate holds in every state
    the scheduler reaches, for every limit that is not negative. *)
Lemma active_bounded_without_manual env evs st :
  0 <= maxConcurrentTasks (constructor env) ->
  forallb (fun ev => negb (is_manual ev)) evs = true ->
  run evs (initial env) = Some st ->
  activeTasksCount (this st) <= maxConcurrentTasks (this st).
Proof.
  intros Hmax Hevs Hrun.
  apply (run_within_limit evs (initial env) st Hevs); [|exact Hrun].
  split; [reflexivity | exact Hmax].
Qed.

(** [manualExecuteTask] at capacity throws the capacity error, status
    429, and changes neither the count nor the queue. *)
Lemma manualExecuteTask_at_capacity st taskId :
  at_capacity (this st) = true ->
  step (ManualCall taskId) st
  = Some (mkState (this st) (executing st) (lookups st)
            (trace st ++
               [Rejected (Errors.ConcurrencyLimitError
                            (activeTasksCount (this st))
                            (maxConcurrentTasks (this st)))]))
  /\ Errors.statusCode
       (Errors.ConcurrencyLimitError (activeTasksCount (this st))
                                     (maxConcurrentTasks (this st)))
     = Some 429.
Proof.
  intros H. cbn [step]. unfold manualExecuteTask. now rewrite H.
Qed.

(** C3. With a limit of one task, two calls of [manualExecuteTask] both
    pass the capacity check before either lookup resolves; both then
    count themselves in, and two tasks run at once. *)
Theorem C3_manual_calls_exceed_the_limit :
  let env := Sample.env_limit "1" in
  let A := Sample.task "a" "low" in
  let B := Sample.task "b" "low" in
  exists st,
    run [ManualCall "a"; ManualCall "b";
         ManualLookup 0 (Some A); ManualLookup 0 (Some B)] (initial env)
    = Some st
    /\ maxConcurrentTasks (this st) = 1
    /\ activeTasksCount (this st) = 2
    /\ executing st = [A; B]
    /\ trace st = [Started A; Started B].
Proof.
  eexists. split; [vm_compute; reflexivity|]. repeat split.
Qed.

(** C2. The scheduler is at capacity (5 of 5).  A run requested through
    the API for a queued task is executed all the same: the answer is 200,
    the task is completed and has one attempt.  The entry point of the
    scheduler meant for the API refuses the same request with status
    429. *)
Theorem C2_api_run_ignores_the_gate :
  let gate := mkScheduler 5 5 [] true in
  let w := Sample.world [Sample.row "t1" "queued" JNull None None] 1000 gate in
  at_capacity (scheduler w) = true
  /\ (exists r w' task,
        TaskRoutes.post_run_job Sample.env "t1" w
        = (Return (Server.mkRes 200 (Server.ResultBody r)), w')
        /\ fst (TaskRepository.findTaskById "t1" w') = Return (Some task)
        /\ execution_state task = "completed"
        /\ execution_attempts task = 1
        /\ scheduler w' = gate)
  /\ (exists e,
        step (ManualCall "t1") (mkState gate [] [] [])
        = Some (mkState gate [] [] [Rejected e])
        /\ Errors.statusCode e = Some 429).
Proof.
  intros gate w. split; [reflexivity|]. split.
  - eexists _, _, _. split; [vm_compute; reflexivity|].
    split; [vm_compute; reflexivity|]. repeat split.
  - eexists. split; reflexivity.
Qed.

(* ================================================================== *)
(** * Further properties *)

Import Views.

(** ** Listings *)


Lemma reads_fields r t :
  reads r t ->
  task_id t = task_id r
  /\ execution_state t = execution_state r
  /\ urgency_level t = urgency_level r
  /\ spawned_at t = spawned_at r
  /\ next_execution_at t = next_execution_at r
  /\ is_recurring t = TaskRepository.Boolean_of_number (is_recurring r).
Proof.
  unfold reads, TaskRepository._formatTaskData.
  destruct (payload_data r) as [txt|v]; [destruct (Json.parse txt)|];
    intros H; inversion H; subst; cbn; repeat split.
Qed.

Lemma format_all_reads l ts :
  TaskRepository.format_all l = Return ts -> Forall2 reads l ts.
Proof.
  revert ts. induction l as [|r l IH]; intros ts; cbn.
  - intros [= <-]. constructor.
  - destruct (TaskRepository._formatTaskData r) as [t|e] eqn:E; [|discriminate].
    destruct (TaskRepository.format_all l) as [ts'|e]; [|discriminate].
    intros [= <-]. constructor; [exact E | now apply IH].
Qed.

Lemma Forall2_reads_In l ts t :
  Forall2 reads l ts -> In t ts -> exists r, In r l /\ reads r t.
Proof.
  induction 1 as [|r t' l ts Hr Hall IH]; cbn; [intros []|].
  intros [<- | Hin].
  - exists r. split; [now left | exact Hr].
  - destruct (IH Hin) as (r' & Hr' & Hrt). exists r'. split; [now right | exact Hrt].
Qed.

Lemma Forall2_reads_length l ts :
  Forall2 reads l ts -> List.length ts = List.length l.
Proof. induction 1; cbn; congruence. Qed.


Lemma insert_desc_sorted r l :
  Sorted newer l -> Sorted newer (TaskRepository.insert_desc r l).
Proof.
  induction l as [|x l IH]; cbn; intros Hs.
  - repeat constructor.
  - inversion Hs as [|? ? Hs' Hhd]; subst.
    destruct (spawned_at x <? spawned_at r) eqn:E.
    + apply Z.ltb_lt in E. constructor; [exact Hs|].
      constructor. unfold newer. lia.
    + apply Z.ltb_ge in E. constructor; [now apply IH|].
      destruct l as [|y l]; cbn.
      * constructor. exact E.
      * inversion Hhd; subst.
        destruct (spawned_at y <? spawned_at r); constructor; assumption.
Qed.

Lemma order_sorted l : Sorted newer (TaskRepository.order_by_spawned_at_desc l).
Proof.
  induction l as [|x l IH]; cbn; [constructor | now apply insert_desc_sorted].
Qed.

Lemma firstn_sorted n : forall l, Sorted newer l -> Sorted newer (firstn n l).
Proof.
  induction n as [|n IH]; intros [|x l] Hs; cbn; try constructor.
  - inversion Hs; subst. now apply IH.
  - inversion Hs as [|? ? Hs' Hhd]; subst.
    destruct n; cbn; [constructor|].
    destruct l as [|y l]; cbn; [constructor|].
    inversion Hhd; subst. now constructor.
Qed.

Lemma In_firstn {A} n : forall (l : list A) x, In x (firstn n l) -> In x l.
Proof.
  induction n as [|n IH]; intros [|y l] x; cbn; try tauto.
  intros [-> | H]; [now left | right; now apply IH].
Qed.


Lemma findAllTasks_rows f w ts :
  fst (TaskRepository.findAllTasks f w) = Return ts ->
  exists rows,
    Forall2 reads rows ts
    /\ Sorted newer rows
    /\ (forall r, In r rows -> In r (task_queue w) /\ passes f r)
    /\ (forall l n, TaskRepository.given (TaskRepository.f_limit f) = Some l ->
                    Js.parseInt l = Some n ->
                    0 <= n /\ (List.length rows <= Z.to_nat n)%nat).
Proof.
  unfold TaskRepository.findAllTasks, TaskRepository.rethrow, tryCatch, bind,
    get, lift, ret, throw.
  cbv beta iota zeta.
  set (by_state := match TaskRepository.given (TaskRepository.f_execution_state f) with
                   | Some s => filter (fun r : Row => String.eqb (execution_state r) s)
                   | None => fun l => l end).
  set (by_urgency := match TaskRepository.given (TaskRepository.f_urgency_level f) with
                   | Some s => filter (fun r : Row => String.eqb (urgency_level r) s)
                   | None => fun l => l end).
  set (by_recurring := match TaskRepository.f_is_recurring f with
                   | Some b => filter (fun r : Row => is_recurring r =? (if b then 1 else 0))
                   | None => fun l => l end).
  set (rows := TaskRepository.order_by_spawned_at_desc
                 (by_recurring (by_urgency (by_state (task_queue w))))).
  assert (Hrows : forall r, In r rows -> In r (task_queue w) /\ passes f r).
  { intros r Hr. unfold rows in Hr.
    apply (proj1 (In_order_by_spawned_at_desc r _)) in Hr.
    assert (H3 : In r (by_urgency (by_state (task_queue w)))
                 /\ (forall b, TaskRepository.f_is_recurring f = Some b ->
                               is_recurring r = if b : bool then 1 else 0)).
    { unfold by_recurring in Hr.
      destruct (TaskRepository.f_is_recurring f) as [b|].
      - apply filter_In in Hr as [Hr Hb]. split; [exact Hr|].
        intros b' [= <-]. now apply Z.eqb_eq in Hb.
      - split; [exact Hr | discriminate]. }
    destruct H3 as [Hr3 Hrec].
    assert (H2 : In r (by_state (task_queue w))
                 /\ (forall s, TaskRepository.given (TaskRepository.f_urgency_level f) = Some s ->
                               urgency_level r = s)).
    { unfold by_urgency in Hr3.
      destruct (TaskRepository.given (TaskRepository.f_urgency_level f)) as [s|].
      - apply filter_In in Hr3 as [Hr3 Hb]. split; [exact Hr3|].
        intros s' [= <-]. now apply String.eqb_eq in Hb.
      - split; [exact Hr3 | discriminate]. }
    destruct H2 as [Hr2 Hurg].
    assert (H1 : In r (task_queue w)
                 /\ (forall s, TaskRepository.given (TaskRepository.f_execution_state f) = Some s ->
                               execution_state r = s)).
    { unfold by_state in Hr2.
      destruct (TaskRepository.given (TaskRepository.f_execution_state f)) as [s|].
      - apply filter_In in Hr2 as [Hr2 Hb]. split; [exact Hr2|].
        intros s' [= <-]. now apply String.eqb_eq in Hb.
      - split; [exact Hr2 | discriminate]. }
    destruct H1 as [Hr1 Hst]. repeat split; assumption. }
  destruct (TaskRepository.given (TaskRepository.f_limit f)) as [l|].
  - destruct (Js.parseInt l) as [n|] eqn:Ep; [|discriminate].
    destruct (n <? 0) eqn:En; [discriminate|]. apply Z.ltb_ge in En.
    destruct (TaskRepository.format_all (firstn (Z.to_nat n) rows)) as [ts'|e] eqn:E;
      [|discriminate].
    cbn [fst]. intros [= <-].
    exists (firstn (Z.to_nat n) rows).
    split; [now apply format_all_reads|].
    split; [apply firstn_sorted, order_sorted|].
    split.
    + intros r Hr. apply Hrows. eapply In_firstn. exact Hr.
    + intros l' n' [= <-] Hn'. rewrite Ep in Hn'. injection Hn' as <-.
      split; [exact En | apply firstn_le_length].
  - destruct (TaskRepository.format_all rows) as [ts'|e] eqn:E; [|discriminate].
    cbn [fst]. intros [= <-].
    exists rows. split; [now apply format_all_reads|].
    split; [apply order_sorted|]. split; [exact Hrows | discriminate].
Qed.


(** X1. Every task that [findAllTasks] returns is a row of the table read by
    [_formatTaskData], and it has the state, the urgency and the
    recurrence flag of each filter that is given. *)
Theorem findAllTasks_filters_are_sound f w ts t :
  fst (TaskRepository.findAllTasks f w) = Return ts ->
  In t ts ->
  (forall s, TaskRepository.given (TaskRepository.f_execution_state f) = Some s ->
             execution_state t = s)
  /\ (forall s, TaskRepository.given (TaskRepository.f_urgency_level f) = Some s ->
                urgency_level t = s)
  /\ (forall b, TaskRepository.f_is_recurring f = Some b -> is_recurring t = b)
  /\ exists r, In r (task_queue w) /\ TaskRepository._formatTaskData r = Return t.
Proof.
  intros H Hin.
  destruct (findAllTasks_rows f w ts H) as (rows & Hall & _ & Hrows & _).
  destruct (Forall2_reads_In rows ts t Hall Hin) as (r & Hr & Hrt).
  destruct (Hrows r Hr) as (Hq & Hst & Hurg & Hrec).
  destruct (reads_fields r t Hrt) as (_ & Est & Eurg & _ & _ & Erec).
  repeat split.
  - intros s Hs. rewrite Est. now apply Hst.
  - intros s Hs. rewrite Eurg. now apply Hurg.
  - intros b Hb. rewrite Erec, (Hrec b Hb). now destruct b.
  - exists r. split; assumption.
Qed.

(** A listing of the failed tasks that do not recur, over a table of two. *)
Lemma findAllTasks_filters_witness :
  let w := Sample.world [Sample.row "t1" "queued" JNull None None;
                         Sample.row "t2" "failed" JNull None None] 1000
                        Sample.idle in
  let f := TaskRepository.mkFilters (Some "failed") None (Some false) None in
  let t := Sample.read (Sample.row "t2" "failed" JNull None None) in
  fst (TaskRepository.findAllTasks f w) = Return [t]
  /\ execution_state t = "failed"
  /\ is_recurring t = false.
Proof.
  intros w f t.
  assert (H : fst (TaskRepository.findAllTasks f w) = Return [t])
    by (vm_compute; reflexivity).
  destruct (findAllTasks_filters_are_sound f w [t] t H (or_introl eq_refl))
    as (Hst & _ & Hrec & _).
  split; [exact H|]. split; [apply Hst | apply Hrec]; reflexivity.
Defined.



(** X3. The tasks that [findAllTasks] returns are ordered by [spawned_at],
    the newest first, whatever the filters and the limit. *)
Theorem findAllTasks_newest_first f w ts :
  fst (TaskRepository.findAllTasks f w) = Return ts ->
  Sorted Z.ge (map (fun t : Task => spawned_at t) ts).
Proof.
  intros H.
  destruct (findAllTasks_rows f w ts H) as (rows & Hall & Hs & _).
  clear H. revert Hs.
  induction Hall as [|r t rows ts Hrt Hall IH]; cbn; intros Hs; [constructor|].
  inversion Hs as [|? ? Hs' Hhd]; subst.
  constructor; [now apply IH|].
  destruct (reads_fields r t Hrt) as (_ & _ & _ & E & _).
  destruct Hall as [|r' t' rows ts Hrt' Hall]; cbn; constructor.
  destruct (reads_fields r' t' Hrt') as (_ & _ & _ & E' & _).
  inversion Hhd; subst. unfold newer in *. rewrite E, E'. lia.
Qed.

(** Two tasks stored oldest first are listed newest first. *)
Lemma findAllTasks_newest_first_witness :
  let old := mkTask "t1" (JStr "a") (CellText "{}") "low" JNull 0 None
                    "queued" 0 None None None None 5 5 in
  let new := mkTask "t2" (JStr "b") (CellText "{}") "low" JNull 0 None
                    "queued" 0 None None None None 9 9 in
  let w := Sample.world [old; new] 1000 Sample.idle in
  fst (TaskRepository.findAllTasks TaskRepository.no_filters w)
  = Return [Sample.read new; Sample.read old]
  /\ Sorted Z.ge (map (fun t : Task => spawned_at t)
                      [Sample.read new; Sample.read old]).
Proof.
  intros old new w. split; [vm_compute; reflexivity|].
  apply (findAllTasks_newest_first TaskRepository.no_filters w).
  vm_compute; reflexivity.
Defined.

Lemma rethrow_return {A} name (m : M A) w v :
  fst (TaskRepository.rethrow name m w) = Return v -> fst (m w) = Return v.
Proof.
  unfold TaskRepository.rethrow, tryCatch, throw.
  destruct (m w) as [[x|e] w']; cbn; [tauto | discriminate].
Qed.

(** X4. Every task that [findScheduledTasksReady] returns is recurring, is
    [queued] or [completed], and has a valid [next_execution_at] that is
    not after the current instant: a task that is [processing] or
    [failed], or that has no next instant, is never handed to the
    scheduler. *)
Theorem findScheduledTasksReady_is_sound w ts t :
  fst (TaskRepository.findScheduledTasksReady w) = Return ts ->
  In t ts ->
  is_recurring t = true
  /\ (execution_state t = "queued" \/ execution_state t = "completed")
  /\ exists d, next_execution_at t = Some (ValidDate d) /\ d <= clock w.
Proof.
  intros H Hin. apply rethrow_return in H.
  unfold bind, get, lift in H. cbn [fst snd] in H.
  destruct (TaskRepository.format_all _) as [ts'|e] eqn:E in H; [|discriminate].
  cbn in H. injection H as ->.
  apply format_all_reads in E.
  destruct (Forall2_reads_In _ _ _ E Hin) as (r & Hr & Hrt).
  apply filter_In in Hr as [_ Hb].
  apply andb_prop in Hb as [Hb Hst]. apply andb_prop in Hb as [Hrec Hdue].
  destruct (reads_fields r t Hrt) as (_ & Est & _ & _ & Enext & Erec).
  repeat split.
  - rewrite Erec. apply Z.eqb_eq in Hrec. now rewrite Hrec.
  - rewrite Est. apply orb_prop in Hst as [Hq|Hc];
      [left; now apply String.eqb_eq | right; now apply String.eqb_eq].
  - rewrite Enext. destruct (next_execution_at r) as [[d|]|]; try discriminate.
    exists d. split; [reflexivity | now apply Z.leb_le].
Qed.

(** A recurring task whose instant has passed, beside a task that does not recur. *)
Lemma findScheduledTasksReady_witness :
  let due := Sample.row "t1" "queued" (JStr "*/5 * * * *")
                        (Some (ValidDate 60000)) None in
  let w := Sample.world [due; Sample.row "t2" "queued" JNull None None]
                        600000 Sample.idle in
  fst (TaskRepository.findScheduledTasksReady w) = Return [Sample.read due]
  /\ is_recurring (Sample.read due) = true
  /\ (execution_state (Sample.read due) = "queued"
      \/ execution_state (Sample.read due) = "completed")
  /\ exists d, next_execution_at (Sample.read due) = Some (ValidDate d)
               /\ d <= clock w.
Proof.
  intros due w. split; [vm_compute; reflexivity|].
  apply (findScheduledTasksReady_is_sound w [Sample.read due]);
    [vm_compute; reflexivity | left; reflexivity].
Defined.

Lemma length_insert_desc r l :
  List.length (TaskRepository.insert_desc r l) = S (List.length l).
Proof.
  induction l as [|x l IH]; cbn; [reflexivity|].
  destruct (spawned_at x <? spawned_at r); cbn; congruence.
Qed.

Lemma length_order l :
  List.length (TaskRepository.order_by_spawned_at_desc l) = List.length l.
Proof.
  unfold TaskRepository.order_by_spawned_at_desc.
  induction l as [|x l IH]; cbn; [reflexivity|].
  now rewrite length_insert_desc, IH.
Qed.

Lemma format_each_total ts w :
  TaskService.format_each ts w
  = (Return (map (fun t : Task =>
       TaskService.mkResponse (task_id t) (task_label t) (payload_data t)
         (urgency_level t) (execution_state t) (is_recurring t)
         (schedule_pattern t) (next_execution_at t) (execution_attempts t)
         (execution_duration_ms t) (spawned_at t) (modified_at t)
         (completed_at t) (failure_reason t)) ts), w).
Proof.
  induction ts as [|t ts IH]; cbn; [reflexivity|].
  unfold bind, ret. cbn. now rewrite IH.
Qed.

Lemma findAllTasks_world f w : snd (TaskRepository.findAllTasks f w) = w.
Proof.
  unfold TaskRepository.findAllTasks, TaskRepository.rethrow, tryCatch, bind,
    get, lift, ret, throw.
  cbv beta iota zeta. cbn [fst snd].
  destruct (TaskRepository.given (TaskRepository.f_limit f)) as [l|].
  - destruct (Js.parseInt l) as [n|]; [|reflexivity].
    destruct (n <? 0); [reflexivity|].
    now destruct (TaskRepository.format_all _).
  - now destruct (TaskRepository.format_all _).
Qed.

Lemma getAllTasks_inv q w res :
  fst (TaskService.getAllTasks q w) = Return res ->
  exists ts,
    fst (TaskRepository.findAllTasks
           (TaskRepository.mkFilters (TaskService.lf_status q)
              (TaskService.lf_priority q) None (TaskService.lf_limit q)) w)
    = Return ts
    /\ TaskService.count res = List.length ts
    /\ TaskService.l_data res
       = map (fun t : Task =>
           TaskService.mkResponse (task_id t) (task_label t) (payload_data t)
             (urgency_level t) (execution_state t) (is_recurring t)
             (schedule_pattern t) (next_execution_at t) (execution_attempts t)
             (execution_duration_ms t) (spawned_at t) (modified_at t)
             (completed_at t) (failure_reason t)) ts.
Proof.
  unfold TaskService.getAllTasks, bind at 1.
  destruct (TaskRepository.findAllTasks _ w) as [[ts|e] w'] eqn:E; [|discriminate].
  unfold bind. rewrite format_each_total. unfold ret. cbn.
  intros [= <-]. exists ts. cbn. repeat split.
Qed.

Lemma count_partition (l : list TaskService.TaskResponse) :
  (forall d, In d l ->
     In (TaskService.status d) ["queued"; "processing"; "completed"; "failed"]) ->
  (TaskController.count_status "queued" l
   + TaskController.count_status "processing" l
   + TaskController.count_status "completed" l
   + TaskController.count_status "failed" l = List.length l)%nat.
Proof.
  unfold TaskController.count_status.
  induction l as [|d l IH]; intros H; [reflexivity|].
  assert (Hl : forall d', In d' l ->
     In (TaskService.status d') ["queued"; "processing"; "completed"; "failed"])
    by (intros d' Hd'; apply H; now right).
  specialize (IH Hl). specialize (H d (or_introl eq_refl)).
  cbn [filter List.length].
  destruct H as [E|[E|[E|[E|[]]]]]; rewrite <- E; cbn; lia.
Qed.

(** X5. When every row is in one of the four states, the statistics count
    every row of the table once: [total] is the number of rows, the four
    counts by state add up to [total], and [recurring] is at most
    [total]. *)
Theorem getTaskStats_counts_add_up env w st stats :
  fst (TaskController.getTaskStats env w)
  = Return (TaskController.Counted st stats) ->
  (forall r, In r (task_queue w) ->
     In (execution_state r) ["queued"; "processing"; "completed"; "failed"]) ->
  TaskController.total stats = List.length (task_queue w)
  /\ (TaskController.queued stats + TaskController.processing stats
      + TaskController.completed stats + TaskController.failed stats
      = TaskController.total stats)%nat
  /\ (TaskController.recurring stats <= TaskController.total stats)%nat.
Proof.
  unfold TaskController.getTaskStats, tryCatch, bind at 1.
  destruct (TaskService.getAllTasks _ w) as [[res|e] w'] eqn:E;
    [|unfold ret; cbn; discriminate].
  unfold ret. cbn [fst]. intros [= _ <-] Hstates. cbn.
  assert (E' : fst (TaskService.getAllTasks
                      (TaskService.mkListFilters None None None) w) = Return res)
    by now rewrite E.
  destruct (getAllTasks_inv _ _ _ E') as (ts & Hts & Hcount & Hdata).
  destruct (findAllTasks_rows _ _ _ Hts) as (rows & Hall & _ & Hrows & _).
  assert (Hlen : List.length (TaskService.l_data res) = TaskService.count res)
    by (rewrite Hdata, Hcount; apply length_map).
  split; [|split].
  - rewrite Hcount. apply rethrow_return in Hts.
    unfold bind, get, lift, ret in Hts. cbn in Hts.
    destruct (TaskRepository.format_all _) as [ts'|e] eqn:F in Hts; [|discriminate].
    cbn in Hts. injection Hts as ->.
    apply format_all_reads in F.
    rewrite (Forall2_reads_length _ _ F).
    apply (length_order (task_queue w)).
  - rewrite <- Hlen. apply count_partition.
    intros d Hd. rewrite Hdata in Hd. apply in_map_iff in Hd as (t & <- & Ht).
    cbn. destruct (Forall2_reads_In _ _ _ Hall Ht) as (r & Hr & Hrt).
    destruct (reads_fields r t Hrt) as (_ & -> & _).
    apply Hstates. now apply Hrows.
  - rewrite <- Hlen. apply filter_length_le.
Qed.

(** Three tasks: two queued, one failed, one of them recurring. *)
Lemma getTaskStats_witness :
  let w := Sample.world [Sample.row "t1" "queued" JNull None None;
                         Sample.row "t2" "failed" JNull None None;
                         Sample.row "t3" "queued" (JStr "*/5 * * * *") None None]
                        1000 Sample.idle in
  let stats := TaskController.mkStats 3 2 0 0 1 1 in
  fst (TaskController.getTaskStats Sample.env w)
  = Return (TaskController.Counted 200 stats)
  /\ TaskController.total stats = List.length (task_queue w)
  /\ (TaskController.queued stats + TaskController.processing stats
      + TaskController.completed stats + TaskController.failed stats
      = TaskController.total stats)%nat
  /\ (TaskController.recurring stats <= TaskController.total stats)%nat.
Proof.
  intros w stats. split; [vm_compute; reflexivity|].
  apply (getTaskStats_counts_add_up Sample.env w 200 stats);
    [vm_compute; reflexivity|].
  intros r [<-|[<-|[<-|[]]]]; vm_compute; tauto.
Defined.

Lemma findAllTasks_returns f w :
  readable (task_queue w) ->
  (forall l, TaskRepository.given (TaskRepository.f_limit f) = Some l ->
             exists n, Js.parseInt l = Some n /\ 0 <= n) ->
  exists ts, TaskRepository.findAllTasks f w = (Return ts, w).
Proof.
  intros Hread Hlim.
  unfold TaskRepository.findAllTasks, TaskRepository.rethrow, tryCatch, bind,
    get, lift, ret, throw.
  cbv beta iota zeta.
  set (by_state := match TaskRepository.given (TaskRepository.f_execution_state f) with
                   | Some s => filter (fun r : Row => String.eqb (execution_state r) s)
                   | None => fun l => l end).
  set (by_urgency := match TaskRepository.given (TaskRepository.f_urgency_level f) with
                   | Some s => filter (fun r : Row => String.eqb (urgency_level r) s)
                   | None => fun l => l end).
  set (by_recurring := match TaskRepository.f_is_recurring f with
                   | Some b => filter (fun r : Row => is_recurring r =? (if b then 1 else 0))
                   | None => fun l => l end).
  set (rows := TaskRepository.order_by_spawned_at_desc
                 (by_recurring (by_urgency (by_state (task_queue w))))).
  assert (Hrows : readable rows).
  { intros r Hr. apply Hread. unfold rows in Hr.
    apply (proj1 (In_order_by_spawned_at_desc r _)) in Hr.
    assert (H3 : In r (by_urgency (by_state (task_queue w)))).
    { unfold by_recurring in Hr. destruct (TaskRepository.f_is_recurring f);
        [now apply filter_In in Hr | exact Hr]. }
    assert (H2 : In r (by_state (task_queue w))).
    { unfold by_urgency in H3.
      destruct (TaskRepository.given (TaskRepository.f_urgency_level f));
        [now apply filter_In in H3 | exact H3]. }
    unfold by_state in H2.
    destruct (TaskRepository.given (TaskRepository.f_execution_state f));
      [now apply filter_In in H2 | exact H2]. }
  destruct (TaskRepository.given (TaskRepository.f_limit f)) as [l|].
  - destruct (Hlim l eq_refl) as (n & -> & Hn).
    apply Z.ltb_ge in Hn. rewrite Hn.
    assert (Hfirst : readable (firstn (Z.to_nat n) rows))
      by (intros r Hr; apply Hrows; eapply In_firstn; exact Hr).
    destruct (format_all_readable _ Hfirst) as (ts & -> & _).
    now exists ts.
  - destruct (format_all_readable _ Hrows) as (ts & -> & _).
    now exists ts.
Qed.

Lemma validateFilterParams_inv q w :
  fst (RequestValidator.validateFilterParams q w) = Return tt ->
  (forall s, TaskRepository.given (TaskService.lf_status q) = Some s ->
     In (Js.toLowerCase s) ["queued"; "processing"; "completed"; "failed"])
  /\ (forall s, TaskRepository.given (TaskService.lf_priority q) = Some s ->
     In (Js.toLowerCase s) ["low"; "medium"; "high"])
  /\ (forall l, TaskRepository.given (TaskService.lf_limit q) = Some l ->
     exists n, Js.parseInt l = Some n /\ 1 <= n <= 1000).
Proof.
  unfold RequestValidator.validateFilterParams, bind, ret, throw.
  intros H. repeat split.
  - intros s Hs. rewrite Hs in H.
    destruct (TaskService.includes _ _) eqn:E in H; [|discriminate].
    cbn in E. clear H.
    repeat (apply orb_prop in E as [E|E];
            [apply String.eqb_eq in E; rewrite E; cbn; tauto|]).
    discriminate.
  - intros s Hs. rewrite Hs in H.
    destruct (TaskRepository.given (TaskService.lf_status q));
      [destruct (negb _) in H; [discriminate|]|];
      (destruct (TaskService.includes _ _) eqn:E in H; [|discriminate];
       cbn in E; clear H;
       repeat (apply orb_prop in E as [E|E];
               [apply String.eqb_eq in E; rewrite E; cbn; tauto|]);
       discriminate).
  - intros l Hl. rewrite Hl in H.
    assert (G : match Js.parseInt l with
                | Some limitNum => (limitNum <? 1) || (1000 <? limitNum) = false
                | None => False end).
    { destruct (TaskRepository.given (TaskService.lf_status q));
        [destruct (negb _) in H; [discriminate|]|];
        (destruct (TaskRepository.given (TaskService.lf_priority q));
         [destruct (negb _) in H; [discriminate|]|]);
        cbn in H;
        (destruct (Js.parseInt l); [|discriminate]);
        (destruct (_ || _); [discriminate | reflexivity]). }
    destruct (Js.parseInt l) as [n|]; [|contradiction].
    exists n. split; [reflexivity|].
    apply orb_false_elim in G as [G1 G2].
    apply Z.ltb_ge in G1, G2. lia.
Qed.

(** X6. A query that [validateFilterParams] lets through is answered by
    [getAllTasks] whenever the rows of the table can be read: the LIMIT
    clause never fails, [count] is the number of tasks in [data], and a
    limit that is given parses to a number between 1 and 1000 that bounds
    [count].  The world is left as it was. *)
Theorem validated_listing_returns q w :
  fst (RequestValidator.validateFilterParams q w) = Return tt ->
  readable (task_queue w) ->
  exists res,
    TaskService.getAllTasks q w = (Return res, w)
    /\ TaskService.count res = List.length (TaskService.l_data res)
    /\ forall l, TaskRepository.given (TaskService.lf_limit q) = Some l ->
         exists n, Js.parseInt l = Some n /\ 1 <= n <= 1000
                   /\ Z.of_nat (TaskService.count res) <= n.
Proof.
  intros Hv Hread.
  destruct (validateFilterParams_inv q w Hv) as (_ & _ & Hlim).
  destruct (findAllTasks_returns
              (TaskRepository.mkFilters (TaskService.lf_status q)
                 (TaskService.lf_priority q) None (TaskService.lf_limit q)) w Hread)
    as (ts & Hts).
  { cbn. intros l Hl. destruct (Hlim l Hl) as (n & Hn & Hr).
    exists n. split; [exact Hn | lia]. }
  eexists. split; [|split].
  - unfold TaskService.getAllTasks, bind at 1. rewrite Hts.
    unfold bind. rewrite format_each_total. unfold ret. reflexivity.
  - cbn. now rewrite length_map.
  - intros l Hl. destruct (Hlim l Hl) as (n & Hn & Hr).
    exists n. split; [exact Hn|]. split; [exact Hr|]. cbn.
    assert (Hts' : fst (TaskRepository.findAllTasks
              (TaskRepository.mkFilters (TaskService.lf_status q)
                 (TaskService.lf_priority q) None (TaskService.lf_limit q)) w)
              = Return ts) by now rewrite Hts.
    destruct (findAllTasks_rows _ _ _ Hts') as (rows & Hall & _ & _ & Hrows).
    destruct (Hrows l n Hl Hn) as [_ Hlen].
    rewrite (Forall2_reads_length rows ts Hall). lia.
Qed.

(** The limit is read by [parseInt]: the text [10 rows] counts as 10. *)
Lemma validated_listing_witness :
  let w := Sample.world [Sample.row "t1" "queued" JNull None None;
                         Sample.row "t2" "failed" JNull None None] 1000
                        Sample.idle in
  let q := TaskService.mkListFilters (Some "failed") None (Some "10 rows") in
  exists res,
    TaskService.getAllTasks q w = (Return res, w)
    /\ TaskService.count res = List.length (TaskService.l_data res)
    /\ forall l, TaskRepository.given (TaskService.lf_limit q) = Some l ->
         exists n, Js.parseInt l = Some n /\ 1 <= n <= 1000
                   /\ Z.of_nat (TaskService.count res) <= n.
Proof.
  intros w q.
  apply (validated_listing_returns q w); [vm_compute; reflexivity|].
  intros r [<-|[<-|[]]]; eexists; vm_compute; reflexivity.
Defined.

(** ** Runs, unknown ids and deletion *)



Section Answer.
Variables (env : Env) (taskId : string) (w : World) (task : Task).
Hypothesis Hp : presents taskId task (task_queue w).
Hypothesis Hst : execution_state task <> "processing".
Hypothesis Hwork : custom_logic env task = None.
Hypothesis Hpat : text_or_null (schedule_pattern task) = true.

Let ad1 := TaskRepository.mkAdditional
             (Some (execution_attempts task + 1)) None None
             (Some (ValidDate (clock w))) None.
Let w2 := worked env task (updated "processing" ad1 taskId w).
Let d := clock w2 - clock w.
Let ad2 := TaskRepository.mkAdditional None (Some d) None None None.
Let w3 := logged (mkHistory taskId "success" (clock w) (clock w2) d None)
                 (updated "completed" ad2 taskId w2).
Let w4 := if requeues task
          then updated "queued" TaskRepository.no_data taskId w3 else w3.

Lemma clock_after_success : clock w4 = clock w2.
Proof. unfold w4. now destruct (requeues task). Qed.

Lemma executeTask_answer :
  TaskService.executeTask env taskId w
  = (Return (TaskService.mkResult true (Some "Task executed successfully")
       (Some (answer (completed_run (clock w) (clock w4) task)))), w4).
Proof.
  rewrite clock_after_success.
  unfold TaskService.executeTask.
  cbv beta iota delta [bind].
  rewrite (findTaskById_presents _ _ _ Hp).
  cbv beta iota.
  destruct (String.eqb (execution_state task) "processing") eqn:E;
    [apply String.eqb_eq in E; contradiction|].
  cbv beta iota delta [tryCatch Date_now bind].
  rewrite (updateTaskState_presents _ _ _ _ _ Hp).
  cbv beta iota.
  rewrite worked_eq, Hwork.
  cbv beta iota.
  fold ad1 w2.
  rewrite (updateTaskState_presents taskId _ _ _ _
             (presents_after_work env taskId w task Hp)).
  cbv beta iota.
  fold ad1 w2. fold d. fold ad2.
  change (TaskRepository.logExecution taskId "success" (clock w) (clock w2)
            None (updated "completed" ad2 taskId w2))
    with (Return tt, w3).
  cbv beta iota.
  match goal with
  | |- context [WebhookService.deliverWebhook ?a ?b ?w0] =>
      change (WebhookService.deliverWebhook a b w0)
        with (Return (endpoint a b), w0)
  end.
  cbv beta iota.
  assert (Hp3 : presents taskId (completed_run (clock w) (clock w2) task)
                         (task_queue w3))
    by (apply (presents_updated taskId _ "completed" ad2 w2),
          (presents_after_work env taskId w task Hp)).
  fold (requeues task). unfold w4.
  destruct (requeues task) eqn:Hq.
  - unfold requeues in Hq. apply andb_true_iff in Hq as [_ Htruthy].
    destruct (schedule_pattern task) as [| | |s| |] eqn:Hs;
      try discriminate.
    unfold TaskService._scheduleNextExecution.
    cbv beta iota delta [bind].
    rewrite calculateNextExecution_text. cbv beta iota.
    rewrite (updateTaskState_presents taskId _ _ _ _ Hp3).
    reflexivity.
  - reflexivity.
Qed.

Lemma presents_answer :
  presents taskId
    (if requeues task
     then applied (clock w4) "queued" TaskRepository.no_data
            (completed_run (clock w) (clock w4) task)
     else completed_run (clock w) (clock w4) task)
    (task_queue w4).
Proof.
  rewrite clock_after_success.
  pose proof (presents_after_success env taskId w task Hp) as Hp'.
  cbv zeta in Hp'. exact Hp'.
Qed.

Lemma clock_answer : clock w <= clock w4.
Proof.
  rewrite clock_after_success. unfold w2.
  etransitivity; [|apply worked_clock]. cbn. lia.
Qed.

End Answer.

(** X7. A run whose work unit succeeds counts one attempt, records the
    time from start to finish as the duration, stamps [last_executed_at]
    with the start and [completed_at] with the finish.  The answer is
    built before step 6: it says [completed] and shows the old
    [next_execution_at], also for a recurring task that is stored as
    [queued] again. *)
Theorem successful_run_bookkeeping env taskId w task :
  fst (TaskRepository.findTaskById taskId w) = Return (Some task) ->
  execution_state task <> "processing" ->
  text_or_null (schedule_pattern task) = true ->
  custom_logic env task = None ->
  exists r w' task',
    TaskService.executeTask env taskId w
    = (Return (TaskService.mkResult true (Some "Task executed successfully")
                                    (Some r)), w')
    /\ fst (TaskRepository.findTaskById taskId w') = Return (Some task')
    /\ clock w <= clock w'
    /\ execution_attempts task' = execution_attempts task + 1
    /\ execution_duration_ms task' = Some (clock w' - clock w)
    /\ last_executed_at task' = Some (ValidDate (clock w))
    /\ completed_at task' = Some (ValidDate (clock w'))
    /\ TaskService.status r = "completed"
    /\ TaskService.executionAttempts r = execution_attempts task + 1
    /\ TaskService.nextExecutionAt r = next_execution_at task.
Proof.
  intros Hfind Hst Hpat Hwork.
  apply presents_findTaskById in Hfind.
  pose proof (executeTask_answer env taskId w task Hfind Hst Hwork Hpat) as Hrun.
  pose proof (presents_answer env taskId w task Hfind) as Hp'.
  pose proof (clock_answer env taskId w task) as Hc.
  cbv zeta in Hrun, Hp', Hc.
  eexists _, _, _. split; [exact Hrun|].
  split; [erewrite findTaskById_presents; [reflexivity | exact Hp']|].
  split; [exact Hc|].
  destruct (requeues task); repeat split.
Qed.

(** A recurring task that was due is run. *)
Lemma successful_run_witness :
  let w := Sample.world [Sample.row "t1" "queued" (JStr "*/5 * * * *")
                                    (Some (ValidDate 60000)) None]
                        600000 Sample.idle in
  let task := Sample.read (Sample.row "t1" "queued" (JStr "*/5 * * * *")
                                      (Some (ValidDate 60000)) None) in
  exists r w' task',
    TaskService.executeTask Sample.env "t1" w
    = (Return (TaskService.mkResult true (Some "Task executed successfully")
                                    (Some r)), w')
    /\ fst (TaskRepository.findTaskById "t1" w') = Return (Some task')
    /\ clock w <= clock w'
    /\ execution_attempts task' = execution_attempts task + 1
    /\ execution_duration_ms task' = Some (clock w' - clock w)
    /\ last_executed_at task' = Some (ValidDate (clock w))
    /\ completed_at task' = Some (ValidDate (clock w'))
    /\ TaskService.status r = "completed"
    /\ TaskService.executionAttempts r = execution_attempts task + 1
    /\ TaskService.nextExecutionAt r = next_execution_at task.
Proof.
  intros w task.
  apply (successful_run_bookkeeping Sample.env "t1" w task);
    [vm_compute; reflexivity | discriminate | reflexivity | reflexivity].
Defined.

(** *** A failed task is not picked up again *)


Lemma fold_assign_state {P R} now ups (r : TaskRec P R) :
  forallb (fun a => negb (writes_state a)) ups = true ->
  execution_state (fold_left (TaskRepository.assign now) ups r)
  = execution_state r.
Proof.
  revert r; induction ups as [|a ups IH]; intros r; cbn; [reflexivity|].
  intros H. apply andb_prop in H as [Ha Hups].
  rewrite (IH _ Hups). destruct a; try reflexivity; discriminate.
Qed.

Lemma applied_state {P R} now st ad (r : TaskRec P R) :
  execution_state (applied now st ad r) = st.
Proof.
  unfold applied, TaskRepository.updates_of.
  cbn [app fold_left]. rewrite fold_assign_state; [reflexivity|].
  destruct (TaskRepository.ad_execution_attempts ad),
    (TaskRepository.ad_execution_duration_ms ad),
    (TaskRepository.given (TaskRepository.ad_failure_reason ad)),
    (String.eqb st "completed"),
    (TaskRepository.ad_last_executed_at ad); reflexivity.
Qed.

Lemma updated_state st ad taskId w r :
  In r (task_queue (updated st ad taskId w)) ->
  task_id r = taskId ->
  execution_state r = st.
Proof.
  change (task_queue (updated st ad taskId w))
    with (map (fun r => if TaskRepository.has_id taskId r
                        then applied (clock w) st ad r else r)
              (task_queue w)).
  intros Hin Hid. apply in_map_iff in Hin as (r0 & <- & _).
  destruct (TaskRepository.has_id taskId r0) eqn:E.
  - apply applied_state.
  - unfold TaskRepository.has_id in E. rewrite Hid, String.eqb_refl in E.
    discriminate.
Qed.

Section Preserving.
Variable taskId : string.

Lemma preserving_ret {A} (a : A) : preserving taskId (ret a).
Proof. intros w. reflexivity. Qed.

Lemma preserving_throw {A} e : preserving taskId (@throw A e).
Proof. intros w. reflexivity. Qed.

Lemma preserving_lift {A} (o : Outcome A) : preserving taskId (lift o).
Proof. intros w. reflexivity. Qed.

Lemma preserving_get : preserving taskId get.
Proof. intros w. reflexivity. Qed.

Lemma preserving_Date_now : preserving taskId Date_now.
Proof. intros w. reflexivity. Qed.

Lemma preserving_host_zone : preserving taskId host_zone.
Proof. intros w. reflexivity. Qed.

Lemma preserving_sleep ms : preserving taskId (sleep ms).
Proof. intros w. reflexivity. Qed.

Lemma preserving_bind {A B} (m : M A) (k : A -> M B) :
  preserving taskId m -> (forall a, preserving taskId (k a)) ->
  preserving taskId (bind m k).
Proof.
  intros Hm Hk w. unfold bind. specialize (Hm w).
  destruct (m w) as [[a|e] w1]; cbn [snd] in *; [|exact Hm].
  unfold keeps in *. rewrite <- Hm. apply Hk.
Qed.

Lemma preserving_tryCatch {A} (m : M A) h :
  preserving taskId m -> (forall e, preserving taskId (h e)) ->
  preserving taskId (tryCatch m h).
Proof.
  intros Hm Hh w. unfold tryCatch. specialize (Hm w).
  destruct (m w) as [[a|e] w1]; cbn [snd] in *; [exact Hm|].
  unfold keeps in *. rewrite <- Hm. apply Hh.
Qed.

Lemma preserving_rethrow {A} name (m : M A) :
  preserving taskId m -> preserving taskId (TaskRepository.rethrow name m).
Proof.
  intros Hm. apply preserving_tryCatch; [exact Hm|].
  intros e. apply preserving_throw.
Qed.

Lemma preserving_select id : preserving taskId (TaskRepository.select_by_id id).
Proof. intros w. reflexivity. Qed.

Lemma preserving_history h :
  preserving taskId (TaskRepository.insert_execution_history h).
Proof. intros w. reflexivity. Qed.

Lemma has_id_other other (r : Row) :
  other <> taskId -> TaskRepository.has_id taskId r = true ->
  TaskRepository.has_id other r = false.
Proof.
  unfold TaskRepository.has_id. intros Hne H.
  apply String.eqb_eq in H. apply String.eqb_neq. congruence.
Qed.

Lemma preserving_update ups other :
  other <> taskId -> preserving taskId (TaskRepository.update_task_queue ups other).
Proof.
  intros Hne w. unfold keeps, TaskRepository.update_task_queue. cbn.
  induction (task_queue w) as [|r rows IH]; cbn; [reflexivity|].
  destruct (TaskRepository.has_id other r) eqn:Eo.
  - assert (E1 : TaskRepository.has_id taskId r = false).
    { destruct (TaskRepository.has_id taskId r) eqn:E; [|reflexivity].
      rewrite (has_id_other other r Hne E) in Eo. discriminate. }
    assert (E2 : TaskRepository.has_id taskId
                   (fold_left (TaskRepository.assign (clock w)) ups r) = false).
    { unfold TaskRepository.has_id in *. now rewrite fold_assign_task_id. }
    now rewrite E1, E2.
  - destruct (TaskRepository.has_id taskId r); cbn; now rewrite IH.
Qed.

Lemma preserving_delete other :
  other <> taskId -> preserving taskId (TaskRepository.delete_task_queue other).
Proof.
  intros Hne w. unfold keeps, TaskRepository.delete_task_queue. cbn.
  induction (task_queue w) as [|r rows IH]; cbn; [reflexivity|].
  destruct (TaskRepository.has_id other r) eqn:Eo; cbn.
  - destruct (TaskRepository.has_id taskId r) eqn:E; [|exact IH].
    rewrite (has_id_other other r Hne E) in Eo. discriminate.
  - now rewrite IH.
Qed.

Lemma preserving_insert other label payload urgency pattern recurring next :
  other <> taskId ->
  preserving taskId
    (TaskRepository.insert_task_queue other label payload urgency pattern
       recurring next).
Proof.
  intros Hne w. unfold keeps, TaskRepository.insert_task_queue.
  cbn [snd task_queue]. rewrite filter_app. cbn [filter].
  unfold TaskRepository.has_id at 2. cbn [task_id].
  apply String.eqb_neq in Hne. rewrite Hne. apply List.app_nil_r.
Qed.
End Preserving.

Create HintDb preserving.

#[local] Hint Resolve preserving_ret preserving_throw preserving_lift
  preserving_get preserving_Date_now preserving_host_zone preserving_sleep
  preserving_select preserving_history preserving_update preserving_delete
  preserving_insert preserving_rethrow : preserving.

(** Splits an operation along its sequencing and its case analyses. *)
Ltac preserve :=
  repeat first
    [ solve [auto with preserving]
    | apply preserving_bind; [|intros]
    | apply preserving_tryCatch; [|intros]
    | apply preserving_rethrow
    | match goal with
      | |- preserving _ (match ?x with _ => _ end) => destruct x
      | |- preserving _ (if ?b then _ else _) => destruct b
      end ].

Section Others.
Variables (env : Env) (taskId : string).

Lemma preserving_findTaskById id :
  preserving taskId (TaskRepository.findTaskById id).
Proof. unfold TaskRepository.findTaskById. preserve. Qed.

Lemma preserving_updateTaskState other st ad :
  other <> taskId ->
  preserving taskId (TaskRepository.updateTaskState other st ad).
Proof.
  intros Hne. unfold TaskRepository.updateTaskState. preserve.
Qed.

Lemma preserving_logExecution id status a b e :
  preserving taskId (TaskRepository.logExecution id status a b e).
Proof. unfold TaskRepository.logExecution. preserve. Qed.

Lemma preserving_calculateNextExecution pattern :
  preserving taskId (TaskService._calculateNextExecution pattern).
Proof. unfold TaskService._calculateNextExecution. preserve. Qed.

Lemma preserving_simulate task :
  preserving taskId (TaskService._simulateTaskExecution env task).
Proof. unfold TaskService._simulateTaskExecution. preserve. Qed.

Lemma preserving_formatTaskResponse t :
  preserving taskId (TaskService._formatTaskResponse t).
Proof. unfold TaskService._formatTaskResponse. preserve. Qed.

Lemma preserving_validate body :
  preserving taskId (TaskService._validateTaskPayload body).
Proof.
  unfold TaskService._validateTaskPayload, TaskService._isValidCronPattern.
  preserve.
Qed.

#[local] Hint Resolve preserving_findTaskById preserving_updateTaskState
  preserving_logExecution preserving_calculateNextExecution
  preserving_simulate preserving_formatTaskResponse preserving_validate
  : preserving.

Lemma preserving_executeTask other :
  other <> taskId -> preserving taskId (TaskService.executeTask env other).
Proof.
  intros Hne.
  unfold TaskService.executeTask, TaskService._scheduleNextExecution,
    WebhookService.deliverWebhook.
  preserve.
Qed.

Lemma preserving_createTask other body :
  other <> taskId -> preserving taskId (TaskService.createTask other body).
Proof.
  intros Hne.
  unfold TaskService.createTask, TaskRepository.createTask.
  cbv zeta.
  cbn [TaskRepository.td_task_label TaskRepository.td_payload_data
       TaskRepository.td_task_id TaskRepository.td_urgency_level
       TaskRepository.td_schedule_pattern TaskRepository.td_is_recurring
       TaskRepository.td_next_execution_at].
  preserve.
Qed.

Lemma preserving_deleteTask other :
  other <> taskId -> preserving taskId (TaskService.deleteTask other).
Proof.
  intros Hne.
  unfold TaskService.deleteTask, TaskRepository.deleteTask.
  preserve.
Qed.

Lemma others_run_keeps w w' :
  others_run env taskId w w' -> keeps taskId w w'.
Proof.
  induction 1 as [w|w w' ms _ IH|w w' other Hne _ IH
                  |w w' other body Hne _ IH|w w' other Hne _ IH];
    [reflexivity| | | |]; unfold keeps in *; rewrite IH.
  - apply preserving_sleep.
  - now apply preserving_executeTask.
  - now apply preserving_createTask.
  - now apply preserving_deleteTask.
Qed.
End Others.

Lemma keeps_failed taskId w w' :
  keeps taskId w w' ->
  (forall r, In r (task_queue w) -> task_id r = taskId ->
             execution_state r = "failed") ->
  forall r, In r (task_queue w') -> task_id r = taskId ->
            execution_state r = "failed".
Proof.
  unfold keeps. intros Hk Hw r Hr Hid.
  assert (Hin : In r (filter (TaskRepository.has_id taskId) (task_queue w'))).
  { apply filter_In. split; [exact Hr|].
    unfold TaskRepository.has_id. rewrite Hid. apply String.eqb_refl. }
  rewrite Hk in Hin. apply filter_In in Hin as [Hin _]. now apply Hw.
Qed.



(** *** Unknown ids, deletion *)

Lemma findTaskById_absent taskId w :
  filter (TaskRepository.has_id taskId) (task_queue w) = [] ->
  TaskRepository.findTaskById taskId w = (Return None, w).
Proof.
  intros H.
  unfold TaskRepository.findTaskById, TaskRepository.rethrow, tryCatch, bind,
    TaskRepository.select_by_id, lift, ret.
  cbv beta. now rewrite H.
Qed.

Lemma world_eta w :
  mkWorld (task_queue w) (execution_history w) (clock w) (scheduler w) (zone w) = w.
Proof. now destruct w. Qed.

Lemma map_absent taskId (F : Row -> Row) rows :
  filter (TaskRepository.has_id taskId) rows = [] ->
  map (fun r => if TaskRepository.has_id taskId r then F r else r) rows = rows.
Proof.
  induction rows as [|r rows IH]; cbn; [reflexivity|].
  destruct (TaskRepository.has_id taskId r); [discriminate|].
  intros H. now rewrite IH.
Qed.

Lemma filter_absent taskId rows :
  filter (TaskRepository.has_id taskId) rows = [] ->
  filter (fun r => negb (TaskRepository.has_id taskId r)) rows = rows.
Proof.
  induction rows as [|r rows IH]; cbn; [reflexivity|].
  destruct (TaskRepository.has_id taskId r); [discriminate|].
  intros H. cbn. now rewrite IH.
Qed.

(** X9. For an id that the table does not hold, the routes that read, run
    and delete a task all answer 404 with the code [TASK_NOT_FOUND], and
    nothing is written. *)
Theorem unknown_id_is_404 env taskId w :
  fst (TaskRepository.findTaskById taskId w) = Return None ->
  let notFound :=
    Server.mkRes 404
      (Server.ErrorBody "TASK_NOT_FOUND"
         ("Task with ID '" ++ taskId ++ "' does not exist")) in
  TaskController.getTaskById env taskId w = (Return notFound, w)
  /\ TaskController.executeTask env taskId w = (Return notFound, w)
  /\ TaskController.deleteTask env taskId w = (Return notFound, w).
Proof.
  intros Hfind.
  assert (H : TaskRepository.findTaskById taskId w = (Return None, w)).
  { pose proof (findTaskById_world taskId w) as Hw.
    destruct (TaskRepository.findTaskById taskId w) as [o w0].
    cbn in Hfind, Hw. now subst. }
  cbv zeta.
  unfold TaskController.getTaskById, TaskController.executeTask,
    TaskController.deleteTask, TaskService.getTaskById,
    TaskService.executeTask, TaskService.deleteTask, tryCatch.
  cbv beta iota delta [bind]. rewrite H. repeat split.
Qed.

(** The table holds [t1]; [t9] is asked for. *)
Lemma unknown_id_witness :
  let w := Sample.world [Sample.row "t1" "queued" JNull None None] 1000
                        Sample.idle in
  let notFound :=
    Server.mkRes 404
      (Server.ErrorBody "TASK_NOT_FOUND"
         ("Task with ID '" ++ "t9" ++ "' does not exist")) in
  TaskController.getTaskById Sample.env "t9" w = (Return notFound, w)
  /\ TaskController.executeTask Sample.env "t9" w = (Return notFound, w)
  /\ TaskController.deleteTask Sample.env "t9" w = (Return notFound, w).
Proof.
  intros w. apply (unknown_id_is_404 Sample.env "t9" w).
  vm_compute; reflexivity.
Defined.

(** X10. [updateTaskState] for an id that the table does not hold returns
    [null] and changes no row: it does not fail and it does not create
    the task. *)
Theorem updateTaskState_on_unknown_id taskId st ad w :
  fst (TaskRepository.findTaskById taskId w) = Return None ->
  TaskRepository.updateTaskState taskId st ad w = (Return None, w).
Proof.
  intros Hfind.
  assert (Habs : filter (TaskRepository.has_id taskId) (task_queue w) = []).
  { revert Hfind.
    unfold TaskRepository.findTaskById, TaskRepository.rethrow, tryCatch, bind,
      TaskRepository.select_by_id, lift, ret, throw.
    cbv beta.
    destruct (filter (TaskRepository.has_id taskId) (task_queue w)) as [|row ?];
      [reflexivity|].
    cbv beta iota. destruct (TaskRepository._formatTaskData row); discriminate. }
  unfold TaskRepository.updateTaskState, TaskRepository.rethrow, tryCatch, bind,
    TaskRepository.update_task_queue.
  rewrite (map_absent _ _ _ Habs), world_eta.
  now rewrite (findTaskById_absent _ _ Habs).
Qed.

(** The table holds [t1]; [t9] is updated. *)
Lemma updateTaskState_unknown_witness :
  let w := Sample.world [Sample.row "t1" "queued" JNull None None] 1000
                        Sample.idle in
  TaskRepository.updateTaskState "t9" "completed" TaskRepository.no_data w
  = (Return None, w).
Proof.
  intros w.
  apply (updateTaskState_on_unknown_id "t9" "completed" TaskRepository.no_data w).
  vm_compute; reflexivity.
Defined.

Lemma filter_filter_other taskId other (rows : list Row) :
  other <> taskId ->
  filter (TaskRepository.has_id other)
         (filter (fun r => negb (TaskRepository.has_id taskId r)) rows)
  = filter (TaskRepository.has_id other) rows.
Proof.
  intros Hne. induction rows as [|r rows IH]; cbn; [reflexivity|].
  destruct (TaskRepository.has_id taskId r) eqn:E; cbn.
  - destruct (TaskRepository.has_id other r) eqn:E'; [|exact IH].
    unfold TaskRepository.has_id in E, E'.
    apply String.eqb_eq in E, E'. congruence.
  - now rewrite IH.
Qed.

Lemma filter_filter_same taskId (rows : list Row) :
  filter (TaskRepository.has_id taskId)
         (filter (fun r => negb (TaskRepository.has_id taskId r)) rows) = [].
Proof.
  induction rows as [|r rows IH]; cbn; [reflexivity|].
  destruct (TaskRepository.has_id taskId r) eqn:E; cbn; [exact IH|].
  now rewrite E.
Qed.

Lemma findTaskById_filter taskId w1 w2 :
  filter (TaskRepository.has_id taskId) (task_queue w1)
  = filter (TaskRepository.has_id taskId) (task_queue w2) ->
  fst (TaskRepository.findTaskById taskId w1)
  = fst (TaskRepository.findTaskById taskId w2).
Proof.
  intros H.
  unfold TaskRepository.findTaskById, TaskRepository.rethrow, tryCatch, bind,
    TaskRepository.select_by_id, lift, ret, throw.
  cbv beta. rewrite H.
  destruct (filter (TaskRepository.has_id taskId) (task_queue w2)) as [|row ?];
    [reflexivity|].
  cbv beta iota. now destruct (TaskRepository._formatTaskData row).
Qed.

(** X11. Deleting a task that exists succeeds whatever its state; afterwards
    the id is not found, a second deletion fails with
    [TaskNotFoundError], and every other id reads as before. *)
Theorem deleted_task_is_gone taskId w task :
  fst (TaskRepository.findTaskById taskId w) = Return (Some task) ->
  exists w',
    TaskService.deleteTask taskId w
    = (Return (TaskService.mkResult true (Some "Task deleted successfully")
                                    None), w')
    /\ TaskRepository.findTaskById taskId w' = (Return None, w')
    /\ TaskService.deleteTask taskId w'
       = (Throw (Errors.TaskNotFoundError taskId), w')
    /\ (forall other, other <> taskId ->
          fst (TaskRepository.findTaskById other w')
          = fst (TaskRepository.findTaskById other w)).
Proof.
  intros Hfind. apply presents_findTaskById in Hfind.
  set (w' := mkWorld (filter (fun r => negb (TaskRepository.has_id taskId r))
                             (task_queue w))
                     (execution_history w) (clock w) (scheduler w) (zone w)).
  assert (Habs : filter (TaskRepository.has_id taskId) (task_queue w') = [])
    by apply filter_filter_same.
  exists w'. split; [|split; [|split]].
  - unfold TaskService.deleteTask. cbv beta iota delta [bind].
    rewrite (findTaskById_presents _ _ _ Hfind). reflexivity.
  - now apply findTaskById_absent.
  - unfold TaskService.deleteTask. cbv beta iota delta [bind].
    now rewrite (findTaskById_absent _ _ Habs).
  - intros other Hne. apply findTaskById_filter.
    now apply filter_filter_other.
Qed.

(** A task that is [processing] is deleted. *)
Lemma deleted_task_witness :
  let w := Sample.world [Sample.row "t1" "queued" JNull None None;
                         Sample.row "t2" "processing" JNull None None] 1000
                        Sample.idle in
  exists w',
    TaskService.deleteTask "t2" w
    = (Return (TaskService.mkResult true (Some "Task deleted successfully")
                                    None), w')
    /\ TaskRepository.findTaskById "t2" w' = (Return None, w')
    /\ TaskService.deleteTask "t2" w'
       = (Throw (Errors.TaskNotFoundError "t2"), w')
    /\ (forall other, other <> "t2" ->
          fst (TaskRepository.findTaskById other w')
          = fst (TaskRepository.findTaskById other w)).
Proof.
  intros w.
  apply (deleted_task_is_gone "t2" w
           (Sample.read (Sample.row "t2" "processing" JNull None None))).
  vm_compute; reflexivity.
Defined.

(** *** What an accepted creation request looks like *)

Lemma validateTaskPayload_world p w :
  snd (TaskService._validateTaskPayload p w) = w.
Proof.
  unfold TaskService._validateTaskPayload, TaskService._isValidCronPattern.
  cbv beta iota delta [bind ret throw].
  destruct (negb (truthy (TaskService.taskName p)));
    [|destruct (TaskService.taskName p) as [[| | |s| |]|]; try reflexivity;
      destruct (Nat.eqb _ 0)]; try reflexivity;
  (destruct (negb (truthy (TaskService.payload p))); [reflexivity|]);
  (destruct (TaskService.priority p) as [[| | |pr| |]|]; try reflexivity);
  (destruct (negb (TaskService.includes _ _)); [reflexivity|]);
  (destruct (truthy (TaskService.schedulePattern p)); [|reflexivity]);
  (destruct (TaskService.schedulePattern p) as [[| | |pat| |]|]; try reflexivity);
  now destruct (Nat.eqb _ 5).
Qed.

Lemma validateTaskPayload_inv p w u w1 :
  TaskService._validateTaskPayload p w = (Return u, w1) ->
  (exists name, TaskService.taskName p = Some (JStr name) /\ Js.trim name <> "")
  /\ truthy (TaskService.payload p) = true
  /\ (exists pr, TaskService.priority p = Some (JStr pr)
                 /\ TaskService.includes TaskService.validPriorities
                      (Some (Js.toLowerCase pr)) = true)
  /\ acceptable_pattern (TaskService.schedulePattern p) = true.
Proof.
  intros H. split; [eapply validateTaskPayload_label; exact H|].
  revert H.
  unfold TaskService._validateTaskPayload, TaskService._isValidCronPattern.
  cbv beta iota delta [bind ret throw].
  destruct (negb (truthy (TaskService.taskName p)));
    [discriminate|].
  destruct (TaskService.taskName p) as [[| | |s| |]|]; try discriminate.
  destruct (Nat.eqb _ 0); [discriminate|].
  destruct (truthy (TaskService.payload p)); [|discriminate].
  cbn [negb].
  destruct (TaskService.priority p) as [[| | |pr| |]|]; try discriminate.
  destruct (TaskService.includes _ (Some (Js.toLowerCase pr))) eqn:Hin;
    [|discriminate].
  cbn [negb]. intros H.
  split; [reflexivity|]. split; [now exists pr|].
  unfold acceptable_pattern.
  destruct (TaskService.schedulePattern p) as [[| b | n | pat | l | l]|];
    cbn [truthy negb] in *; try reflexivity; try discriminate.
  - destruct b; [discriminate | reflexivity].
  - destruct (n =? 0); [reflexivity | discriminate].
  - destruct (String.eqb pat ""); [reflexivity|]. cbn in *.
    destruct (Nat.eqb _ 5); [reflexivity | discriminate].
Qed.

Lemma createTask_world uuid p w name pr pl :
  TaskService.taskName p = Some (JStr name) ->
  TaskService.payload p = Some pl ->
  TaskService.priority p = Some (JStr pr) ->
  acceptable_pattern (TaskService.schedulePattern p) = true ->
  fst (TaskService._validateTaskPayload p w) = Return tt ->
  snd (TaskService.createTask uuid p w)
  = mkWorld (task_queue w
             ++ [created_row (zone w) uuid name pl pr (TaskService.schedulePattern p)
                             (clock w)])
            (execution_history w) (clock w) (scheduler w) (zone w).
Proof.
  intros Hname Hpayload Hprio Hpat Hv.
  unfold TaskService.createTask.
  cbv beta iota delta [bind].
  pose proof (validateTaskPayload_world p w) as Hw.
  destruct (TaskService._validateTaskPayload p w) as [o w1].
  cbn in Hv, Hw. subst o w1. cbv beta iota.
  rewrite Hprio. cbv beta iota delta [ret].
  pose proof (next_execution_computed uuid p w name pr pl Hpat) as Hnext.
  cbv beta iota delta [bind ret] in Hnext.
  rewrite Hnext. cbv beta iota.
  unfold TaskRepository.createTask, TaskRepository.rethrow, tryCatch.
  cbv beta iota delta [bind lift TaskRepository.bind_param
                       TaskRepository.td_task_label
                       TaskRepository.td_payload_data
                       TaskRepository.td_task_id
                       TaskRepository.td_urgency_level
                       TaskRepository.td_schedule_pattern
                       TaskRepository.td_is_recurring
                       TaskRepository.td_next_execution_at].
  rewrite Hname, Hpayload. cbn [option_map]. cbv beta iota.
  unfold TaskRepository.insert_task_queue.
  assert (Hrow :
    mkTask uuid (JStr name) (CellText (stringify pl)) (Js.toLowerCase pr)
      (if truthy
            (Some
               match TaskService.schedulePattern p with
               | Some pattern =>
                   if truthy (Some pattern) then pattern else JNull
               | None => JNull
               end)
       then
        match TaskService.schedulePattern p with
        | Some pattern => if truthy (Some pattern) then pattern else JNull
        | None => JNull
        end
       else JNull)
      (if truthy (TaskService.schedulePattern p) || false then 1 else 0)
      (next_execution_at
         (created_row (zone w) uuid name pl pr (TaskService.schedulePattern p) (clock w)))
      "queued" 0 None None None None
      (clock w) (clock w)
    = created_row (zone w) uuid name pl pr (TaskService.schedulePattern p) (clock w)).
  { unfold created_row. cbn [next_execution_at].
    rewrite orb_false_r.
    destruct (TaskService.schedulePattern p) as [v|]; [|reflexivity].
    destruct (truthy (Some v)) eqn:E; [now rewrite E | reflexivity]. }
  rewrite Hrow.
  match goal with
  | |- context [TaskRepository.findTaskById uuid ?w0] =>
      pose proof (findTaskById_world uuid w0) as Hfw;
      destruct (TaskRepository.findTaskById uuid w0) as [[[t|]|e] w2];
      cbn in Hfw; subst w2; reflexivity
  end.
Qed.

(** X12. Whenever [createTask] returns, the request had a name that is a
    string and not blank, a payload and a priority that is a string; the
    table gained exactly one row, at its end, with the given id, the name,
    the payload as JSON text and the priority in lower case, one of
    [low], [medium], [high]; the row is recurring exactly when the
    schedule pattern is truthy, and then it has a next execution instant.
    The history is untouched. *)
Theorem accepted_creation_appends_one_row uuid p w r w' :
  TaskService.createTask uuid p w = (Return r, w') ->
  exists name pr pl row,
    TaskService.taskName p = Some (JStr name)
    /\ Js.trim name <> ""
    /\ TaskService.payload p = Some pl
    /\ TaskService.priority p = Some (JStr pr)
    /\ task_queue w' = (task_queue w ++ [row])%list
    /\ execution_history w' = execution_history w
    /\ task_id row = uuid
    /\ task_label row = JStr name
    /\ payload_data row = CellText (stringify pl)
    /\ urgency_level row = Js.toLowerCase pr
    /\ In (urgency_level row) ["low"; "medium"; "high"]
    /\ is_recurring row
       = (if truthy (TaskService.schedulePattern p) then 1 else 0)
    /\ (truthy (TaskService.schedulePattern p) = true ->
        exists d, next_execution_at row = Some d).
Proof.
  intros Hrun.
  assert (Hv : exists w1, TaskService._validateTaskPayload p w = (Return tt, w1)).
  { revert Hrun. unfold TaskService.createTask. cbv beta iota delta [bind].
    destruct (TaskService._validateTaskPayload p w) as [[[]|e] w1];
      [|discriminate].
    intros _. now exists w1. }
  destruct Hv as (w1 & Hv).
  destruct (validateTaskPayload_inv p w tt w1 Hv)
    as ((name & Hname & Hblank) & Htruthy & (pr & Hprio & Hvalid) & Hpat).
  destruct (TaskService.payload p) as [pl|] eqn:Hpayload; [|discriminate].
  pose proof (createTask_world uuid p w name pr pl Hname Hpayload Hprio Hpat)
    as Hw.
  rewrite Hv, Hrun in Hw. cbn [fst snd] in Hw. specialize (Hw eq_refl).
  exists name, pr, pl, (created_row (zone w) uuid name pl pr
                          (TaskService.schedulePattern p) (clock w)).
  subst w'. cbn [task_queue execution_history].
  repeat split; try assumption.
  - unfold created_row. cbn [urgency_level].
    cbn in Hvalid.
    repeat (apply orb_prop in Hvalid as [Hvalid|Hvalid];
            [apply String.eqb_eq in Hvalid; rewrite Hvalid; cbn; tauto|]).
    discriminate.
  - intros Ht. unfold created_row. cbn [next_execution_at].
    rewrite Ht. unfold acceptable_pattern in Hpat.
    destruct (TaskService.schedulePattern p) as [[| b | n | pat | l | l]|];
      try (rewrite Ht in Hpat; discriminate); try discriminate.
    now eexists.
Qed.

(** A request with priority [HIGH] and a schedule. *)
Lemma accepted_creation_witness :
  let w := Sample.world [] 1000 Sample.idle in
  let p := TaskService.mkPayload (Some (JStr "report")) (Some (JObj []))
             (Some (JStr "HIGH")) (Some (JStr "*/5 * * * *")) in
  exists r w',
    TaskService.createTask "id-1" p w = (Return r, w')
    /\ exists name pr pl row,
        TaskService.taskName p = Some (JStr name)
        /\ Js.trim name <> ""
        /\ TaskService.payload p = Some pl
        /\ TaskService.priority p = Some (JStr pr)
        /\ task_queue w' = (task_queue w ++ [row])%list
        /\ execution_history w' = execution_history w
        /\ task_id row = "id-1"
        /\ task_label row = JStr name
        /\ payload_data row = CellText (stringify pl)
        /\ urgency_level row = Js.toLowerCase pr
        /\ In (urgency_level row) ["low"; "medium"; "high"]
        /\ is_recurring row
           = (if truthy (TaskService.schedulePattern p) then 1 else 0)
        /\ (truthy (TaskService.schedulePattern p) = true ->
            exists d, next_execution_at row = Some d).
Proof.
  intros w p. eexists _, _. split; [vm_compute; reflexivity|].
  eapply (accepted_creation_appends_one_row "id-1" p w).
  vm_compute; reflexivity.
Defined.

(** X13. A creation request whose [taskName] is truthy and not a string (a
    number, [true], an array, an object) is not refused as invalid: the
    call of [trim] throws a [TypeError], the error handler answers 500
    with [INTERNAL_SERVER_ERROR], and nothing is written. *)
Theorem nonstring_name_is_a_server_error env uuid p w v :
  TaskService.taskName p = Some v ->
  truthy (Some v) = true ->
  typeof (Some v) <> "string" ->
  exists msg,
    TaskRoutes.post_tasks env uuid p w
    = (Return (Server.mkRes 500
                 (Server.ErrorBody "INTERNAL_SERVER_ERROR" msg)), w).
Proof.
  intros Hname Htruthy Htype.
  unfold TaskRoutes.post_tasks, TaskController.createTask, tryCatch,
    TaskService.createTask, TaskService._validateTaskPayload.
  cbv beta iota delta [bind]. rewrite Hname, Htruthy. cbn [negb].
  destruct v as [| b | n | s | l | l]; try (eexists; reflexivity).
  now elim Htype.
Qed.

(** The name is the number 42. *)
Lemma nonstring_name_witness :
  let p := TaskService.mkPayload (Some (JNum 42)) (Some (JObj []))
             (Some (JStr "low")) None in
  let w := Sample.world [] 1000 Sample.idle in
  exists msg,
    TaskRoutes.post_tasks Sample.env "id-1" p w
    = (Return (Server.mkRes 500
                 (Server.ErrorBody "INTERNAL_SERVER_ERROR" msg)), w).
Proof.
  intros p w.
  apply (nonstring_name_is_a_server_error Sample.env "id-1" p w (JNum 42));
    [reflexivity | reflexivity | discriminate].
Defined.

(** *** The next execution instant *)

(** X14. A schedule pattern that does not start with [*/] gives, whatever
    its five fields say, the instant at which the local clock of the
    host shows one hour more than it shows now.  Where the offset of the
    zone is the same at both ends, that is the current instant plus one
    hour. *)
Theorem next_execution_defaults_to_one_hour s w :
  Js.startsWith s "*/" = false ->
  Z.abs (clock w) <= 8640000000000000 ->
  within_a_day (zone w) ->
  TaskService._calculateNextExecution (JStr s) w
  = (Return (local_later (zone w) (clock w) 3600000), w)
  /\ (steady (zone w) (clock w) 3600000 ->
      clock w + 3600000 <= 8640000000000000 ->
      local_later (zone w) (clock w) 3600000
      = ValidDate (clock w + 3600000)).
Proof.
  intros H Hnow Hz. split.
  - rewrite calculateNextExecution_text.
    unfold next_instant. rewrite H. now rewrite setHours_adds.
  - intros Hs Hr. apply local_later_steady; [exact Hs | lia].
Qed.

(** [0 9 * * 1], every Monday at nine.  In New York at 01:30 on the night
    the clocks go back, the next instant is two hours away; a day
    earlier it is one hour away. *)
Lemma next_execution_hour_witness :
  let w := Sample.world_in Sample.new_york [] 1793511000000 Sample.idle in
  let w0 := Sample.world_in Sample.new_york [] 1793424600000 Sample.idle in
  TaskService._calculateNextExecution (JStr "0 9 * * 1") w
  = (Return (ValidDate (clock w + 2 * 3600000)), w)
  /\ TaskService._calculateNextExecution (JStr "0 9 * * 1") w0
     = (Return (ValidDate (clock w0 + 3600000)), w0).
Proof.
  intros w w0. split.
  - destruct (next_execution_defaults_to_one_hour "0 9 * * 1" w) as [-> _];
      [reflexivity | vm_compute; discriminate
      | exact new_york_within_a_day | reflexivity].
  - destruct (next_execution_defaults_to_one_hour "0 9 * * 1" w0) as [-> <-];
      [reflexivity | vm_compute; discriminate
      | exact new_york_within_a_day | reflexivity
      | reflexivity | vm_compute; discriminate].
Defined.

Lemma split_not_nil sep s : Js.split sep s <> [].
Proof.
  destruct s as [|c r]; cbn; [discriminate|].
  destruct (Ascii.eqb c sep); [discriminate|].
  destruct (Js.split sep r); discriminate.
Qed.

Lemma split_head sep s c h t :
  Js.split sep s = String c h :: t ->
  exists r, s = String c r /\ Js.split sep r = h :: t.
Proof.
  destruct s as [|c0 r]; cbn; [discriminate|].
  destruct (Ascii.eqb c0 sep); [discriminate|].
  destruct (Js.split sep r) as [|h' t'] eqn:E;
    [now elim (split_not_nil sep r)|].
  intros [= -> -> ->]. now exists r.
Qed.

Lemma substring_all s : String.substring 0 (String.length s) s = s.
Proof. induction s as [|c s IH]; cbn; [reflexivity | now rewrite IH]. Qed.

(** X15. A schedule pattern whose first field is [*/F], where [parseInt]
    reads [F] as [n] (of at most a thousand million in absolute value),
    gives the instant at which the local clock of the host shows [n]
    minutes more than it shows now; the other fields are not read.
    Where the offset of the zone is the same at both ends and the
    result is in the range of dates, that is the current instant plus
    [n] minutes, in the past when [n] is negative. *)
Theorem next_execution_every_n_minutes s w f rest n :
  Js.split " " s = ("*/" ++ f) :: rest ->
  Js.parseInt f = Some n ->
  Z.abs n <= 1000000000 ->
  Z.abs (clock w) <= 8640000000000000 ->
  within_a_day (zone w) ->
  TaskService._calculateNextExecution (JStr s) w
  = (Return (local_later (zone w) (clock w) (n * 60000)), w)
  /\ (steady (zone w) (clock w) (n * 60000) ->
      Z.abs (clock w + n * 60000) <= 8640000000000000 ->
      local_later (zone w) (clock w) (n * 60000)
      = ValidDate (clock w + n * 60000)).
Proof.
  intros Hs Hn Hsmall Hnow Hz. split.
  2:{ intros Hst Hr. now apply local_later_steady. }
  rewrite calculateNextExecution_text.
  unfold next_instant. rewrite Hs. cbn [nth].
  cbn [append] in Hs.
  destruct (split_head _ _ _ _ _ Hs) as (r1 & -> & Hs1).
  destruct (split_head _ _ _ _ _ Hs1) as (r2 & -> & _).
  assert (Hr : Js.replace "*/" "" ("*/" ++ f) = f).
  { cbn [append]. destruct f as [|c f']; [reflexivity|].
    unfold Js.replace. cbn [String.prefix].
    change (String.length (String "*" (String "/" (String c f')))
            - String.length "*/")%nat with (String.length (String c f') - 0)%nat.
    rewrite Nat.sub_0_r.
    change (String.substring (String.length "*/") (String.length (String c f'))
              (String "*" (String "/" (String c f'))))
      with (String.substring 0 (String.length (String c f')) (String c f')).
    now rewrite substring_all. }
  rewrite Hr, Hn.
  assert (Hp : Js.startsWith (String "*" (String "/" r2)) "*/" = true)
    by (unfold Js.startsWith; destruct r2; reflexivity).
  rewrite Hp.
  cbn [option_map]. now rewrite setMinutes_adds.
Qed.

(** [*/45 9 * * 1].  In New York at 01:30 on the night the clocks go
    back, the next instant is 105 minutes away; a day earlier it is 45
    minutes away. *)
Lemma next_execution_minutes_witness :
  let w := Sample.world_in Sample.new_york [] 1793511000000 Sample.idle in
  let w0 := Sample.world_in Sample.new_york [] 1793424600000 Sample.idle in
  TaskService._calculateNextExecution (JStr "*/45 9 * * 1") w
  = (Return (ValidDate (clock w + 105 * 60000)), w)
  /\ TaskService._calculateNextExecution (JStr "*/45 9 * * 1") w0
     = (Return (ValidDate (clock w0 + 45 * 60000)), w0).
Proof.
  intros w w0. split.
  - destruct (next_execution_every_n_minutes "*/45 9 * * 1" w "45"
                ["9"; "*"; "*"; "1"] 45) as [-> _];
      [reflexivity | reflexivity | vm_compute; discriminate
      | vm_compute; discriminate | exact new_york_within_a_day
      | reflexivity].
  - destruct (next_execution_every_n_minutes "*/45 9 * * 1" w0 "45"
                ["9"; "*"; "*"; "1"] 45) as [-> <-];
      [reflexivity | reflexivity | vm_compute; discriminate
      | vm_compute; discriminate | exact new_york_within_a_day
      | reflexivity | reflexivity | vm_compute; discriminate].
Defined.

(** *** The request validator and the validation of the service *)



Lemma split_join sep s : forall h t,
  Js.split sep s = h :: t -> s = h ++ join_rest sep t.
Proof.
  induction s as [|c r IH]; intros h t; cbn.
  - now intros [= <- <-].
  - destruct (Ascii.eqb c sep) eqn:E.
    + apply Ascii.eqb_eq in E. subst c. intros [= <- <-].
      destruct (Js.split sep r) as [|h' t'] eqn:Er;
        [now elim (split_not_nil sep r)|].
      cbn. now rewrite (IH h' t' eq_refl).
    + destruct (Js.split sep r) as [|h' t'] eqn:Er;
        [now elim (split_not_nil sep r)|].
      intros [= <- <-]. cbn. now rewrite (IH h' t' eq_refl).
Qed.

Lemma digit_is_not_space a n : Js.digit_val a = Some n -> Js.is_space a = false.
Proof.
  unfold Js.digit_val, Js.is_space.
  destruct (48 <=? Js.code a) eqn:E1; [|discriminate].
  destruct (Js.code a <=? 57) eqn:E2; [|discriminate].
  intros _. apply Z.leb_le in E1, E2.
  assert (H1 : (Js.code a <=? 13) = false) by (apply Z.leb_gt; lia).
  assert (H2 : (Js.code a =? 32) = false) by (apply Z.eqb_neq; lia).
  assert (H3 : (Js.code a =? 160) = false) by (apply Z.eqb_neq; lia).
  now rewrite H1, H2, H3, andb_false_r.
Qed.

Lemma numeral_spaceless lo hi s :
  RequestValidator.numeral lo hi s = true -> spaceless s = true /\ s <> "".
Proof.
  unfold RequestValidator.numeral.
  destruct s as [|a [|b [|c r]]]; try discriminate.
  - destruct (Js.digit_val a) eqn:Ea; [|discriminate].
    intros _. cbn. rewrite (digit_is_not_space _ _ Ea). now split.
  - destruct (Js.digit_val a) eqn:Ea; [|discriminate].
    destruct (Js.digit_val b) eqn:Eb; [|discriminate].
    intros _. cbn.
    rewrite (digit_is_not_space _ _ Ea), (digit_is_not_space _ _ Eb).
    now split.
Qed.

Lemma field_spaceless lo hi s :
  RequestValidator.field lo hi s = true -> spaceless s = true /\ s <> "".
Proof.
  unfold RequestValidator.field. intros H.
  apply orb_prop in H as [H|H]; [apply orb_prop in H as [H|H]|].
  - apply String.eqb_eq in H. subst s. now split.
  - now apply numeral_spaceless in H.
  - destruct s as [|c1 s']; [discriminate|].
    destruct c1 as [[] [] [] [] [] [] [] []]; try discriminate.
    destruct s' as [|c2 r]; [discriminate|].
    destruct c2 as [[] [] [] [] [] [] [] []]; try discriminate.
    apply numeral_spaceless in H as [H _]. cbn. rewrite H. now split.
Qed.

Lemma spaceless_app a b :
  spaceless (a ++ b) = spaceless a && spaceless b.
Proof.
  induction a as [|c a IH]; cbn; [reflexivity|].
  now rewrite IH, andb_assoc.
Qed.

Lemma trimEnd_spaceless e : spaceless e = true -> Js.trimEnd e = e.
Proof.
  induction e as [|c r IH]; cbn; [reflexivity|].
  intros H. apply andb_prop in H as [Hc Hr].
  rewrite (IH Hr). destruct r; [|reflexivity].
  apply negb_true_iff in Hc. now rewrite Hc.
Qed.

Lemma trimEnd_app x e :
  e <> "" -> spaceless e = true -> Js.trimEnd (x ++ e) = x ++ e.
Proof.
  intros Hne Hs. induction x as [|c x IH]; cbn.
  - now apply trimEnd_spaceless.
  - rewrite IH. destruct (x ++ e) eqn:E; [|reflexivity].
    destruct x; cbn in E; [contradiction | discriminate].
Qed.

Lemma trimStart_spaceless h r :
  h <> "" -> spaceless h = true -> Js.trimStart (h ++ r) = h ++ r.
Proof.
  destruct h as [|c h]; [contradiction|]. cbn.
  intros _ H. apply andb_prop in H as [Hc _].
  apply negb_true_iff in Hc. now rewrite Hc.
Qed.

Lemma isValidCron_trim s :
  RequestValidator.isValidCron s = true ->
  Js.trim s = s /\ List.length (Js.split " " s) = 5%nat.
Proof.
  unfold RequestValidator.isValidCron.
  destruct (Js.split " " s) as [|mi [|ho [|da [|mo [|wd [|x t]]]]]] eqn:E;
    try discriminate.
  intros H.
  repeat (apply andb_prop in H as [H ?]).
  split; [|reflexivity].
  apply split_join in E. cbn [join_rest] in E.
  destruct (field_spaceless _ _ _ H) as [Hmi Hmi'].
  match goal with Hwd : RequestValidator.field 0 6 wd = true |- _ =>
    destruct (field_spaceless _ _ _ Hwd) as [Hwd1 Hwd2] end.
  assert (Hwd : wd ++ "" = wd)
    by (clear; induction wd as [|c r IH]; cbn; [reflexivity | now rewrite IH]).
  rewrite Hwd in E.
  assert (Hend : s = (mi ++ String " " (ho ++ String " " (da ++ String " "
                        (mo ++ String " " "")))) ++ wd).
  { rewrite E. repeat (rewrite append_assoc; cbn [append]). reflexivity. }
  unfold Js.trim.
  assert (Hstart : Js.trimStart s = s)
    by (rewrite E; apply (trimStart_spaceless mi _ Hmi' Hmi)).
  rewrite Hstart. rewrite Hend at 1.
  rewrite (trimEnd_app _ wd Hwd2 Hwd1). now rewrite <- Hend.
Qed.

Lemma validateCreateTaskRequest_inv p w :
  fst (RequestValidator.validateCreateTaskRequest p w) = Return tt ->
  (exists name, TaskService.taskName p = Some (JStr name)
                /\ Js.trim name <> ""
                /\ (String.length name <= 255)%nat)
  /\ truthy (TaskService.payload p) = true
  /\ typeof (TaskService.payload p) = "object"
  /\ (exists pr, TaskService.priority p = Some (JStr pr)
                 /\ TaskService.includes TaskService.validPriorities
                      (Some (Js.toLowerCase pr)) = true)
  /\ (forall v, TaskService.schedulePattern p = Some v ->
                truthy (Some v) = true ->
                RequestValidator.isValidCron (RequestValidator.ToString v) = true).
Proof.
  unfold RequestValidator.validateCreateTaskRequest.
  cbv beta iota delta [bind ret throw].
  destruct (TaskService.taskName p) as [[| b | n | name | l | l]|];
    cbn [truthy typeof negb orb];
    try discriminate;
    try (destruct b; discriminate);
    try (destruct (n =? 0); discriminate).
  destruct (String.eqb name "") eqn:Ename; cbn [negb orb]; [discriminate|].
  change (String.eqb "string" "string") with true. cbn [negb orb].
  destruct (Nat.eqb (String.length (Js.trim name)) 0) eqn:Eblank;
    [discriminate|].
  cbv beta iota.
  destruct (Nat.ltb 255 (String.length name)) eqn:Elen; [discriminate|].
  cbv beta iota.
  destruct (truthy (TaskService.payload p)) eqn:Epl; cbn [negb];
    [|discriminate].
  cbv beta iota.
  destruct (String.eqb (typeof (TaskService.payload p)) "object") eqn:Eobj;
    cbn [negb]; [|discriminate].
  cbv beta iota.
  destruct (truthy (TaskService.priority p)) eqn:Epr; cbn [negb];
    [|discriminate].
  destruct (TaskService.priority p) as [[| | |pr| |]|]; try discriminate.
  cbv beta iota.
  destruct (TaskService.includes TaskService.validPriorities
              (Some (Js.toLowerCase pr))) eqn:Ein; [|discriminate].
  cbv beta iota. intros H.
  split; [|split; [|split; [|split]]].
  - exists name. split; [reflexivity|]. split.
    + intros E. rewrite E in Eblank. discriminate.
    + apply Nat.ltb_ge in Elen. exact Elen.
  - reflexivity.
  - now apply String.eqb_eq.
  - now exists pr.
  - intros v Hv Ht. rewrite Hv in H. rewrite Ht in H. cbn [andb] in H.
    destruct (RequestValidator.isValidCron (RequestValidator.ToString v));
      [reflexivity | discriminate].
Qed.

(** X16. A creation request that [validateCreateTaskRequest] lets through,
    with a schedule pattern that is a string or falsy, passes
    [_validateTaskPayload] too: the regular expression of the middleware
    accepts only patterns without outer white space and with five
    fields. *)
Theorem request_validator_implies_service_validation p w :
  fst (RequestValidator.validateCreateTaskRequest p w) = Return tt ->
  typeof (TaskService.schedulePattern p) = "string"
  \/ truthy (TaskService.schedulePattern p) = false ->
  TaskService._validateTaskPayload p w = (Return tt, w).
Proof.
  intros Hv Hpat.
  destruct (validateCreateTaskRequest_inv p w Hv)
    as ((name & Hname & Hblank & _) & Hpl & _ & (pr & Hpr & Hin) & Hcron).
  unfold TaskService._validateTaskPayload, TaskService._isValidCronPattern.
  cbv beta iota delta [bind ret throw].
  rewrite Hname.
  assert (Hne : truthy (Some (JStr name)) = true).
  { cbn. destruct name; [now elim Hblank | reflexivity]. }
  rewrite Hne. cbn [negb].
  destruct (Js.trim name) as [|c r] eqn:E; [now elim Hblank|].
  cbn [String.length Nat.eqb]. cbv beta iota.
  rewrite Hpl. cbn [negb]. cbv beta iota.
  rewrite Hpr. cbv beta iota. rewrite Hin. cbn [negb]. cbv beta iota.
  destruct (truthy (TaskService.schedulePattern p)) eqn:Et; [|reflexivity].
  destruct Hpat as [Hpat | Hpat]; [|discriminate].
  destruct (TaskService.schedulePattern p) as [[| | |pat| |]|] eqn:Ep;
    try discriminate.
  specialize (Hcron (JStr pat) eq_refl Et). cbn [RequestValidator.ToString] in Hcron.
  destruct (isValidCron_trim pat Hcron) as [Htrim Hlen].
  now rewrite Htrim, Hlen.
Qed.

(** A request with the pattern [*/5 9 * * 1]. *)
Lemma request_validator_witness :
  let p := Sample.request "report" (Some (JStr "*/5 9 * * 1")) in
  let w := Sample.world [] 1000 Sample.idle in
  fst (RequestValidator.validateCreateTaskRequest p w) = Return tt
  /\ TaskService._validateTaskPayload p w = (Return tt, w).
Proof.
  intros p w.
  assert (H : fst (RequestValidator.validateCreateTaskRequest p w) = Return tt)
    by (vm_compute; reflexivity).
  split; [exact H|].
  apply (request_validator_implies_service_validation p w H).
  left; reflexivity.
Defined.

(** X17. If a request passes [validateCreateTaskRequest] with the pattern
    [s], it passes with the one-element array [[s]] as well, because
    [RegExp.test] reads its argument through [String]; the service then
    stops with a [TypeError], since an array has no [trim]. *)
Theorem array_pattern_passes_the_validator p w s :
  fst (RequestValidator.validateCreateTaskRequest
         (TaskService.mkPayload (TaskService.taskName p)
            (TaskService.payload p) (TaskService.priority p)
            (Some (JStr s))) w) = Return tt ->
  s <> "" ->
  let q := TaskService.mkPayload (TaskService.taskName p)
             (TaskService.payload p) (TaskService.priority p)
             (Some (JArr [JStr s])) in
  fst (RequestValidator.validateCreateTaskRequest q w) = Return tt
  /\ fst (TaskService._validateTaskPayload q w)
     = Throw (Errors.TypeError "pattern.trim is not a function").
Proof.
  intros Hv Hs q.
  destruct (validateCreateTaskRequest_inv _ w Hv)
    as ((name & Hname & Hblank & Hlen) & Hpl & Hobj & (pr & Hpr & Hin) & Hcron).
  cbn [TaskService.taskName TaskService.payload TaskService.priority
       TaskService.schedulePattern] in *.
  assert (Hne : truthy (Some (JStr name)) = true).
  { cbn. destruct name; [now elim Hblank | reflexivity]. }
  assert (Hts : truthy (Some (JStr s)) = true).
  { cbn. destruct s; [now elim Hs | reflexivity]. }
  specialize (Hcron (JStr s) eq_refl Hts).
  cbn [RequestValidator.ToString] in Hcron.
  split.
  - unfold RequestValidator.validateCreateTaskRequest, q.
    cbv beta iota delta [bind ret throw].
    cbn [TaskService.taskName TaskService.payload TaskService.priority
         TaskService.schedulePattern].
    rewrite Hname, Hne. cbn [typeof negb orb].
    change (String.eqb "string" "string") with true. cbn [negb orb].
    destruct (Js.trim name) as [|c r] eqn:E; [now elim Hblank|].
    cbn [String.length Nat.eqb]. cbv beta iota.
    apply Nat.ltb_ge in Hlen. rewrite Hlen. cbv beta iota.
    rewrite Hpl. cbn [negb]. cbv beta iota.
    rewrite Hobj. change (String.eqb "object" "object") with true.
    cbn [negb]. cbv beta iota.
    rewrite Hpr.
    assert (Htp : truthy (Some (JStr pr)) = true).
    { cbn. destruct pr; [discriminate Hin | reflexivity]. }
    rewrite Htp. cbn [negb]. cbv beta iota. rewrite Hin. cbv beta iota.
    assert (Hstr : RequestValidator.ToString (JArr [JStr s]) = s).
    { cbn. clear. induction s as [|c r IH]; cbn; [reflexivity | now rewrite IH]. }
    rewrite Hstr, Hcron. reflexivity.
  - unfold TaskService._validateTaskPayload, TaskService._isValidCronPattern, q.
    cbv beta iota delta [bind ret throw].
    cbn [TaskService.taskName TaskService.payload TaskService.priority
         TaskService.schedulePattern].
    rewrite Hname, Hne. cbn [negb].
    destruct (Js.trim name) as [|c r] eqn:E; [now elim Hblank|].
    cbn [String.length Nat.eqb]. cbv beta iota.
    rewrite Hpl. cbn [negb]. cbv beta iota.
    rewrite Hpr. cbv beta iota. rewrite Hin. cbn [negb]. reflexivity.
Qed.

(** The pattern [*/5 * * * *] wrapped in an array. *)
Lemma array_pattern_witness :
  let p := Sample.request "report" None in
  let w := Sample.world [] 1000 Sample.idle in
  let q := TaskService.mkPayload (TaskService.taskName p)
             (TaskService.payload p) (TaskService.priority p)
             (Some (JArr [JStr "*/5 * * * *"])) in
  fst (RequestValidator.validateCreateTaskRequest q w) = Return tt
  /\ fst (TaskService._validateTaskPayload q w)
     = Throw (Errors.TypeError "pattern.trim is not a function").
Proof.
  intros p w.
  apply (array_pattern_passes_the_validator p w "*/5 * * * *");
    [vm_compute; reflexivity | discriminate].
Defined.

(** *** The shape of an accepted id *)

Lemma hexes_split n : forall s r,
  RequestValidator.hexes n s = Some r ->
  exists pre, s = pre ++ r /\ String.length pre = n.
Proof.
  induction n as [|n IH]; intros s r; cbn.
  - intros [= <-]. now exists "".
  - destruct s as [|c s']; [discriminate|].
    destruct (Js.hex_val c); [|discriminate].
    intros H. destruct (IH _ _ H) as (pre & -> & Hlen).
    exists (String c pre). cbn. now rewrite Hlen.
Qed.

(** X18. An id that [validateUUIDParam] lets through has 36 characters:
    groups of 8, 4, 4, 4 and 12 characters separated by hyphens. *)
Theorem accepted_id_has_uuid_shape id w :
  fst (RequestValidator.validateUUIDParam id w) = Return tt ->
  String.length id = 36%nat
  /\ exists a b c d e,
       id = a ++ "-" ++ b ++ "-" ++ c ++ "-" ++ d ++ "-" ++ e
       /\ String.length a = 8%nat /\ String.length b = 4%nat
       /\ String.length c = 4%nat /\ String.length d = 4%nat
       /\ String.length e = 12%nat.
Proof.
  unfold RequestValidator.validateUUIDParam, RequestValidator.uuidRegex.
  destruct (RequestValidator.hexes 8 id) as [[|c1 r1]|] eqn:E1;
    try (cbn; discriminate).
  destruct c1 as [[] [] [] [] [] [] [] []]; try (cbn; discriminate).
  destruct (RequestValidator.hexes 4 r1) as [[|c2 r2]|] eqn:E2;
    try (cbn; discriminate).
  destruct c2 as [[] [] [] [] [] [] [] []]; try (cbn; discriminate).
  destruct (RequestValidator.hexes 4 r2) as [[|c3 r3]|] eqn:E3;
    try (cbn; discriminate).
  destruct c3 as [[] [] [] [] [] [] [] []]; try (cbn; discriminate).
  destruct (RequestValidator.hexes 4 r3) as [[|c4 r4]|] eqn:E4;
    try (cbn; discriminate).
  destruct c4 as [[] [] [] [] [] [] [] []]; try (cbn; discriminate).
  destruct (RequestValidator.hexes 12 r4) as [[|c5 r5]|] eqn:E5;
    try (cbn; discriminate).
  intros _.
  destruct (hexes_split _ _ _ E1) as (a & -> & Ha).
  destruct (hexes_split _ _ _ E2) as (b & -> & Hb).
  destruct (hexes_split _ _ _ E3) as (c & -> & Hc).
  destruct (hexes_split _ _ _ E4) as (d & -> & Hd).
  destruct (hexes_split _ _ _ E5) as (e & -> & He).
  clear E1 E2 E3 E4 E5.
  assert (Hnil : e ++ "" = e)
    by (clear; induction e as [|x r IH]; cbn; [reflexivity | now rewrite IH]).
  rewrite Hnil. split.
  - repeat (rewrite length_append; cbn [String.length]). lia.
  - exists a, b, c, d, e. repeat split; assumption.
Qed.

(** An id with letters in both cases. *)
Lemma accepted_id_witness :
  let id := "123e4567-E89B-12d3-a456-426614174000" in
  String.length id = 36%nat
  /\ exists a b c d e,
       id = a ++ "-" ++ b ++ "-" ++ c ++ "-" ++ d ++ "-" ++ e
       /\ String.length a = 8%nat /\ String.length b = 4%nat
       /\ String.length c = 4%nat /\ String.length d = 4%nat
       /\ String.length e = 12%nat.
Proof.
  intros id.
  apply (accepted_id_has_uuid_shape id (Sample.world [] 1000 Sample.idle)).
  vm_compute; reflexivity.
Defined.

(** ** The scheduler, manual calls included *)


Lemma finally_counted st :
  activeTasksCount (this st) = Z.of_nat (List.length (executing st)) + 1 ->
  counted (_executeTaskAsync_finally st).
Proof.
  unfold counted, _executeTaskAsync_finally, shift, _executeTaskAsync.
  intros H. unfold leave, enter. cbn.
  destruct (taskQueue (this st)) as [|t q]; cbn.
  - lia.
  - rewrite length_app. cbn. lia.
Qed.

Lemma step_counted ev st st' :
  step ev st = Some st' -> counted st -> counted st'.
Proof.
  unfold counted. destruct ev as [task| |i|taskId|i found]; cbn [step].
  - intros [= <-] H. unfold _checkAndExecutePendingTasks.
    destruct (at_capacity (this st)); cbn; [exact H|].
    unfold enter. cbn. rewrite length_app. cbn. lia.
  - unfold _processTaskQueue, shift.
    destruct (taskQueue (this st)) as [|t q]; [discriminate|].
    destruct (_ <? _); [|discriminate].
    intros [= <-] H. cbn. unfold enter. cbn. rewrite length_app. cbn. lia.
  - destruct (nth_error (executing st) i) as [t|] eqn:E; [|discriminate].
    intros [= <-] H. apply finally_counted. cbn.
    assert (Hlen : List.length (executing st)
                   = S (List.length (remove_nth i (executing st)))).
    { clear H. revert i E. induction (executing st) as [|x l IH]; intros [|i];
        cbn; try discriminate; [reflexivity|].
      intros E. now rewrite (IH i E). }
    lia.
  - intros [= <-] H. unfold manualExecuteTask.
    now destruct (at_capacity (this st)).
  - destruct (nth_error (lookups st) i) as [t|]; [|discriminate].
    intros [= <-] H. unfold manualExecuteTask_resumed.
    destruct found as [task|].
    + cbn. unfold enter. cbn. rewrite length_app. cbn. lia.
    + apply finally_counted. cbn. unfold enter. cbn. lia.
Qed.

Lemma step_limit ev st st' :
  step ev st = Some st' ->
  maxConcurrentTasks (this st') = maxConcurrentTasks (this st).
Proof.
  assert (Hfin : forall s, maxConcurrentTasks (this (_executeTaskAsync_finally s))
                           = maxConcurrentTasks (this s)).
  { intros s. unfold _executeTaskAsync_finally, shift. cbn.
    now destruct (taskQueue (this s)). }
  destruct ev as [task| |i|taskId|i found]; cbn [step].
  - intros [= <-]. unfold _checkAndExecutePendingTasks.
    now destruct (at_capacity (this st)).
  - unfold _processTaskQueue, shift.
    destruct (taskQueue (this st)) as [|t q]; [discriminate|].
    destruct (_ <? _); [|discriminate]. now intros [= <-].
  - destruct (nth_error (executing st) i); [|discriminate].
    intros [= <-]. now rewrite Hfin.
  - intros [= <-]. unfold manualExecuteTask.
    now destruct (at_capacity (this st)).
  - destruct (nth_error (lookups st) i); [|discriminate].
    intros [= <-]. unfold manualExecuteTask_resumed.
    destruct found; [reflexivity|]. now rewrite Hfin.
Qed.

(** X19. In every state the scheduler reaches, manual calls included,
    [activeTasksCount] is the number of executions in flight: each
    increment is matched by the decrement of the [finally] block, also
    when the manual lookup finds nothing, and the count is never
    negative. *)
Theorem count_is_the_number_in_flight env evs st :
  run evs (initial env) = Some st ->
  activeTasksCount (this st) = Z.of_nat (List.length (executing st))
  /\ 0 <= activeTasksCount (this st).
Proof.
  intros H.
  assert (Hc : counted st).
  { assert (H0 : counted (initial env)) by reflexivity.
    revert H H0. generalize (initial env).
    induction evs as [|ev evs IH]; intros st0; cbn.
    - now intros [= <-].
    - destruct (step ev st0) as [st1|] eqn:E; [|discriminate].
      intros H H0. apply (IH st1 H). now apply (step_counted ev st0). }
  split; [exact Hc|]. unfold counted in Hc. lia.
Qed.

(** Two ticks, a manual call for an unknown id and an execution that ends. *)
Lemma count_in_flight_witness :
  let t := Sample.task "t1" "low" in
  let evs := [Offer t; ManualCall "t9"; ManualLookup 0 None; Offer t;
              Settle 0] in
  exists st,
    run evs (initial Sample.env) = Some st
    /\ activeTasksCount (this st) = Z.of_nat (List.length (executing st))
    /\ 0 <= activeTasksCount (this st).
Proof.
  intros t evs. eexists. split; [vm_compute; reflexivity|].
  apply (count_is_the_number_in_flight Sample.env evs).
  vm_compute; reflexivity.
Defined.

(** X20. The limit of concurrent tasks is the one the constructor computed,
    in every state the scheduler reaches.  It is never 0: it is 5 when
    [MAX_CONCURRENT_TASKS] is not set, 5 when [parseInt] does not read a
    number from it, 5 when [parseInt] reads 0, and the number read
    otherwise. *)
Theorem limit_is_fixed_and_not_zero env evs st :
  run evs (initial env) = Some st ->
  maxConcurrentTasks (this st) = maxConcurrentTasks (constructor env)
  /\ maxConcurrentTasks (this st) <> 0
  /\ (MAX_CONCURRENT_TASKS env = None -> maxConcurrentTasks (this st) = 5)
  /\ (forall s, MAX_CONCURRENT_TASKS env = Some s ->
                Js.parseInt s = None -> maxConcurrentTasks (this st) = 5)
  /\ (forall s, MAX_CONCURRENT_TASKS env = Some s ->
                Js.parseInt s = Some 0 -> maxConcurrentTasks (this st) = 5)
  /\ (forall s n, MAX_CONCURRENT_TASKS env = Some s ->
                  Js.parseInt s = Some n -> n <> 0 ->
                  maxConcurrentTasks (this st) = n).
Proof.
  intros H.
  assert (Hl : maxConcurrentTasks (this st) = maxConcurrentTasks (constructor env)).
  { change (constructor env) with (this (initial env)).
    revert H. generalize (initial env).
    induction evs as [|ev evs IH]; intros st0; cbn.
    - now intros [= <-].
    - destruct (step ev st0) as [st1|] eqn:E; [|discriminate].
      intros H. rewrite (IH st1 H). now apply (step_limit ev st0). }
  rewrite Hl. split; [reflexivity|]. unfold constructor. cbn.
  repeat split.
  - destruct (MAX_CONCURRENT_TASKS env) as [s|]; cbn; [|discriminate].
    destruct (Js.parseInt s) as [n|]; [|discriminate].
    destruct (n =? 0) eqn:E; [discriminate|]. now apply Z.eqb_neq in E.
  - now intros ->.
  - intros s -> Hs. cbn. now rewrite Hs.
  - intros s -> Hs. cbn. now rewrite Hs.
  - intros s n -> Hs Hn. cbn. rewrite Hs.
    apply Z.eqb_neq in Hn. now rewrite Hn.
Qed.

(** [MAX_CONCURRENT_TASKS=0], [MAX_CONCURRENT_TASKS=many] and
    [MAX_CONCURRENT_TASKS=3] give the limits 5, 5 and 3. *)
Lemma limit_witness :
  let t := Sample.task "t1" "low" in
  let evs := [Offer t; Offer t; Settle 1] in
  exists st0 st1 st3,
    run evs (initial (Sample.env_limit "0")) = Some st0
    /\ maxConcurrentTasks (this st0) = 5
    /\ run evs (initial (Sample.env_limit "many")) = Some st1
    /\ maxConcurrentTasks (this st1) = 5
    /\ run evs (initial (Sample.env_limit "3")) = Some st3
    /\ maxConcurrentTasks (this st3) = 3.
Proof.
  intros t evs. eexists _, _, _.
  split; [vm_compute; reflexivity|].
  split.
  { refine (proj1 (proj2 (proj2 (proj2 (proj2
              (limit_is_fixed_and_not_zero (Sample.env_limit "0") evs _ _)))))
              "0" _ _); vm_compute; reflexivity. }
  split; [vm_compute; reflexivity|].
  split.
  { refine (proj1 (proj2 (proj2 (proj2
              (limit_is_fixed_and_not_zero (Sample.env_limit "many") evs _ _))))
              "many" _ _); vm_compute; reflexivity. }
  split; [vm_compute; reflexivity|].
  refine (proj2 (proj2 (proj2 (proj2 (proj2
            (limit_is_fixed_and_not_zero (Sample.env_limit "3") evs _ _)))))
            "3" 3 _ _ _); [vm_compute; reflexivity | reflexivity | reflexivity
                          | discriminate].
Defined.


Lemma step_starved ev st st' :
  maxConcurrentTasks (this st) < 0 ->
  step ev st = Some st' -> starved st -> starved st'.
Proof.
  intros Hneg Hstep (He & Hl & Hc & Hd & Hq).
  assert (Hcap : at_capacity (this st) = true)
    by (unfold at_capacity; apply Z.leb_le; lia).
  destruct ev as [task| |i|taskId|i found]; cbn [step] in Hstep.
  - injection Hstep as <-. unfold _checkAndExecutePendingTasks.
    rewrite Hcap. unfold starved. cbn.
    rewrite dequeued_of_app, queued_of_app, Hd, Hq. cbn.
    repeat split; assumption.
  - unfold _processTaskQueue, shift in Hstep.
    destruct (taskQueue (this st)) as [|t q]; [discriminate|].
    destruct (activeTasksCount (this st) <? maxConcurrentTasks (this st)) eqn:E;
      [|discriminate].
    apply Z.ltb_lt in E. lia.
  - rewrite He in Hstep. destruct i; discriminate.
  - injection Hstep as <-. unfold manualExecuteTask. rewrite Hcap.
    unfold starved. cbn.
    rewrite dequeued_of_app, queued_of_app, Hd. cbn.
    rewrite List.app_nil_r. repeat split; assumption.
  - rewrite Hl in Hstep. destruct i; discriminate.
Qed.

(** X21. With a negative [MAX_CONCURRENT_TASKS] the scheduler never starts
    an execution: every task offered by a tick stays in the overflow
    queue, nothing is ever taken out of it, and every manual call is
    refused with status 429. *)
Theorem negative_limit_starts_nothing env s n evs st :
  MAX_CONCURRENT_TASKS env = Some s ->
  Js.parseInt s = Some n ->
  n < 0 ->
  run evs (initial env) = Some st ->
  executing st = []
  /\ dequeued_of (trace st) = []
  /\ taskQueue (this st) = queued_of (trace st)
  /\ forall taskId, exists e,
       trace (manualExecuteTask taskId st) = (trace st ++ [Rejected e])%list
       /\ Errors.statusCode e = Some 429.
Proof.
  intros Hs Hn Hneg Hrun.
  assert (Hmax : maxConcurrentTasks (this (initial env)) = n).
  { cbn. rewrite Hs. cbn. rewrite Hn.
    destruct (n =? 0) eqn:E; [apply Z.eqb_eq in E; lia | reflexivity]. }
  assert (H0 : starved (initial env)) by (repeat split).
  assert (Hinv : starved st /\ maxConcurrentTasks (this st) = n).
  { revert Hrun H0 Hmax. generalize (initial env).
    induction evs as [|ev evs IH]; intros st0; cbn.
    - intros [= <-]. now split.
    - destruct (step ev st0) as [st1|] eqn:E; [|discriminate].
      intros Hrun H0 Hmax. apply (IH st1 Hrun).
      + apply (step_starved ev st0); [lia | exact E | exact H0].
      + now rewrite (step_limit ev st0 st1 E). }
  destruct Hinv as ((He & Hl & Hc & Hd & Hq) & Hm).
  repeat split; try assumption.
  intros taskId. unfold manualExecuteTask.
  assert (Hcap : at_capacity (this st) = true)
    by (unfold at_capacity; apply Z.leb_le; lia).
  rewrite Hcap. cbn. eexists. split; reflexivity.
Qed.

(** [MAX_CONCURRENT_TASKS=-1], two ticks and a manual call. *)
Lemma negative_limit_witness :
  let t := Sample.task "t1" "low" in
  let evs := [Offer t; ManualCall "t1"; Offer t] in
  exists st,
    run evs (initial (Sample.env_limit "-1")) = Some st
    /\ executing st = []
    /\ dequeued_of (trace st) = []
    /\ taskQueue (this st) = queued_of (trace st)
    /\ forall taskId, exists e,
         trace (manualExecuteTask taskId st) = (trace st ++ [Rejected e])%list
         /\ Errors.statusCode e = Some 429.
Proof.
  intros t evs. eexists. split; [vm_compute; reflexivity|].
  apply (negative_limit_starts_nothing (Sample.env_limit "-1") "-1" (-1) evs);
    [reflexivity | reflexivity | lia | vm_compute; reflexivity].
Defined.

(** ** The rate limiter *)

Section Limiter.
Import RateLimiter.


Lemma Map_get_set_same k v m : Map_get k (Map_set k v m) = Some v.
Proof.
  induction m as [|[k' v'] m IH]; cbn.
  - now rewrite String.eqb_refl.
  - destruct (String.eqb k k') eqn:E; cbn; rewrite ?String.eqb_refl, ?E; auto.
Qed.

Lemma Map_get_set_other k k' v m :
  String.eqb k' k = false -> Map_get k' (Map_set k v m) = Map_get k' m.
Proof.
  intros Hne. induction m as [|[k0 v0] m IH]; cbn.
  - now rewrite Hne.
  - destruct (String.eqb k k0) eqn:E; cbn.
    + apply String.eqb_eq in E. subst k0. now rewrite Hne.
    + now rewrite IH.
Qed.

Lemma Map_get_delete_same k m : Map_get k (Map_delete k m) = None.
Proof.
  unfold Map_delete. induction m as [|[k0 v0] m IH]; cbn; [reflexivity|].
  destruct (String.eqb k k0) eqn:E; cbn; [exact IH|]. now rewrite E.
Qed.

Lemma Map_get_delete_other k k' m :
  String.eqb k' k = false -> Map_get k' (Map_delete k m) = Map_get k' m.
Proof.
  intros Hne. unfold Map_delete. induction m as [|[k0 v0] m IH]; cbn; [reflexivity|].
  destruct (String.eqb k k0) eqn:E; cbn.
  - apply String.eqb_eq in E. subst k0. now rewrite Hne.
  - now rewrite IH.
Qed.

Lemma stored_set k k' v m :
  stored k' (Map_set k v m) = if String.eqb k' k then v else stored k' m.
Proof.
  unfold stored. destruct (String.eqb k' k) eqn:E.
  - apply String.eqb_eq in E. subst. now rewrite Map_get_set_same.
  - now rewrite Map_get_set_other.
Qed.

Lemma stored_delete k k' m :
  stored k' (Map_delete k m) = if String.eqb k' k then [] else stored k' m.
Proof.
  unfold stored. destruct (String.eqb k' k) eqn:E.
  - apply String.eqb_eq in E. subst. now rewrite Map_get_delete_same.
  - now rewrite Map_get_delete_other.
Qed.

(** An address that is first seen is stored with no request. *)
Lemma stored_seen k ip m :
  stored k (if negb (Map_has ip m) then Map_set ip [] m else m) = stored k m.
Proof.
  unfold Map_has. destruct (Map_get ip m) as [l|] eqn:E; cbn; [reflexivity|].
  rewrite stored_set. destruct (String.eqb k ip) eqn:Ek; [|reflexivity].
  apply String.eqb_eq in Ek. subst. unfold stored. now rewrite E.
Qed.

Lemma middleware_verdict ip now m :
  fst (middleware ip now m)
  = negb (Nat.leb maxRequests (List.length (recent now (stored ip m)))).
Proof.
  unfold middleware. cbv zeta.
  fold (stored ip (if negb (Map_has ip m) then Map_set ip [] m else m)).
  rewrite stored_seen.
  now destruct (Nat.leb maxRequests (List.length (recent now (stored ip m)))).
Qed.

Lemma middleware_stored ip now m k :
  stored k (snd (middleware ip now m))
  = if String.eqb k ip && fst (middleware ip now m)
    then (recent now (stored ip m) ++ [now])%list
    else stored k m.
Proof.
  rewrite middleware_verdict. unfold middleware. cbv zeta.
  fold (stored ip (if negb (Map_has ip m) then Map_set ip [] m else m)).
  rewrite stored_seen.
  destruct (Nat.leb maxRequests (List.length (recent now (stored ip m))));
    cbn [snd negb].
  - rewrite stored_seen. now rewrite andb_false_r.
  - rewrite stored_set, stored_seen, andb_true_r.
    reflexivity.
Qed.

(** The turns of [_cleanup] over the entries [l] of the map. *)
Lemma cleanup_turns now k l : forall acc,
  NoDup (map fst l) ->
  stored k
    (fold_left
       (fun acc entry =>
          match recent now (snd entry) with
          | [] => Map_delete (fst entry) acc
          | _ => Map_set (fst entry) (recent now (snd entry)) acc
          end) l acc)
  = match Map_get k l with
    | Some reqs => recent now reqs
    | None => stored k acc
    end.
Proof.
  induction l as [|[k0 v0] l IH]; intros acc Hnd; cbn [fold_left Map_get].
  - reflexivity.
  - inversion Hnd as [|? ? Hnotin Hnd']; subst.
    rewrite IH by exact Hnd'. cbn [fst snd].
    destruct (String.eqb k k0) eqn:E.
    + apply String.eqb_eq in E. subst k0.
      assert (Hnone : Map_get k l = None).
      { clear -Hnotin. induction l as [|[k1 v1] l IH]; cbn; [reflexivity|].
        cbn in Hnotin. destruct (String.eqb k k1) eqn:E.
        - apply String.eqb_eq in E. subst. exfalso. apply Hnotin. now left.
        - apply IH. intros H. apply Hnotin. now right. }
      rewrite Hnone.
      destruct (recent now v0) as [|x r] eqn:Er.
      * rewrite stored_delete. now rewrite String.eqb_refl.
      * rewrite stored_set. now rewrite String.eqb_refl.
    + destruct (Map_get k l) as [reqs|]; [reflexivity|].
      destruct (recent now v0) as [|x r].
      * rewrite stored_delete. now rewrite E.
      * rewrite stored_set. now rewrite E.
Qed.

Lemma cleanup_stored now k m :
  NoDup (map fst m) ->
  stored k (_cleanup now m) = recent now (stored k m).
Proof.
  intros Hnd. unfold _cleanup. rewrite cleanup_turns by exact Hnd.
  unfold stored. now destruct (Map_get k m).
Qed.

Lemma keys_Map_set k v m x :
  In x (map fst (Map_set k v m)) <-> x = k \/ In x (map fst m).
Proof.
  induction m as [|[k0 v0] m IH]; cbn.
  - intuition.
  - destruct (String.eqb k k0) eqn:E; cbn.
    + apply String.eqb_eq in E. subst. intuition.
    + rewrite IH. intuition.
Qed.

Lemma NoDup_Map_set k v m :
  NoDup (map fst m) -> NoDup (map fst (Map_set k v m)).
Proof.
  induction m as [|[k0 v0] m IH]; cbn; intros Hnd.
  - constructor; [intros [] | constructor].
  - inversion Hnd as [|? ? Hnotin Hnd']; subst.
    destruct (String.eqb k k0) eqn:E; cbn.
    + apply String.eqb_eq in E. subst. now constructor.
    + constructor; [|now apply IH].
      rewrite keys_Map_set. intros [-> | H]; [|contradiction].
      now rewrite String.eqb_refl in E.
Qed.

Lemma NoDup_Map_delete k m :
  NoDup (map fst m) -> NoDup (map fst (Map_delete k m)).
Proof.
  unfold Map_delete. induction m as [|[k0 v0] m IH]; cbn; intros Hnd;
    [constructor|].
  inversion Hnd as [|? ? Hnotin Hnd']; subst.
  destruct (String.eqb k k0); cbn; [now apply IH|].
  constructor; [|now apply IH].
  intros H. apply Hnotin. apply in_map_iff in H as ([k1 v1] & <- & H).
  apply filter_In in H as [H _]. apply in_map_iff. now exists (k1, v1).
Qed.

Lemma NoDup_middleware ip now m :
  NoDup (map fst m) -> NoDup (map fst (snd (middleware ip now m))).
Proof.
  intros Hnd. unfold middleware. cbv zeta.
  assert (H1 : NoDup (map fst (if negb (Map_has ip m)
                               then Map_set ip [] m else m)))
    by (destruct (negb (Map_has ip m)); [now apply NoDup_Map_set | exact Hnd]).
  destruct (Nat.leb _ _); cbn [snd]; [exact H1 | now apply NoDup_Map_set].
Qed.

Lemma NoDup_cleanup_turns now l : forall acc,
  NoDup (map fst acc) ->
  NoDup (map fst
           (fold_left
              (fun acc entry =>
                 match recent now (snd entry) with
                 | [] => Map_delete (fst entry) acc
                 | _ => Map_set (fst entry) (recent now (snd entry)) acc
                 end) l acc)).
Proof.
  induction l as [|e l IH]; intros acc Hnd; cbn [fold_left]; [exact Hnd|].
  apply IH. destruct (recent now (snd e));
    [now apply NoDup_Map_delete | now apply NoDup_Map_set].
Qed.

Lemma NoDup_cleanup now m :
  NoDup (map fst m) -> NoDup (map fst (_cleanup now m)).
Proof. apply NoDup_cleanup_turns. Qed.

Lemma NoDup_step m ev :
  NoDup (map fst m) -> NoDup (map fst (step m ev)).
Proof.
  destruct ev; cbn [step]; [apply NoDup_middleware | apply NoDup_cleanup].
Qed.

Lemma NoDup_steps evs : forall m,
  NoDup (map fst m) -> NoDup (map fst (fold_left step evs m)).
Proof.
  induction evs as [|ev evs IH]; intros m H; cbn [fold_left];
    [exact H | now apply IH, NoDup_step].
Qed.

Lemma NoDup_run evs : NoDup (map fst (run evs)).
Proof. apply NoDup_steps. constructor. Qed.

Lemma recent_length now l : (List.length (recent now l) <= List.length l)%nat.
Proof.
  unfold recent. induction l as [|x l IH]; cbn; [lia|].
  destruct (now - x <? windowMs); cbn; lia.
Qed.

Lemma recent_app now a b :
  recent now (a ++ b) = (recent now a ++ recent now b)%list.
Proof. apply filter_app. Qed.

(** What is recent later was recent before. *)
Lemma recent_recent t now l :
  t <= now -> recent now (recent t l) = recent now l.
Proof.
  intros Hle. unfold recent. induction l as [|x l IH]; cbn; [reflexivity|].
  destruct (t - x <? windowMs) eqn:E1; cbn; rewrite IH; [reflexivity|].
  destruct (now - x <? windowMs) eqn:E2; [|reflexivity].
  apply Z.ltb_lt in E2. apply Z.ltb_ge in E1. lia.
Qed.


Lemma bounded_step m ev :
  NoDup (map fst m) -> bounded m -> bounded (step m ev).
Proof.
  intros Hnd Hb k. destruct ev as [ip now | now]; cbn [step].
  - rewrite middleware_stored, middleware_verdict.
    destruct (String.eqb k ip); cbn [andb]; [|apply Hb].
    destruct (Nat.leb maxRequests (List.length (recent now (stored ip m))))
      eqn:E; cbn [negb]; [apply Hb|].
    apply Nat.leb_gt in E. rewrite length_app. cbn. lia.
  - rewrite cleanup_stored by exact Hnd.
    pose proof (recent_length now (stored k m)). specialize (Hb k). lia.
Qed.

Lemma bounded_steps evs : forall m,
  NoDup (map fst m) -> bounded m -> bounded (fold_left step evs m).
Proof.
  induction evs as [|ev evs IH]; intros m Hnd Hb; cbn [fold_left];
    [exact Hb|].
  apply IH; [now apply NoDup_step | now apply bounded_step].
Qed.

(** X22. However the requests and the cleanups follow one another, the
    limiter never stores more than 100 instants for an address. *)
Theorem limiter_stores_at_most_100 evs clientIP requests :
  Map_get clientIP (run evs) = Some requests ->
  (List.length requests <= 100)%nat.
Proof.
  intros H.
  assert (Hb : bounded (run evs)).
  { apply bounded_steps; [constructor|]. intros k. cbn. unfold maxRequests. lia. }
  specialize (Hb clientIP). unfold stored in Hb. now rewrite H in Hb.
Qed.

(** Three requests of two addresses and a cleanup. *)
Lemma limiter_stores_witness :
  let evs := [Request "10.0.0.1" 5; Request "10.0.0.2" 6; Cleanup 7;
              Request "10.0.0.1" 8] in
  Map_get "10.0.0.1" (run evs) = Some [5; 8]
  /\ (List.length [5; 8] <= 100)%nat.
Proof.
  intros evs. split; [vm_compute; reflexivity|].
  apply (limiter_stores_at_most_100 evs "10.0.0.1" [5; 8]).
  vm_compute; reflexivity.
Defined.

Lemma steps_recent evs : forall m (P0 : string -> list Z) T,
  NoDup (map fst m) ->
  (forall k now, T <= now -> recent now (stored k m) = recent now (P0 k)) ->
  forall ip now,
    ascending T (evs ++ [Request ip now]) = true ->
    recent now (stored ip (fold_left step evs m))
    = recent now (P0 ip ++ passed ip evs m).
Proof.
  induction evs as [|ev evs IH]; intros m P0 T Hnd Hinv ip now Hasc.
  - cbn in Hasc |- *. rewrite List.app_nil_r. apply Hinv.
    apply andb_true_iff in Hasc as [H _]. now apply Z.leb_le in H.
  - cbn [app ascending] in Hasc. apply andb_true_iff in Hasc as [HT Hasc].
    apply Z.leb_le in HT. cbn [fold_left].
    destruct ev as [ip' t | t]; cbn [instant] in *.
    + cbn [passed].
      rewrite (IH (step m (Request ip' t))
                  (fun k => if String.eqb k ip' && fst (middleware ip' t m)
                            then (P0 k ++ [t])%list else P0 k)
                  t (NoDup_step _ _ Hnd)); [| |exact Hasc].
      * destruct (String.eqb ip ip' && fst (middleware ip' t m));
          [now rewrite <- List.app_assoc | reflexivity].
      * intros k now' Hle. cbn [step]. rewrite middleware_stored.
        destruct (String.eqb k ip') eqn:Ek; cbn [andb]; [|apply Hinv; lia].
        apply String.eqb_eq in Ek. subst k.
        destruct (fst (middleware ip' t m)); [|apply Hinv; lia].
        rewrite !recent_app, recent_recent by exact Hle.
        f_equal. apply Hinv. lia.
    + cbn [passed].
      rewrite (IH (step m (Cleanup t)) P0 t (NoDup_step _ _ Hnd));
        [reflexivity | | exact Hasc].
      intros k now' Hle. cbn [step]. rewrite cleanup_stored by exact Hnd.
      rewrite recent_recent by exact Hle. apply Hinv. lia.
Qed.

(** X23. When the instants of the requests do not go back, a request is let
    through exactly when fewer than 100 requests of the same address were
    let through during the 60 seconds before it; the cleanups in between
    and the requests of other addresses do not matter. *)
Theorem limiter_counts_the_last_minute evs clientIP now from :
  ascending from (evs ++ [Request clientIP now]) = true ->
  fst (middleware clientIP now (run evs))
  = negb (Nat.leb 100
            (List.length (recent now (passed clientIP evs constructor)))).
Proof.
  intros Hasc. rewrite middleware_verdict. unfold run.
  rewrite (steps_recent evs constructor (fun _ => []) from); 
    [reflexivity | constructor | reflexivity | exact Hasc].
Qed.

(** A request one minute after the first of its address. *)
Lemma limiter_counts_witness :
  let evs := [Request "10.0.0.1" 5; Request "10.0.0.2" 6; Cleanup 7;
              Request "10.0.0.1" 8] in
  fst (middleware "10.0.0.1" 60006 (run evs))
  = negb (Nat.leb 100
            (List.length (recent 60006 (passed "10.0.0.1" evs constructor)))).
Proof.
  intros evs.
  apply (limiter_counts_the_last_minute evs "10.0.0.1" 60006 0).
  vm_compute; reflexivity.
Defined.

(** X24. A cleanup does not change what the limiter answers to a later
    request. *)
Theorem cleanup_keeps_the_verdicts evs cleanupAt clientIP now :
  cleanupAt <= now ->
  fst (middleware clientIP now (_cleanup cleanupAt (run evs)))
  = fst (middleware clientIP now (run evs)).
Proof.
  intros Hle. rewrite !middleware_verdict.
  rewrite cleanup_stored by apply NoDup_run.
  now rewrite recent_recent.
Qed.

(** A cleanup that deletes every entry. *)
Lemma cleanup_witness :
  let evs := [Request "10.0.0.1" 5; Request "10.0.0.2" 6] in
  fst (middleware "10.0.0.1" 70000 (_cleanup 60006 (run evs)))
  = fst (middleware "10.0.0.1" 70000 (run evs)).
Proof.
  intros evs.
  apply (cleanup_keeps_the_verdicts evs 60006 "10.0.0.1" 70000). lia.
Defined.

End Limiter.
